(** * pymlstate: the MNIST stream source and the batched Python model state

    A shallow embedding of the two Go packages of the repository:

    - package [mnist]: the binary dataset reader [getMNISTRawData], the
      shuffle [ramdomPermutaion] and the source loop [GenerateStream];
    - package [mlstate]: [PyMLState] with [NewPyMLState], [Write], [Fit],
      [FitMap], [Terminate] and the UDFs [PyMLFit] and [PyMLPredict].

    Go [int] values are [Z]; bytes are [Byte.byte]; [float32] and [float64]
    are IEEE-754 binary floats ([spec_float] at precision 24 and 53); a Go
    run-time panic is the [Panic] outcome; [make] panics on a negative
    length and on a length beyond what the machine allocates, a limit
    the definitions take as a parameter ([Memory]).  What lives outside the
    repository (the file system, [math/rand], [time], the SensorBee [data]
    conversions, the writer the source streams into and the Python
    instance behind [py.ObjectInstance]) is an interface the definitions
    are parametrised by. *)

From Stdlib Require Import ZArith List String Bool Lia Arith QArith Qabs.
From Stdlib Require Import Floats.SpecFloat.
From Stdlib Require Import Sorting.Permutation.
From Stdlib Require Init.Byte.
Import ListNotations.

Set Warnings "-register-all".

Local Open Scope string_scope.
Local Open Scope list_scope.
Local Open Scope Z_scope.

(* ================================================================= *)
(** ** Go run-time basics *)

Module Go.

(** A computation either returns or panics. *)
Inductive panic_kind : Type :=
| IndexOutOfRange
| MakeSliceOutOfRange
| IntnInvalidArgument.

Inductive outcome (A : Type) : Type :=
| Done (a : A)
| Panic (k : panic_kind).
Arguments Done {A} a.
Arguments Panic {A} k.

Definition bind {A B : Type} (m : outcome A) (f : A -> outcome B) : outcome B :=
  match m with
  | Done a => f a
  | Panic k => Panic k
  end.

(** [error] values.  The two sentinels of SensorBee's [core] package are
    compared with [==] in [GenerateStream]; every other error is just a
    message. *)
Inductive error : Type :=
| ErrSourceRewound
| ErrSourceStopped
| io_EOF
| ErrOther (msg : string).

Definition error_eqb (a b : error) : bool :=
  match a, b with
  | ErrSourceRewound, ErrSourceRewound => true
  | ErrSourceStopped, ErrSourceStopped => true
  | io_EOF, io_EOF => true
  | ErrOther x, ErrOther y => String.eqb x y
  | _, _ => false
  end.

(** [l[i]] and [l[i] = v] on a slice; both panic out of range. *)
Definition index {A : Type} (l : list A) (i : nat) : outcome A :=
  match nth_error l i with
  | Some a => Done a
  | None => Panic IndexOutOfRange
  end.

Fixpoint store {A : Type} (l : list A) (i : nat) (v : A) : outcome (list A) :=
  match l, i with
  | [], _ => Panic IndexOutOfRange
  | _ :: l', O => Done (v :: l')
  | a :: l', S i' =>
      match store l' i' v with
      | Done r => Done (a :: r)
      | Panic k => Panic k
      end
  end.

(** The bytes the runtime is able to allocate for one slice: its own
    limit ([maxAlloc], 2^48 on linux/amd64) or less on a machine with less
    memory.  [None] is a machine that never runs short. *)
Class Memory : Type := {
  maxAlloc : option Z
}.

(** Whether [n] elements of [elemsize] bytes each are within the limit. *)
Definition fits `{mem : Memory} (elemsize n : Z) : bool :=
  match maxAlloc with
  | None => true
  | Some m => n * elemsize <=? m
  end.

(** Element sizes in bytes on a 64-bit machine: [float32] and [int32],
    [int], a slice header, an interface value. *)
Definition size_float32 : Z := 4.
Definition size_int32 : Z := 4.
Definition size_int : Z := 8.
Definition size_slice : Z := 24.
Definition size_value : Z := 16.

(** [make([]T, n, n)]: [n] zero values; a panic ([makeslice: len out of
    range]) when [n] is negative or the slice is beyond what can be
    allocated. *)
Definition make `{mem : Memory} {A : Type} (elemsize : Z) (zero : A) (n : Z)
    : outcome (list A) :=
  if negb (fits elemsize n) || (n <? 0) then Panic MakeSliceOutOfRange
  else Done (repeat zero (Z.to_nat n)).

(** [make([]T, len, cap)]: a panic when [len] is negative or above [cap],
    or [cap] elements are beyond what can be allocated. *)
Definition make_cap `{mem : Memory} {A : Type} (elemsize : Z) (zero : A)
    (len cap : Z) : outcome (list A) :=
  if negb (fits elemsize cap) || (len <? 0) || (cap <? len)
  then Panic MakeSliceOutOfRange
  else Done (repeat zero (Z.to_nat len)).

(** The machine that never runs short.  It is the one meant wherever no
    other is named: there the slices made are as long as data already in
    memory. *)
#[global] Instance unlimited : Memory := {| maxAlloc := None |}.

(** The limit of the runtime on linux/amd64. *)
Definition amd64 : Memory := {| maxAlloc := Some (2 ^ 48) |}.

(** IEEE-754 binary32 and binary64. *)
Definition float32 : Type := spec_float.
Definition float64 : Type := spec_float.

Definition f32_of_Z (z : Z) : float32 := binary_normalize 24 128 z 0 false.
Definition f32_div (x y : float32) : float32 := SFdiv 24 128 x y.

Definition f64_of_Z (z : Z) : float64 := binary_normalize 53 1024 z 0 false.
Definition f64_div (x y : float64) : float64 := SFdiv 53 1024 x y.

(** [float64(f)] for a [float32] [f]: the same real number, renormalised. *)
Definition f64_of_f32 (f : float32) : float64 :=
  match f with
  | S754_finite s m e => binary_normalize 53 1024 (cond_Zopp s (Zpos m)) e s
  | _ => f
  end.

(** The rational a finite float denotes. *)
Definition SF2Q (f : spec_float) : Q :=
  match f with
  | S754_finite s m e =>
      let q := if (0 <=? e)%Z then inject_Z (Zpos m * 2 ^ e)
               else Qmake (Zpos m) (Z.to_pos (2 ^ (- e))) in
      if s then Qopp q else q
  | _ => 0%Q
  end.

Definition byte_to_Z (b : Byte.byte) : Z := Z.of_N (Byte.to_N b).

(** [bufio.Reader] over an opened file: the bytes not read yet.
    [ReadByte] returns the zero byte together with the error once the
    input is exhausted. *)
Definition Reader : Type := list Byte.byte.

Definition ReadByte (r : Reader) : Byte.byte * option error * Reader :=
  match r with
  | [] => (Byte.x00, Some io_EOF, [])
  | b :: r' => (b, None, r')
  end.

(** [os.Open]: the file system answers with the content or an error. *)
Definition FileSystem : Type := string -> list Byte.byte + error.

(** Indexing with a Go [int]: a negative index panics as well. *)
Definition indexZ {A : Type} (l : list A) (i : Z) : outcome A :=
  if i <? 0 then Panic IndexOutOfRange else index l (Z.to_nat i).

Definition storeZ {A : Type} (l : list A) (i : Z) (v : A) : outcome (list A) :=
  if i <? 0 then Panic IndexOutOfRange else store l (Z.to_nat i) v.

(** [math/rand]: the global source.  [Intn n] panics for [n <= 0] and
    otherwise draws from [[0, n)]. *)
Class RandSource (R : Type) : Type := {
  draw : R -> Z -> Z * R;
  draw_range : forall r n, 0 < n -> 0 <= fst (draw r n) < n
}.

Definition Intn {R : Type} `{RandSource R} (r : R) (n : Z) : outcome (Z * R) :=
  if n <=? 0 then Panic IntnInvalidArgument else Done (draw r n).

(** [time.Now]. *)
Class Clock (C : Type) : Type := {
  Now : C -> Z * C
}.

End Go.

Import Go.

Declare Scope go_scope.
Notation "x <- m ;; k" := (Go.bind m (fun x => k))
  (at level 61, m at next level, right associativity) : go_scope.
Notation "' p <- m ;; k" := (Go.bind m (fun x => let p := x in k))
  (at level 61, p pattern, m at next level, right associativity) : go_scope.
Local Open Scope go_scope.

(* ================================================================= *)
(** ** SensorBee [data] values and [core.Tuple] *)

Module data.

Inductive Value : Type :=
| Null
| Bool (b : bool)
| Int (i : Z)
| Float (f : float64)
| String (s : string)
| Blob (b : list Byte.byte)
| Timestamp (t : Z)
| Array (a : list Value)
| Map (m : list (string * Value)).

Definition Map_t : Type := list (string * Value).
Definition Path : Type := string.

(** The conversions of the [data] package that [Write] uses. *)
Class API : Type := {
  AsMap : Value -> Map_t + error;
  Get : Map_t -> Path -> Value + error;
  ToFloat : Value -> float64 + error
}.

(** The strict casts of the [data] package that [createMNISTDataSource]
    applies to its parameters. *)
Class Casts : Type := {
  AsString : Value -> string + error;
  AsInt : Value -> Z + error;
  AsBool : Value -> bool + error
}.

End data.

Module core.

Definition Time : Type := Z.

Record Tuple : Type := {
  Data : data.Value;
  Timestamp : Time;
  ProcTimestamp : Time;
  Trace : list string
}.

(** [core.Writer]: the sink a source streams into. *)
Class Writer (W : Type) : Type := {
  Write : W -> Tuple -> option error * W
}.

End core.

(* ================================================================= *)
(** ** package mnist *)

Module mnist.

Record mnistDataSource : Type := {
  data : list (list float32);
  target : list Z;
  dataSize : Z;
  imageElemSize : Z;
  batchSize : Z;
  randomFlag : bool
}.

Definition imagesDataOffsetSize : nat := 16.
Definition labelsDataOffsetSize : nat := 8.

(** [dataSource.reader]: open the file and wrap it in a buffered reader. *)
Definition reader (fs : FileSystem) (path : string) : Reader + error :=
  fs path.

(** [for i := 0; i < n; i++ { r.ReadByte() }] *)
Fixpoint skip_header (n : nat) (r : Reader) : Reader :=
  match n with
  | O => r
  | S n' => let '(_, _, r') := ReadByte r in skip_header n' r'
  end.

(** [for i := range data { data[i] = make([]float32, imageElemSize) }] *)
Fixpoint make_rows `{mem : Memory} (todo : nat) (i : nat) (imageElemSize : Z)
    (rows : list (list float32)) : outcome (list (list float32)) :=
  match todo with
  | O => Done rows
  | S todo' =>
      row <- make size_float32 (f32_of_Z 0) imageElemSize ;;
      rows' <- store rows i row ;;
      make_rows todo' (S i) imageElemSize rows'
  end.

(** [float32(ib) / 255] *)
Definition normalize (ib : Byte.byte) : float32 :=
  f32_div (f32_of_Z (byte_to_Z ib)) (f32_of_Z 255).

(** The inner loop over [j]: [data[i][j] = float32(ib) / 255]. *)
Fixpoint read_image (todo : nat) (i j : nat) (rows : list (list float32))
    (ir : Reader) : outcome (list (list float32) * Reader) :=
  match todo with
  | O => Done (rows, ir)
  | S todo' =>
      let '(ib, _, ir') := ReadByte ir in
      row <- index rows i ;;
      row' <- store row j (normalize ib) ;;
      rows' <- store rows i row' ;;
      read_image todo' i (S j) rows' ir'
  end.

(** The outer loop over [i]. *)
Fixpoint read_records (todo : nat) (i : nat) (imageElemSize : nat)
    (tgt : list Z) (rows : list (list float32)) (lr ir : Reader)
    : outcome (list Z * list (list float32) * Reader * Reader) :=
  match todo with
  | O => Done (tgt, rows, lr, ir)
  | S todo' =>
      let '(lb, _, lr') := ReadByte lr in
      tgt' <- store tgt i (byte_to_Z lb) ;;
      '(rows', ir') <- read_image imageElemSize i 0 rows ir ;;
      read_records todo' (S i) imageElemSize tgt' rows' lr' ir'
  end.

Definition getMNISTRawData `{mem : Memory} (fs : FileSystem)
    (imagesDataName labelsDataName : string) (dataSize imageElemSize : Z)
    : outcome (list Z * list (list float32) * option error) :=
  match reader fs imagesDataName with
  | inr err => Done ([], [], Some err)
  | inl ir =>
      match reader fs labelsDataName with
      | inr err => Done ([], [], Some err)
      | inl lr =>
          rows0 <- make size_slice ([] : list float32) dataSize ;;
          rows <- make_rows (List.length rows0) 0 imageElemSize rows0 ;;
          tgt <- make size_int32 0 dataSize ;;
          let ir := skip_header imagesDataOffsetSize ir in
          let lr := skip_header labelsDataOffsetSize lr in
          '(tgt', rows', _, _) <-
            read_records (Z.to_nat dataSize) 0 (Z.to_nat imageElemSize)
                         tgt rows lr ir ;;
          Done (tgt', rows', None)
      end
  end.

(** [for i := range perm { perm[i] = i }] *)
Fixpoint fill_identity (todo : nat) (i : nat) (perm : list Z)
    : outcome (list Z) :=
  match todo with
  | O => Done perm
  | S todo' =>
      perm' <- store perm i (Z.of_nat i) ;;
      fill_identity todo' (S i) perm'
  end.

Section Stream.

Context {R C W : Type} `{RandSource R} `{Clock C} `{core.Writer W}
        `{mem : Memory}.

(** The loop of [ramdomPermutaion]:
    [j := rand.Intn(i + 1); perm[i], perm[j] = perm[j], perm[i]]. *)
Fixpoint shuffle_from (todo : nat) (i : nat) (perm : list Z) (r : R)
    : outcome (list Z * R) :=
  match todo with
  | O => Done (perm, r)
  | S todo' =>
      '(j, r') <- Intn r (Z.of_nat i + 1) ;;
      pj <- indexZ perm j ;;
      pi <- index perm i ;;
      perm1 <- store perm i pj ;;
      perm2 <- storeZ perm1 j pi ;;
      shuffle_from todo' (S i) perm2 r'
  end.

Definition ramdomPermutaion (perm : list Z) (r : R) : outcome (list Z * R) :=
  shuffle_from (List.length perm) 0 perm r.

(** What [GenerateStream] acts on besides the source itself: the random
    source, the clock, the writer it was handed, the tuples written to it
    so far and the lines logged at info level. *)
Record Env : Type := {
  rng : R;
  clock : C;
  sink : W;
  written : list core.Tuple;
  logged : list string
}.

Definition is_halt (err : option error) : bool :=
  match err with
  | Some e => error_eqb e ErrSourceRewound || error_eqb e ErrSourceStopped
  | None => false
  end.

(** The emission loop [for i := 0; i < s.dataSize; i++].  The result is
    [inl err] when the loop returned [err] from inside and [inr env] when
    it ran to its end. *)
Fixpoint emit_from (todo : nat) (i : nat) (s : mnistDataSource) (env : Env)
    : outcome (option error * Env + Env) :=
  match todo with
  | O => Done (inr env)
  | S todo' =>
      row <- index (data s) i ;;
      let image := map (fun f => data.Float (f64_of_f32 f)) row in
      label <- index (target s) i ;;
      let dm := data.Map [("label", data.Int label);
                          ("data", data.Array image)] in
      let '(now, clock') := Now (clock env) in
      let tu := {| core.Data := dm;
                   core.Timestamp := now;
                   core.ProcTimestamp := now;
                   core.Trace := [] |} in
      let '(err, sink') := core.Write (sink env) tu in
      let env' := {| rng := rng env;
                     clock := clock';
                     sink := sink';
                     written := written env ++ [tu];
                     logged := logged env |} in
      if is_halt err then Done (inl (err, env'))
      else emit_from todo' (S i) s env'
  end.

(** The first lines of [GenerateStream]: the identity permutation,
    shuffled when [randomFlag] is set. *)
Definition stream_perm (s : mnistDataSource) (r : R) : outcome (list Z * R) :=
  perm0 <- make size_int 0 (dataSize s) ;;
  perm1 <- fill_identity (List.length perm0) 0 perm0 ;;
  if randomFlag s then ramdomPermutaion perm1 r else Done (perm1, r).

Definition GenerateStream (s : mnistDataSource) (env : Env)
    : outcome (option error * Env) :=
  '(perm, rng') <- stream_perm s (rng env) ;;
  let env1 := {| rng := rng';
                 clock := clock env;
                 sink := sink env;
                 written := written env;
                 logged := logged env |} in
  r <- emit_from (Z.to_nat (dataSize s)) 0 s env1 ;;
  match r with
  | inl (err, env2) => Done (err, env2)
  | inr env2 =>
      Done (None, {| rng := rng env2;
                     clock := clock env2;
                     sink := sink env2;
                     written := written env2;
                     logged := logged env2
                               ++ ["all MNIST data has been streaming"] |})
  end.

End Stream.

Arguments Env : clear implicits.

(** What [createMNISTDataSource] builds once its parameters are parsed. *)
Definition newDataSource `{mem : Memory} (fs : FileSystem)
    (imagesDataName labelsDataName : string)
    (dataSize imageElemSize batchSize : Z) (randomFlag : bool)
    : outcome (mnistDataSource + error) :=
  '(target, data, err) <-
    getMNISTRawData fs imagesDataName labelsDataName dataSize imageElemSize ;;
  match err with
  | Some e => Done (inr e)
  | None =>
      Done (inl {| data := data;
                   target := target;
                   dataSize := dataSize;
                   imageElemSize := imageElemSize;
                   batchSize := batchSize;
                   randomFlag := randomFlag |})
  end.

Definition imagesFileNamePath : data.Path := "images_file_name".
Definition labelsFileNamePath : data.Path := "labels_file_name".
Definition dataSizePath : data.Path := "data_size".
Definition imageElemSizePath : data.Path := "image_element_size".
Definition batchSizePath : data.Path := "batch_size".
Definition randomFlagPath : data.Path := "random".

Section Create.

Context `{data.API} `{data.Casts} `{mem : Memory}.

(** [createMNISTDataSource]: the WITH parameters are read in the order of
    the source, a required one failing with the error of [Get] or of the
    cast, an optional one falling back to its default when [Get] fails;
    then the files are read. *)
Definition createMNISTDataSource (fs : FileSystem) (params : data.Map_t)
    : outcome (mnistDataSource + error) :=
  match data.Get params imagesFileNamePath with
  | inr err => Done (inr err)
  | inl idn =>
  match data.AsString idn with
  | inr err => Done (inr err)
  | inl imagesDataName =>
  match data.Get params labelsFileNamePath with
  | inr err => Done (inr err)
  | inl ldn =>
  match data.AsString ldn with
  | inr err => Done (inr err)
  | inl labelsDataName =>
  match data.Get params dataSizePath with
  | inr err => Done (inr err)
  | inl ds =>
  match data.AsInt ds with
  | inr err => Done (inr err)
  | inl dataSize =>
  match (match data.Get params imageElemSizePath with
         | inl ies => data.AsInt ies
         | inr _ => inl (28 * 28)
         end) with
  | inr err => Done (inr err)
  | inl imageElemSize =>
  match data.Get params batchSizePath with
  | inr err => Done (inr err)
  | inl bs =>
  match data.AsInt bs with
  | inr err => Done (inr err)
  | inl batchSize =>
  match (match data.Get params randomFlagPath with
         | inl flag => data.AsBool flag
         | inr _ => inl true
         end) with
  | inr err => Done (inr err)
  | inl randomFlag =>
      newDataSource fs imagesDataName labelsDataName dataSize imageElemSize
                    batchSize randomFlag
  end end end end end end end end end end.

End Create.

End mnist.

(* ================================================================= *)
(** ** The Python side: [py.ObjectModule] and [py.ObjectInstance] *)

Module py.

Definition ObjectModule : Type := nat.
Definition ObjectInstance : Type := nat.

(** Every crossing into the interpreter, in the order it happened. *)
Inductive Event : Type :=
| EvImportSysAndAppendPath (path : string)
| EvLoadModule (name : string)
| EvNewInstance (mdl : ObjectModule) (className : string) (arg : data.Value)
| EvCall (ins : ObjectInstance) (name : string) (arg : data.Value)
| EvDecRefModule (mdl : ObjectModule)
| EvDecRefInstance (ins : ObjectInstance).

(** The interpreter answers as a function of everything that happened
    before the request. *)
Class Runtime : Type := {
  load_result : list Event -> string -> ObjectModule + error;
  instance_result :
    list Event -> ObjectModule -> string -> data.Value -> ObjectInstance + error;
  call_result :
    list Event -> ObjectInstance -> string -> data.Value
    -> data.Value * option error
}.

(** The argument of [ev] when it is a call of [name], for counting. *)
Definition call_arg (name : string) (ev : Event) : option data.Value :=
  match ev with
  | EvCall _ n arg => if String.eqb n name then Some arg else None
  | _ => None
  end.

Fixpoint calls_of (name : string) (tr : list Event) : list data.Value :=
  match tr with
  | [] => []
  | ev :: tr' =>
      match call_arg name ev with
      | Some arg => arg :: calls_of name tr'
      | None => calls_of name tr'
      end
  end.

End py.

(* ================================================================= *)
(** ** package mlstate *)

Module mlstate.

Definition lossPath : data.Path := "loss".
Definition accPath : data.Path := "accuracy".

Record PyMLState : Type := {
  mdl : py.ObjectModule;
  ins : py.ObjectInstance;
  bucket : list data.Value;
  batchSize : Z
}.

(** The interpreter trace and the debug log of [ctx.Log()]; a debug line
    keeps the two numbers handed to [Debugf]. *)
Record World : Type := {
  pytrace : list py.Event;
  debugged : list (float64 * float64)
}.

Definition set_bucket (s : PyMLState) (b : list data.Value) : PyMLState :=
  {| mdl := mdl s; ins := ins s; bucket := b; batchSize := batchSize s |}.

Definition record_event (w : World) (ev : py.Event) : World :=
  {| pytrace := pytrace w ++ [ev]; debugged := debugged w |}.

Definition Debugf (w : World) (loss acc : float64) : World :=
  {| pytrace := pytrace w; debugged := debugged w ++ [(loss, acc)] |}.

Section WithRuntime.

Context `{py.Runtime} `{data.API} `{mem : Memory}.

(** [ins.Call(name, arg)] *)
Definition Call (i : py.ObjectInstance) (name : string) (arg : data.Value)
    (w : World) : data.Value * option error * World :=
  let '(v, err) := py.call_result (pytrace w) i name arg in
  (v, err, record_event w (py.EvCall i name arg)).

Definition NewPyMLState (modulePathName moduleName className : string)
    (batchSize : Z) (modelPath : string) (w : World)
    : outcome ((PyMLState + error) * World) :=
  let w1 := record_event w (py.EvImportSysAndAppendPath modulePathName) in
  let r := py.load_result (pytrace w1) moduleName in
  let w2 := record_event w1 (py.EvLoadModule moduleName) in
  match r with
  | inr err => Done (inr err, w2)
  | inl m =>
      let r := py.instance_result (pytrace w2) m className
                                  (data.String modelPath) in
      let w3 := record_event w2
                  (py.EvNewInstance m className (data.String modelPath)) in
      match r with
      | inr err => Done (inr err, record_event w3 (py.EvDecRefModule m))
      | inl i =>
          bucket0 <- make_cap size_value data.Null 0 batchSize ;;
          Done (inl {| mdl := m; ins := i; bucket := bucket0;
                       batchSize := batchSize |}, w3)
      end
  end.

Definition Terminate (s : PyMLState) (w : World)
    : option error * PyMLState * World :=
  let w1 := record_event w (py.EvDecRefInstance (ins s)) in
  let w2 := record_event w1 (py.EvDecRefModule (mdl s)) in
  (None, s, w2).

Definition Fit (s : PyMLState) (bucket : list data.Value) (w : World)
    : data.Value * option error * PyMLState * World :=
  let '(v, err, w') := Call (ins s) "fit" (data.Array bucket) w in
  (v, err, s, w').

Definition FitMap (s : PyMLState) (bucket : list data.Map_t) (w : World)
    : data.Value * option error * PyMLState * World :=
  let args := map data.Map bucket in
  let '(v, err, w') := Call (ins s) "fit" (data.Array args) w in
  (v, err, s, w').

(** [Write]: append, and once the bucket has reached [batchSize] call
    [Fit], clear the bucket and try to log loss and accuracy.  Each
    [return err] of the source is a branch below. *)
Definition Write (s : PyMLState) (t : core.Tuple) (w : World)
    : option error * PyMLState * World :=
  let s1 := set_bucket s (bucket s ++ [core.Data t]) in
  if Z.of_nat (List.length (bucket s1)) >=? batchSize s1 then
    let '(m, er, s2, w1) := Fit s1 (bucket s1) w in
    let err := er in
    let s3 := set_bucket s2 [] in
    match data.AsMap m with
    | inl ret =>
        match data.Get ret lossPath with
        | inr _ => (err, s3, w1)
        | inl l =>
            match data.ToFloat l with
            | inr _ => (err, s3, w1)
            | inl loss =>
                match data.Get ret accPath with
                | inr _ => (err, s3, w1)
                | inl a =>
                    match data.ToFloat a with
                    | inr _ => (err, s3, w1)
                    | inl acc =>
                        let w2 := Debugf w1
                                    (f64_div loss (f64_of_Z (batchSize s3)))
                                    (f64_div acc (f64_of_Z (batchSize s3))) in
                        (err, s3, w2)
                    end
                end
            end
        end
    | inr _ => (err, s3, w1)
    end
  else (None, s1, w).

(** Shared states registered in the context, by name. *)
Inductive SharedState : Type :=
| StPyMLState (s : PyMLState)
| StOther (kind : string).

Record Context : Type := {
  SharedStates : string -> SharedState + error;
  world : World
}.

Definition set_world (ctx : Context) (w : World) : Context :=
  {| SharedStates := SharedStates ctx; world := w |}.

Definition lookupPyMLState (ctx : Context) (stateName : string)
    : PyMLState + error :=
  match SharedStates ctx stateName with
  | inr err => inr err
  | inl (StPyMLState s) => inl s
  | inl (StOther _) =>
      inr (ErrOther (String.append "state '"
                      (String.append stateName "' isn't a PyMLState")))
  end.

(** The UDFs return a possibly nil value ([None]) next to the error. *)
(** A method called through the pointer found under [stateName] leaves
    the object it pointed to in the state the method left it in. *)
Definition set_state (ctx : Context) (stateName : string) (s : PyMLState)
    (w : World) : Context :=
  {| SharedStates := fun n => if String.eqb n stateName
                              then inl (StPyMLState s)
                              else SharedStates ctx n;
     world := w |}.

Definition PyMLFit (ctx : Context) (stateName : string)
    (bucket : list data.Map_t) : option data.Value * option error * Context :=
  match lookupPyMLState ctx stateName with
  | inr err => (None, Some err, ctx)
  | inl s =>
      let '(v, err, s', w') := FitMap s bucket (world ctx) in
      (Some v, err, set_state ctx stateName s' w')
  end.

Definition PyMLPredict (ctx : Context) (stateName : string) (dt : data.Value)
    : option data.Value * option error * Context :=
  match lookupPyMLState ctx stateName with
  | inr err => (None, Some err, ctx)
  | inl s =>
      let '(v, err, w') := Call (ins s) "predict" dt (world ctx) in
      (Some v, err, set_world ctx w')
  end.

(** *** [Write] statement by statement

    [PyMLState] has four fields and none of them is a lock, so what two
    goroutines calling [Write] on one instance can do is what the
    statements of [Write] allow.  A goroutine is at one of the statements
    below; one step runs that statement on the shared instance.  Taking a
    statement as one step leaves out what two goroutines can do inside
    one statement, so every run of this machine is a run of the code, not
    the other way round. *)
Inductive pc : Type :=
| AtAppend (t : core.Tuple)
| AtCheck
| AtFit
| AtClear (m : data.Value) (er : option error)
| AtLog (m : data.Value) (err : option error)
| Returned (err : option error).

(** The logging block as one step: the world after it. *)
Definition log_fit_result (batchSize : Z) (m : data.Value) (w : World)
    : World :=
  match data.AsMap m with
  | inl ret =>
      match data.Get ret lossPath with
      | inr _ => w
      | inl l =>
          match data.ToFloat l with
          | inr _ => w
          | inl loss =>
              match data.Get ret accPath with
              | inr _ => w
              | inl a =>
                  match data.ToFloat a with
                  | inr _ => w
                  | inl acc =>
                      Debugf w (f64_div loss (f64_of_Z batchSize))
                               (f64_div acc (f64_of_Z batchSize))
                  end
              end
          end
      end
  | inr _ => w
  end.

Definition step (p : pc) (s : PyMLState) (w : World)
    : pc * PyMLState * World :=
  match p with
  | AtAppend t => (AtCheck, set_bucket s (bucket s ++ [core.Data t]), w)
  | AtCheck =>
      if Z.of_nat (List.length (bucket s)) >=? batchSize s
      then (AtFit, s, w)
      else (Returned None, s, w)
  | AtFit =>
      let '(m, er, s', w') := Fit s (bucket s) w in
      (AtClear m er, s', w')
  | AtClear m er => (AtLog m er, set_bucket s [], w)
  | AtLog m err => (Returned err, s, log_fit_result (batchSize s) m w)
  | Returned err => (Returned err, s, w)
  end.

(** A write is in flight from its append until it has returned. *)
Definition in_flight (p : pc) : bool :=
  match p with
  | AtAppend _ => false
  | Returned _ => false
  | _ => true
  end.

Inductive goroutine : Type := G1 | G2.

Record Machine : Type := {
  shared : PyMLState;
  mworld : World;
  pc1 : pc;
  pc2 : pc
}.

Definition start (s : PyMLState) (w : World) (t1 t2 : core.Tuple) : Machine :=
  {| shared := s; mworld := w; pc1 := AtAppend t1; pc2 := AtAppend t2 |}.

Definition sched_step (m : Machine) (g : goroutine) : Machine :=
  match g with
  | G1 => let '(p, s, w) := step (pc1 m) (shared m) (mworld m) in
          {| shared := s; mworld := w; pc1 := p; pc2 := pc2 m |}
  | G2 => let '(p, s, w) := step (pc2 m) (shared m) (mworld m) in
          {| shared := s; mworld := w; pc1 := pc1 m; pc2 := p |}
  end.

Definition run (sched : list goroutine) (m : Machine) : Machine :=
  fold_left sched_step sched m.

(** No schedule brings both writes in flight at once. *)
Definition mutually_exclusive : Prop :=
  forall (s : PyMLState) (w : World) (t1 t2 : core.Tuple)
         (sched : list goroutine),
    let m := run sched (start s w t1 t2) in
    in_flight (pc1 m) && in_flight (pc2 m) = false.

(** The longest path through [Write] has five statements. *)
Definition solo (g : goroutine) : list goroutine := repeat g 5.

(** The writes of a list of tuples, one after the other: the errors they
    returned, the state and the world they left. *)
Fixpoint writes (s : PyMLState) (ts : list core.Tuple) (w : World)
    : list (option error) * PyMLState * World :=
  match ts with
  | [] => ([], s, w)
  | t :: ts' =>
      let '(err, s', w') := Write s t w in
      let '(errs, s'', w'') := writes s' ts' w' in
      (err :: errs, s'', w'')
  end.

End WithRuntime.

(** The operations a caller can apply to a model state it holds. *)
Inductive operation : Type :=
| OpWrite (t : core.Tuple)
| OpFit (b : list data.Value)
| OpFitMap (b : list data.Map_t)
| OpPredict (dt : data.Value)
| OpTerminate.

Section Operations.

Context `{py.Runtime} `{data.API}.

Definition apply_op (o : operation) (s : PyMLState) (w : World)
    : PyMLState * World :=
  match o with
  | OpWrite t => let '(_, s', w') := Write s t w in (s', w')
  | OpFit b => let '(_, _, s', w') := Fit s b w in (s', w')
  | OpFitMap b => let '(_, _, s', w') := FitMap s b w in (s', w')
  | OpPredict dt =>
      let '(_, _, w') := Call (ins s) "predict" dt w in (s, w')
  | OpTerminate => let '(_, s', w') := Terminate s w in (s', w')
  end.

Fixpoint apply_ops (os : list operation) (s : PyMLState) (w : World)
    : PyMLState * World :=
  match os with
  | [] => (s, w)
  | o :: os' => let '(s', w') := apply_op o s w in apply_ops os' s' w'
  end.

End Operations.

End mlstate.

(* ================================================================= *)
(** ** Small environments to run the definitions on *)

Module sample.

(** A random source that replays a script of raw draws. *)
#[local] Instance scripted_rand : RandSource (list Z).
Proof.
  refine {| draw := fun r n => match r with
                               | [] => (0, [])
                               | x :: r' => (x mod n, r')
                               end |}.
  intros r n Hn. destruct r as [|x r']; simpl.
  - lia.
  - apply Z.mod_pos_bound. exact Hn.
Defined.

(** A clock that counts its readings. *)
#[local] Instance counting_clock : Clock nat :=
  {| Now := fun c => (Z.of_nat c, S c) |}.

(** A writer that answers from a script and accepts once it ran out. *)
#[local] Instance scripted_writer : core.Writer (list (option error)) :=
  {| core.Write := fun w _ => match w with
                              | [] => (None, [])
                              | e :: w' => (e, w')
                              end |}.

(** The casts of [data] on the values the examples use. *)
Fixpoint assoc (m : data.Map_t) (k : string) : data.Value + error :=
  match m with
  | [] => inr (ErrOther "not found")
  | (k', v) :: m' => if String.eqb k k' then inl v else assoc m' k
  end.

Definition plain_api : data.API :=
  {| data.AsMap := fun v => match v with
                            | data.Map m => inl m
                            | _ => inr (ErrOther "unsupported cast")
                            end;
     data.Get := assoc;
     data.ToFloat := fun v => match v with
                              | data.Int i => inl (f64_of_Z i)
                              | data.Float f => inl f
                              | _ => inr (ErrOther "unsupported cast")
                              end |}.

(** An interpreter whose every call answers [v] with error [e]. *)
Definition answering (v : data.Value) (e : option error) : py.Runtime :=
  {| py.load_result := fun _ _ => inl 1%nat;
     py.instance_result := fun _ _ _ _ => inl 2%nat;
     py.call_result := fun _ _ _ _ => (v, e) |}.

(** A file system holding an image file and a label file. *)
Definition two_files (img lbl : list Byte.byte) : FileSystem :=
  fun path =>
    if String.eqb path "images" then inl img
    else if String.eqb path "labels" then inl lbl
    else inr (ErrOther "no such file").

Definition header (n : nat) : list Byte.byte := repeat Byte.x2a n.

(** A source of one-pixel images with the given labels. *)
Definition source_of (labels : list Z) (random : bool)
    : mnist.mnistDataSource :=
  {| mnist.data := map (fun _ => [S754_zero false]) labels;
     mnist.target := labels;
     mnist.dataSize := Z.of_nat (List.length labels);
     mnist.imageElemSize := 1;
     mnist.batchSize := 1;
     mnist.randomFlag := random |}.

(** A stream call that starts with the draws [script] ahead of it and a
    writer that will answer [answers]. *)
Definition env_of (script : list Z) (answers : list (option error))
    : mnist.Env (list Z) nat (list (option error)) :=
  {| mnist.rng := script;
     mnist.clock := 0%nat;
     mnist.sink := answers;
     mnist.written := [];
     mnist.logged := [] |}.

(** An interpreter whose fit reports loss and accuracy, one whose every
    call fails, and one whose fit returns a string. *)
Definition learner : py.Runtime :=
  answering (data.Map [("loss", data.Int 6); ("accuracy", data.Int 3)]) None.

Definition broken : py.Runtime :=
  answering data.Null (Some (ErrOther "fit failed")).

Definition terse : py.Runtime :=
  answering (data.String "ok") None.

(** The strict casts: each accepts its own kind of value only. *)
Definition strict_casts : data.Casts :=
  {| data.AsString := fun v => match v with
                               | data.String s => inl s
                               | _ => inr (ErrOther "unsupported cast")
                               end;
     data.AsInt := fun v => match v with
                            | data.Int i => inl i
                            | _ => inr (ErrOther "unsupported cast")
                            end;
     data.AsBool := fun v => match v with
                             | data.Bool b => inl b
                             | _ => inr (ErrOther "unsupported cast")
                             end |}.

(** The required WITH parameters of a source over [two_files]. *)
Definition required_params (dataSize batchSize : Z) : data.Map_t :=
  [("images_file_name", data.String "images");
   ("labels_file_name", data.String "labels");
   ("data_size", data.Int dataSize);
   ("batch_size", data.Int batchSize)].

(** An interpreter whose fit fails and still returns a report. *)
Definition failing_with_report : py.Runtime :=
  answering (data.Map [("loss", data.Int 6); ("accuracy", data.Int 3)])
            (Some (ErrOther "fit failed")).

Definition tuple_of (v : data.Value) : core.Tuple :=
  {| core.Data := v; core.Timestamp := 0; core.ProcTimestamp := 0;
     core.Trace := [] |}.

Definition fresh_state (k : Z) : mlstate.PyMLState :=
  {| mlstate.mdl := 1%nat; mlstate.ins := 2%nat; mlstate.bucket := [];
     mlstate.batchSize := k |}.

Definition empty_world : mlstate.World :=
  {| mlstate.pytrace := []; mlstate.debugged := [] |}.

End sample.

#[global] Existing Instances
  sample.scripted_rand sample.counting_clock sample.scripted_writer.

(* ================================================================= *)
(** ** Notions the statements below are phrased with *)

(** [n] bytes read from [r], with the zero byte past its end. *)
Fixpoint take_padded (n : nat) (r : Reader) : list Byte.byte :=
  match n with
  | O => []
  | S n' =>
      match r with
      | [] => Byte.x00 :: take_padded n' []
      | b :: r' => b :: take_padded n' r'
      end
  end.

(** [n] images of [e] bytes each read from [r]. *)
Fixpoint images (n e : nat) (r : Reader) : list (list float32) :=
  match n with
  | O => []
  | S n' => map mnist.normalize (take_padded e r) :: images n' e (skipn e r)
  end.


Section StreamNotions.

Context {C W : Type} `{Clock C} `{core.Writer W}.

(** The tuple emitted for index [i] when the clock reads [now]. *)
Definition record_at (s : mnist.mnistDataSource) (i : nat) (now : Z)
    : core.Tuple :=
  {| core.Data :=
       data.Map
         [("label", data.Int (nth i (mnist.target s) 0));
          ("data", data.Array (map (fun f => data.Float (f64_of_f32 f))
                                   (nth i (mnist.data s) [])))];
     core.Timestamp := now;
     core.ProcTimestamp := now;
     core.Trace := [] |}.

(** The tuples for indices [i], [i + 1], ... in that order, each stamped
    with the next reading of the clock. *)
Fixpoint stream_tuples (todo : nat) (i : nat) (s : mnist.mnistDataSource)
    (c : C) : list core.Tuple :=
  match todo with
  | O => []
  | S todo' =>
      let '(now, c') := Now c in
      record_at s i now :: stream_tuples todo' (S i) s c'
  end.

(** What the writer answers when it is handed [tus] one by one. *)
Fixpoint sink_answers (w : W) (tus : list core.Tuple)
    : list (option error) :=
  match tus with
  | [] => []
  | tu :: rest =>
      let '(err, w') := core.Write w tu in
      err :: sink_answers w' rest
  end.

End StreamNotions.

(** The Dataset invariant: as many images and labels as [dataSize]. *)
Definition well_formed (s : mnist.mnistDataSource) : Prop :=
  0 <= mnist.dataSize s
  /\ List.length (mnist.data s) = Z.to_nat (mnist.dataSize s)
  /\ List.length (mnist.target s) = Z.to_nat (mnist.dataSize s).

(** The label a written tuple carries. *)
Definition label_of (tu : core.Tuple) : option Z :=
  match core.Data tu with
  | data.Map ((_, data.Int l) :: _) => Some l
  | _ => None
  end.

(** The same source with [randomFlag] set to [b]. *)
Definition set_randomFlag (s : mnist.mnistDataSource) (b : bool)
    : mnist.mnistDataSource :=
  {| mnist.data := mnist.data s;
     mnist.target := mnist.target s;
     mnist.dataSize := mnist.dataSize s;
     mnist.imageElemSize := mnist.imageElemSize s;
     mnist.batchSize := mnist.batchSize s;
     mnist.randomFlag := b |}.

(** The same environment with the random source replaced. *)
Definition set_rng {R C W : Type} (env : mnist.Env R C W) (r : R)
    : mnist.Env R C W :=
  {| mnist.rng := r;
     mnist.clock := mnist.clock env;
     mnist.sink := mnist.sink env;
     mnist.written := mnist.written env;
     mnist.logged := mnist.logged env |}.

(** The records of a bucket handed to fit. *)
Definition array_items (v : data.Value) : list data.Value :=
  match v with
  | data.Array l => l
  | _ => []
  end.

(** The data of the tuple [GenerateStream] builds for index [i]. *)
Definition record_data (s : mnist.mnistDataSource) (i : nat) : data.Value :=
  data.Map
    [("label", data.Int (nth i (mnist.target s) 0));
     ("data", data.Array (map (fun f => data.Float (f64_of_f32 f))
                              (nth i (mnist.data s) [])))].
(* ================================================================= *)
(** ** Slices *)

Lemma store_at_end_of_prefix {A : Type} (pre post : list A) (x v : A) :
  store (pre ++ x :: post) (List.length pre) v = Done (pre ++ v :: post).
Proof.
  induction pre as [|a pre IH]; simpl.
  - reflexivity.
  - rewrite IH. reflexivity.
Qed.

Lemma index_at_end_of_prefix {A : Type} (pre post : list A) (x : A) :
  index (pre ++ x :: post) (List.length pre) = Done x.
Proof.
  unfold index. rewrite nth_error_app2 by lia.
  rewrite Nat.sub_diag. reflexivity.
Qed.

Lemma app_cons_assoc {A : Type} (pre : list A) (x : A) (post : list A) :
  pre ++ x :: post = (pre ++ [x]) ++ post.
Proof. rewrite <- app_assoc. reflexivity. Qed.

Lemma store_in_range {A : Type} (l : list A) (i : nat) (v : A) :
  (i < List.length l)%nat -> exists l', store l i v = Done l'.
Proof.
  revert i. induction l as [|a l IH]; intros i Hi; simpl in Hi.
  - lia.
  - destruct i as [|i]; simpl.
    + eexists. reflexivity.
    + destruct (IH i ltac:(lia)) as [l' Hl']. rewrite Hl'.
      eexists. reflexivity.
Qed.

Lemma store_nth_error {A : Type} (l l' : list A) (i k : nat) (v : A) :
  store l i v = Done l' ->
  nth_error l' k = if Nat.eqb k i then Some v else nth_error l k.
Proof.
  revert l' i k. induction l as [|a l IH]; intros l' i k Hs; simpl in Hs.
  - discriminate.
  - destruct i as [|i].
    + injection Hs as <-. destruct k; reflexivity.
    + destruct (store l i v) as [r|] eqn:Er; [|discriminate].
      injection Hs as <-. destruct k as [|k]; simpl.
      * reflexivity.
      * apply IH. exact Er.
Qed.

Lemma store_length {A : Type} (l l' : list A) (i : nat) (v : A) :
  store l i v = Done l' -> List.length l' = List.length l.
Proof.
  revert l' i. induction l as [|a l IH]; intros l' i Hs; simpl in Hs.
  - discriminate.
  - destruct i as [|i].
    + injection Hs as <-. reflexivity.
    + destruct (store l i v) as [r|] eqn:Er; [|discriminate].
      injection Hs as <-. simpl. f_equal. eapply IH. exact Er.
Qed.

(** Storing [v] over [x] trades one for the other. *)
Lemma store_trades {A : Type} (l l' : list A) (i : nat) (v x : A) :
  store l i v = Done l' ->
  nth_error l i = Some x ->
  Permutation (v :: l) (x :: l').
Proof.
  revert l' i. induction l as [|a l IH]; intros l' i Hs Hx; simpl in Hs.
  - discriminate.
  - destruct i as [|i].
    + injection Hs as <-. simpl in Hx. injection Hx as ->. apply perm_swap.
    + destruct (store l i v) as [r|] eqn:Er; [|discriminate].
      injection Hs as <-. simpl in Hx.
      apply perm_trans with (a :: v :: l); [apply perm_swap|].
      apply perm_trans with (a :: x :: r); [|apply perm_swap].
      apply perm_skip. eapply IH; [exact Er|exact Hx].
Qed.

(** The two stores of a swap leave a permutation of the slice. *)
Lemma swap_permutes {A : Type} (l l1 l2 : list A) (i j : nat) (pi pj : A) :
  nth_error l i = Some pi ->
  nth_error l j = Some pj ->
  store l i pj = Done l1 ->
  store l1 j pi = Done l2 ->
  Permutation l l2.
Proof.
  intros Hi Hj H1 H2.
  assert (Hj1 : nth_error l1 j = Some pj).
  { rewrite (store_nth_error l l1 i j pj H1).
    destruct (Nat.eqb j i); [reflexivity|exact Hj]. }
  pose proof (store_trades l l1 i pj pi H1 Hi) as P1.
  pose proof (store_trades l1 l2 j pi pj H2 Hj1) as P2.
  apply Permutation_cons_inv with (a := pj).
  apply perm_trans with (pi :: l1); assumption.
Qed.

(* ================================================================= *)
(** ** The dataset reader *)

Lemma skip_header_skipn (n : nat) (r : Reader) :
  mnist.skip_header n r = skipn n r.
Proof.
  revert r. induction n as [|n IH]; intros r; simpl.
  - reflexivity.
  - destruct r as [|b r']; simpl.
    + rewrite IH. apply skipn_nil.
    + apply IH.
Qed.

Lemma length_take_padded (n : nat) (r : Reader) :
  List.length (take_padded n r) = n.
Proof.
  revert r. induction n as [|n IH]; intros r; simpl.
  - reflexivity.
  - destruct r; simpl; rewrite IH; reflexivity.
Qed.

Lemma nth_take_padded (n i : nat) (r : Reader) :
  (i < n)%nat -> nth_error (take_padded n r) i = Some (nth i r Byte.x00).
Proof.
  revert i r. induction n as [|n IH]; intros i r Hi.
  - lia.
  - destruct i as [|i]; destruct r as [|b r']; simpl; try reflexivity.
    + rewrite IH by lia. destruct i; reflexivity.
    + apply IH. lia.
Qed.

Lemma length_images (n e : nat) (r : Reader) :
  List.length (images n e r) = n.
Proof.
  revert r. induction n as [|n IH]; intros r; simpl.
  - reflexivity.
  - rewrite IH. reflexivity.
Qed.

Lemma nth_images (n e i : nat) (r : Reader) :
  (i < n)%nat ->
  nth_error (images n e r) i
  = Some (map mnist.normalize (take_padded e (skipn (i * e) r))).
Proof.
  revert i r. induction n as [|n IH]; intros i r Hi.
  - lia.
  - destruct i as [|i]; simpl.
    + reflexivity.
    + rewrite IH by lia. rewrite skipn_skipn.
      replace (i * e + e)%nat with (e + i * e)%nat by lia. reflexivity.
Qed.

(** *** What [make] does within and beyond the limit *)

Lemma fits_smaller `{Memory} (size size' n : Z) :
  0 <= n -> 0 <= size' <= size ->
  fits size n = true -> fits size' n = true.
Proof.
  unfold fits. destruct maxAlloc as [m|]; [|reflexivity].
  intros Hn Hs Hfit. apply Z.leb_le in Hfit. apply Z.leb_le. nia.
Qed.

Lemma make_within `{Memory} {A : Type} (size : Z) (zero : A) (n : Z) :
  0 <= n -> fits size n = true ->
  make size zero n = Done (repeat zero (Z.to_nat n)).
Proof.
  intros Hn Hfit. unfold make. rewrite Hfit.
  destruct (n <? 0) eqn:En; [apply Z.ltb_lt in En; lia|]. reflexivity.
Qed.

Lemma make_negative `{Memory} {A : Type} (size : Z) (zero : A) (n : Z) :
  n < 0 -> make size zero n = Panic MakeSliceOutOfRange.
Proof.
  intros Hn. unfold make.
  destruct (n <? 0) eqn:En; [|apply Z.ltb_ge in En; lia].
  rewrite orb_true_r. reflexivity.
Qed.

Lemma make_beyond `{Memory} {A : Type} (size : Z) (zero : A) (n : Z) :
  fits size n = false -> make size zero n = Panic MakeSliceOutOfRange.
Proof. intros Hfit. unfold make. rewrite Hfit. reflexivity. Qed.

Lemma make_rows_within `{Memory} (todo : nat) (e : Z)
    (pre post : list (list float32)) :
  0 <= e ->
  fits size_float32 e = true ->
  List.length post = todo ->
  mnist.make_rows todo (List.length pre) e (pre ++ post)
  = Done (pre ++ repeat (repeat (f32_of_Z 0) (Z.to_nat e)) todo).
Proof.
  intros He Hfit. revert pre post.
  induction todo as [|todo IH]; intros pre post Hlen.
  - destruct post; [|discriminate]. reflexivity.
  - destruct post as [|x post]; [discriminate|].
    cbn [mnist.make_rows]. rewrite (make_within _ _ e He Hfit).
    cbn [Go.bind]. rewrite store_at_end_of_prefix. cbn [Go.bind].
    rewrite app_cons_assoc.
    replace (S (List.length pre))
      with (List.length (pre ++ [repeat (f32_of_Z 0) (Z.to_nat e)]))
      by (rewrite length_app; simpl; lia).
    rewrite IH by (simpl in Hlen; lia).
    rewrite <- app_assoc. reflexivity.
Qed.

Lemma make_rows_spec (todo : nat) (e : Z) (pre post : list (list float32)) :
  0 <= e ->
  List.length post = todo ->
  mnist.make_rows todo (List.length pre) e (pre ++ post)
  = Done (pre ++ repeat (repeat (f32_of_Z 0) (Z.to_nat e)) todo).
Proof.
  intros He. revert pre post.
  induction todo as [|todo IH]; intros pre post Hlen.
  - destruct post; [|discriminate]. reflexivity.
  - destruct post as [|x post]; [discriminate|].
    simpl. unfold make. destruct (e <? 0) eqn:E; [lia|]. simpl.
    rewrite store_at_end_of_prefix. simpl.
    rewrite app_cons_assoc.
    replace (S (List.length pre))
      with (List.length (pre ++ [repeat (f32_of_Z 0) (Z.to_nat e)]))
      by (rewrite length_app; simpl; lia).
    rewrite IH by (simpl in Hlen; lia).
    rewrite <- app_assoc. reflexivity.
Qed.

Lemma read_image_spec (todo : nat) (pre post : list (list float32))
    (rpre rpost : list float32) (ir : Reader) :
  List.length rpost = todo ->
  mnist.read_image todo (List.length pre) (List.length rpre)
                   (pre ++ (rpre ++ rpost) :: post) ir
  = Done (pre ++ (rpre ++ map mnist.normalize (take_padded todo ir)) :: post,
          skipn todo ir).
Proof.
  revert rpre rpost ir.
  induction todo as [|todo IH]; intros rpre rpost ir Hlen.
  - destruct rpost; [|discriminate]. reflexivity.
  - destruct rpost as [|x rpost]; [discriminate|].
    assert (Hgo : forall ib ir',
      (row <- index (pre ++ (rpre ++ x :: rpost) :: post) (List.length pre) ;;
       row' <- store row (List.length rpre) (mnist.normalize ib) ;;
       rows' <- store (pre ++ (rpre ++ x :: rpost) :: post)
                      (List.length pre) row' ;;
       mnist.read_image todo (List.length pre) (S (List.length rpre)) rows' ir')
      = Done (pre ++ (rpre ++ mnist.normalize ib
                             :: map mnist.normalize (take_padded todo ir'))
                     :: post, skipn todo ir')).
    { intros ib ir'. rewrite index_at_end_of_prefix. simpl.
      rewrite store_at_end_of_prefix. simpl.
      rewrite store_at_end_of_prefix. simpl.
      rewrite (app_cons_assoc rpre).
      replace (S (List.length rpre))
        with (List.length (rpre ++ [mnist.normalize ib]))
        by (rewrite length_app; simpl; lia).
      rewrite IH by (simpl in Hlen; lia).
      rewrite <- app_assoc. reflexivity. }
    destruct ir as [|b ir']; simpl.
    + rewrite Hgo. destruct todo; reflexivity.
    + apply Hgo.
Qed.

Lemma read_records_spec (todo e : nat) (tpre tpost : list Z)
    (pre post : list (list float32)) (lr ir : Reader) :
  List.length tpre = List.length pre ->
  List.length tpost = todo ->
  List.length post = todo ->
  Forall (fun row => List.length row = e) post ->
  mnist.read_records todo (List.length pre) e (tpre ++ tpost) (pre ++ post)
                     lr ir
  = Done (tpre ++ map byte_to_Z (take_padded todo lr),
          pre ++ images todo e ir,
          skipn todo lr, skipn (todo * e) ir).
Proof.
  revert tpre tpost pre post lr ir.
  induction todo as [|todo IH]; intros tpre tpost pre post lr ir Ht Htp Hp Hrows.
  - destruct tpost; [|discriminate]. destruct post; [|discriminate].
    reflexivity.
  - destruct tpost as [|t0 tpost]; [discriminate|].
    destruct post as [|row post]; [discriminate|].
    inversion Hrows as [|? ? Hrow Hrest]; subst.
    assert (Hgo : forall lb lr',
      (tgt' <- store (tpre ++ t0 :: tpost) (List.length pre) (byte_to_Z lb) ;;
       '(rows', ir') <- mnist.read_image (List.length row) (List.length pre) 0
                          (pre ++ row :: post) ir ;;
       mnist.read_records todo (S (List.length pre)) (List.length row)
                          tgt' rows' lr' ir')
      = Done (tpre ++ byte_to_Z lb :: map byte_to_Z (take_padded todo lr'),
              pre ++ map mnist.normalize (take_padded (List.length row) ir)
                  :: images todo (List.length row)
                            (skipn (List.length row) ir),
              skipn todo lr',
              skipn (List.length row + todo * List.length row) ir)).
    { intros lb lr'. rewrite <- Ht. rewrite store_at_end_of_prefix. simpl.
      rewrite Ht.
      pose proof (read_image_spec (List.length row) pre post [] row ir
                    eq_refl) as Himg.
      simpl in Himg. rewrite Himg. simpl.
      rewrite (app_cons_assoc tpre). rewrite (app_cons_assoc pre).
      replace (S (List.length pre))
        with (List.length
                (pre ++ [map mnist.normalize
                             (take_padded (List.length row) ir)]))
        by (rewrite length_app; simpl; lia).
      rewrite IH; try assumption.
      - rewrite <- !app_assoc. simpl. rewrite skipn_skipn.
        replace (todo * List.length row + List.length row)%nat
          with (List.length row + todo * List.length row)%nat by lia.
        reflexivity.
      - rewrite !length_app. simpl. lia.
      - simpl in Htp. lia.
      - simpl in Hp. lia. }
    destruct lr as [|b lr']; simpl.
    + rewrite Hgo. destruct todo; reflexivity.
    + apply Hgo.
Qed.

(** With both files open and sizes the runtime can allocate the reader
    returns the labels and images found behind the headers, zero-filled
    where a file ends early. *)
Lemma getMNISTRawData_within `{Memory} (fs : FileSystem) (ip lp : string)
    (ifile lfile : list Byte.byte) (n e : nat) :
  fs ip = inl ifile ->
  fs lp = inl lfile ->
  fits size_slice (Z.of_nat n) = true ->
  (n = 0%nat \/ fits size_float32 (Z.of_nat e) = true) ->
  mnist.getMNISTRawData fs ip lp (Z.of_nat n) (Z.of_nat e)
  = Done (map byte_to_Z (take_padded n (skipn 8 lfile)),
          images n e (skipn 16 ifile),
          None).
Proof.
  intros Hi Hl Hfn Hfe. unfold mnist.getMNISTRawData, mnist.reader.
  rewrite Hi, Hl. rewrite !skip_header_skipn.
  rewrite (make_within size_slice _ (Z.of_nat n)) by (lia || exact Hfn).
  cbn [Go.bind]. rewrite !Nat2Z.id, repeat_length.
  assert (Hrows : mnist.make_rows n 0 (Z.of_nat e) (repeat [] n)
                  = Done (repeat (repeat (f32_of_Z 0) e) n)).
  { destruct Hfe as [-> | Hfe]; [reflexivity|].
    pose proof (make_rows_within n (Z.of_nat e) [] (repeat [] n)) as Hr.
    cbn [List.length app] in Hr. rewrite Nat2Z.id in Hr.
    apply Hr; [lia|exact Hfe|apply repeat_length]. }
  rewrite Hrows. cbn [Go.bind].
  rewrite (make_within size_int32 _ (Z.of_nat n));
    [|lia|apply (fits_smaller size_slice); [lia|cbv; split; discriminate
                                           |exact Hfn]].
  cbn [Go.bind]. rewrite Nat2Z.id.
  pose proof (read_records_spec n e [] (repeat 0 n) []
                (repeat (repeat (f32_of_Z 0) e) n)
                (skipn mnist.labelsDataOffsetSize lfile)
                (skipn mnist.imagesDataOffsetSize ifile)) as Hrec.
  cbn [List.length app] in Hrec. rewrite Hrec.
  - reflexivity.
  - reflexivity.
  - apply repeat_length.
  - apply repeat_length.
  - apply Forall_forall. intros row Hin. apply repeat_spec in Hin.
    subst row. apply repeat_length.
Qed.

(** On the machine that never runs short every size will do. *)
Lemma getMNISTRawData_returns (fs : FileSystem) (ip lp : string)
    (ifile lfile : list Byte.byte) (n e : nat) :
  fs ip = inl ifile ->
  fs lp = inl lfile ->
  mnist.getMNISTRawData fs ip lp (Z.of_nat n) (Z.of_nat e)
  = Done (map byte_to_Z (take_padded n (skipn 8 lfile)),
          images n e (skipn 16 ifile),
          None).
Proof.
  intros Hi Hl.
  apply (getMNISTRawData_within fs ip lp ifile lfile n e Hi Hl).
  - reflexivity.
  - right. reflexivity.
Qed.

(** What [getMNISTRawData] does with sizes [make] refuses. *)
Lemma getMNISTRawData_refused_dataSize `{Memory} (fs : FileSystem)
    (ip lp : string) (n e : Z) (ifile lfile : list Byte.byte) :
  fs ip = inl ifile ->
  fs lp = inl lfile ->
  n < 0 \/ fits size_slice n = false ->
  mnist.getMNISTRawData fs ip lp n e = Panic MakeSliceOutOfRange.
Proof.
  intros Hi Hl Hn. unfold mnist.getMNISTRawData, mnist.reader.
  rewrite Hi, Hl.
  destruct Hn as [Hn | Hn].
  - rewrite make_negative by exact Hn. reflexivity.
  - rewrite make_beyond by exact Hn. reflexivity.
Qed.

Lemma getMNISTRawData_refused_imageElemSize `{Memory} (fs : FileSystem)
    (ip lp : string) (n e : Z) (ifile lfile : list Byte.byte) :
  fs ip = inl ifile ->
  fs lp = inl lfile ->
  0 < n ->
  fits size_slice n = true ->
  e < 0 \/ fits size_float32 e = false ->
  mnist.getMNISTRawData fs ip lp n e = Panic MakeSliceOutOfRange.
Proof.
  intros Hi Hl Hn Hfn He. unfold mnist.getMNISTRawData, mnist.reader.
  rewrite Hi, Hl.
  rewrite (make_within size_slice _ n) by (lia || exact Hfn).
  cbn [Go.bind]. rewrite repeat_length.
  destruct (Z.to_nat n) as [|n'] eqn:En'; [lia|].
  cbn [mnist.make_rows].
  destruct He as [He | He].
  - rewrite make_negative by exact He. reflexivity.
  - rewrite make_beyond by exact He. reflexivity.
Qed.

Lemma getMNISTRawData_nothing_to_read `{Memory} (fs : FileSystem)
    (ip lp : string) (e : Z) (ifile lfile : list Byte.byte) :
  fs ip = inl ifile ->
  fs lp = inl lfile ->
  fits size_slice 0 = true ->
  mnist.getMNISTRawData fs ip lp 0 e = Done ([], [], None).
Proof.
  intros Hi Hl Hf. unfold mnist.getMNISTRawData, mnist.reader.
  rewrite Hi, Hl.
  rewrite (make_within size_slice _ 0) by (lia || exact Hf).
  cbn [Go.bind Z.to_nat repeat List.length mnist.make_rows].
  rewrite (make_within size_int32 _ 0);
    [|lia|apply (fits_smaller size_slice); [lia|cbv; split; discriminate
                                           |exact Hf]].
  reflexivity.
Qed.

(** A source that [createMNISTDataSource] managed to build satisfies the
    Dataset invariant: sizes [make] refuses have panicked before. *)
Lemma newDataSource_well_formed `{Memory} (fs : FileSystem) (ip lp : string)
    (dataSize imageElemSize batchSize : Z) (randomFlag : bool)
    (s : mnist.mnistDataSource) :
  mnist.newDataSource fs ip lp dataSize imageElemSize batchSize randomFlag
  = Done (inl s) ->
  well_formed s.
Proof.
  unfold mnist.newDataSource. intros Hnew.
  destruct (fs ip) as [ifile|e1] eqn:Ei.
  2:{ unfold mnist.getMNISTRawData, mnist.reader in Hnew.
      rewrite Ei in Hnew. discriminate. }
  destruct (fs lp) as [lfile|e2] eqn:El.
  2:{ unfold mnist.getMNISTRawData, mnist.reader in Hnew.
      rewrite Ei, El in Hnew. discriminate. }
  destruct (Z_lt_le_dec dataSize 0) as [Hneg | Hpos].
  { rewrite (getMNISTRawData_refused_dataSize fs ip lp dataSize
               imageElemSize ifile lfile Ei El (or_introl Hneg)) in Hnew.
    discriminate. }
  destruct (fits size_slice dataSize) eqn:Hfn.
  2:{ rewrite (getMNISTRawData_refused_dataSize fs ip lp dataSize
                 imageElemSize ifile lfile Ei El (or_intror Hfn)) in Hnew.
      discriminate. }
  destruct (Z.eq_dec dataSize 0) as [-> | Hnz].
  { rewrite (getMNISTRawData_nothing_to_read fs ip lp imageElemSize
               ifile lfile Ei El Hfn) in Hnew.
    cbn [Go.bind] in Hnew. injection Hnew as <-.
    split; [cbn; lia|split; reflexivity]. }
  destruct (Z_lt_le_dec imageElemSize 0) as [Heneg | Hepos].
  { rewrite (getMNISTRawData_refused_imageElemSize fs ip lp dataSize
               imageElemSize ifile lfile Ei El ltac:(lia) Hfn
               (or_introl Heneg)) in Hnew.
    discriminate. }
  destruct (fits size_float32 imageElemSize) eqn:Hfe.
  2:{ rewrite (getMNISTRawData_refused_imageElemSize fs ip lp dataSize
                 imageElemSize ifile lfile Ei El ltac:(lia) Hfn
                 (or_intror Hfe)) in Hnew.
      discriminate. }
  rewrite <- (Z2Nat.id dataSize Hpos) in Hnew, Hfn.
  rewrite <- (Z2Nat.id imageElemSize Hepos) in Hnew, Hfe.
  rewrite (getMNISTRawData_within fs ip lp ifile lfile _ _ Ei El Hfn
             (or_intror Hfe)) in Hnew.
  cbn [Go.bind] in Hnew. injection Hnew as <-.
  split; [cbn [mnist.dataSize]; lia|].
  cbn [mnist.data mnist.target mnist.dataSize].
  rewrite Nat2Z.id.
  split; [rewrite length_images; reflexivity|].
  rewrite length_map, length_take_padded. reflexivity.
Qed.

(** *** Bytes and their normalised values *)




Lemma normalize_zero_byte : mnist.normalize Byte.x00 = S754_zero false.
Proof. reflexivity. Qed.

Lemma nth_skipn_shift {A : Type} (k j : nat) (l : list A) (d : A) :
  nth j (skipn k l) d = nth (k + j) l d.
Proof.
  revert l. induction k as [|k IH]; intros l; simpl.
  - reflexivity.
  - destruct l as [|a l'].
    + destruct j; reflexivity.
    + apply IH.
Qed.




(** C10.  Once both files are open, and on any machine whose [make]
    grants the [n] rows and, when there are rows, the [e] floats of a
    row, [getMNISTRawData] returns without an error whatever the lengths
    of the files: label [i] is the byte at offset [8 + i] of the label
    file and pixel [j] of image [i] the normalised byte at offset
    [16 + i * e + j] of the image file, and an offset at or past the end
    of its file yields label 0 and pixel 0.0. *)
Theorem reader_zero_fills_short_files `{Memory}
    (fs : FileSystem) (ip lp : string) (ifile lfile : list Byte.byte)
    (n e : nat) :
  fs ip = inl ifile ->
  fs lp = inl lfile ->
  fits size_slice (Z.of_nat n) = true ->
  (n = 0%nat \/ fits size_float32 (Z.of_nat e) = true) ->
  exists (target : list Z) (images : list (list float32)),
    mnist.getMNISTRawData fs ip lp (Z.of_nat n) (Z.of_nat e)
    = Done (target, images, None)
    /\ List.length target = n
    /\ List.length images = n
    /\ (forall i, (i < n)%nat ->
         nth_error target i = Some (byte_to_Z (nth (8 + i) lfile Byte.x00))
         /\ ((List.length lfile <= 8 + i)%nat -> nth_error target i = Some 0))
    /\ (forall i, (i < n)%nat ->
         exists row,
           nth_error images i = Some row
           /\ List.length row = e
           /\ forall j, (j < e)%nat ->
                nth_error row j
                = Some (mnist.normalize
                          (nth (16 + (i * e + j)) ifile Byte.x00))
                /\ ((List.length ifile <= 16 + (i * e + j))%nat ->
                    nth_error row j = Some (S754_zero false))).
Proof.
  intros Hi Hl Hfn Hfe.
  rewrite (getMNISTRawData_within fs ip lp _ _ n e Hi Hl Hfn Hfe).
  eexists. eexists. split; [reflexivity|].
  split; [rewrite length_map; apply length_take_padded|].
  split; [apply length_images|].
  split.
  - intros i Hin.
    assert (Hnth : nth_error (map byte_to_Z (take_padded n (skipn 8 lfile))) i
                   = Some (byte_to_Z (nth (8 + i) lfile Byte.x00))).
    { rewrite nth_error_map, nth_take_padded by exact Hin.
      cbn [option_map]. rewrite nth_skipn_shift. reflexivity. }
    split; [exact Hnth|].
    intros Hshort. rewrite Hnth, nth_overflow by exact Hshort. reflexivity.
  - intros i Hin. eexists. split; [apply nth_images; exact Hin|].
    split; [rewrite length_map; apply length_take_padded|].
    intros j Hj.
    assert (Hnth : nth_error
                     (map mnist.normalize
                          (take_padded e (skipn (i * e) (skipn 16 ifile)))) j
                   = Some (mnist.normalize
                             (nth (16 + (i * e + j)) ifile Byte.x00))).
    { rewrite nth_error_map, nth_take_padded by exact Hj.
      cbn [option_map]. rewrite !nth_skipn_shift. reflexivity. }
    split; [exact Hnth|].
    intros Hshort. rewrite Hnth, nth_overflow by exact Hshort.
    rewrite normalize_zero_byte. reflexivity.
Qed.

(** C10 on an image file of 16 + 1 bytes and a label file of 8 bytes,
    read as two 2-byte images under the limit of linux/amd64. *)
Lemma reader_zero_fills_short_files_witness :
  exists (target : list Z) (images : list (list float32)),
    @mnist.getMNISTRawData amd64
      (sample.two_files (sample.header 16 ++ [Byte.xff]) (sample.header 8))
      "images" "labels" (Z.of_nat 2) (Z.of_nat 2)
    = Done (target, images, None)
    /\ List.length target = 2%nat
    /\ List.length images = 2%nat
    /\ (forall i, (i < 2)%nat ->
         nth_error target i
         = Some (byte_to_Z (nth (8 + i) (sample.header 8) Byte.x00))
         /\ ((List.length (sample.header 8) <= 8 + i)%nat ->
             nth_error target i = Some 0))
    /\ (forall i, (i < 2)%nat ->
         exists row,
           nth_error images i = Some row
           /\ List.length row = 2%nat
           /\ forall j, (j < 2)%nat ->
                nth_error row j
                = Some (mnist.normalize
                          (nth (16 + (i * 2 + j))
                               (sample.header 16 ++ [Byte.xff]) Byte.x00))
                /\ ((List.length (sample.header 16 ++ [Byte.xff])
                     <= 16 + (i * 2 + j))%nat ->
                    nth_error row j = Some (S754_zero false))).
Proof.
  apply (@reader_zero_fills_short_files amd64
           (sample.two_files (sample.header 16 ++ [Byte.xff])
                             (sample.header 8))
           "images" "labels"
           (sample.header 16 ++ [Byte.xff]) (sample.header 8) 2%nat 2%nat);
    [reflexivity|reflexivity|reflexivity|right; reflexivity].
Defined.

(** The same two files read as 2^62 records: [make] refuses the rows. *)
Example reader_beyond_the_limit :
  @mnist.getMNISTRawData amd64
    (sample.two_files (sample.header 16 ++ [Byte.xff]) (sample.header 8))
    "images" "labels" (2 ^ 62) 0
  = Panic MakeSliceOutOfRange.
Proof. reflexivity. Qed.

(** The reader on that input, evaluated: one pixel from the file, the
    rest of the pixels and both labels zero. *)
Example reader_on_short_files :
  mnist.getMNISTRawData
    (sample.two_files (sample.header 16 ++ [Byte.xff]) (sample.header 8))
    "images" "labels" 2 2
  = Done ([0; 0],
          [[f32_of_Z 1; S754_zero false];
           [S754_zero false; S754_zero false]],
          None).
Proof. reflexivity. Qed.

(** A size below zero makes [make] panic, and a file that does not open
    is the only error the reader returns. *)
Example reader_negative_size :
  mnist.getMNISTRawData
    (sample.two_files (sample.header 16) (sample.header 8))
    "images" "labels" (-1) 1
  = Panic MakeSliceOutOfRange.
Proof. reflexivity. Qed.

Example reader_missing_file :
  mnist.getMNISTRawData
    (sample.two_files (sample.header 16) (sample.header 8))
    "images" "nowhere" 1 1
  = Done ([], [], Some (ErrOther "no such file")).
Proof. reflexivity. Qed.

(* ================================================================= *)
(** ** The stream source *)

Lemma index_in_range {A : Type} (l : list A) (i : nat) (d : A) :
  (i < List.length l)%nat -> index l i = Done (nth i l d).
Proof.
  intros Hi. unfold index.
  rewrite (nth_error_nth' l d Hi). reflexivity.
Qed.

Lemma is_halt_iff (err : option error) :
  mnist.is_halt err = true
  <-> err = Some ErrSourceRewound \/ err = Some ErrSourceStopped.
Proof.
  split.
  - destruct err as [[| | |msg]|]; simpl; intros Hh;
      try discriminate; auto.
  - intros [-> | ->]; reflexivity.
Qed.

Section StreamProofs.

Context {R C W : Type} `{RandSource R} `{Clock C} `{core.Writer W}.

(** The loop stops at the first halting answer, with the tuples up to and
    including that one written. *)
Lemma emit_from_halts (todo : nat) :
  forall (i : nat) (s : mnist.mnistDataSource) (env : mnist.Env R C W)
         (n : nat) (err : option error),
    (i + todo <= List.length (mnist.data s))%nat ->
    (i + todo <= List.length (mnist.target s))%nat ->
    let tus := stream_tuples todo i s (mnist.clock env) in
    let ans := sink_answers (mnist.sink env) tus in
    (forall k, (k < n)%nat -> mnist.is_halt (nth k ans None) = false) ->
    nth_error ans n = Some err ->
    mnist.is_halt err = true ->
    exists env',
      mnist.emit_from todo i s env = Done (inl (err, env'))
      /\ mnist.written env' = mnist.written env ++ firstn (S n) tus
      /\ mnist.logged env' = mnist.logged env
      /\ mnist.rng env' = mnist.rng env.
Proof.
  induction todo as [|todo IH]; intros i s env n err Hd Ht tus ans Hbefore Hn Hhalt.
  - subst tus ans. simpl in Hn. destruct n; discriminate.
  - subst tus ans. cbn [mnist.emit_from stream_tuples] in *.
    rewrite (index_in_range (mnist.data s) i []) by lia.
    rewrite (index_in_range (mnist.target s) i 0) by lia.
    cbn [Go.bind].
    destruct (Now (mnist.clock env)) as [now c'] eqn:Enow.
    fold (record_at s i now).
    cbn [sink_answers] in *.
    destruct (core.Write (mnist.sink env) (record_at s i now))
      as [a w'] eqn:Ew.
    destruct n as [|n].
    + simpl in Hn. injection Hn as ->. rewrite Hhalt.
      eexists. split; [reflexivity|]. simpl. auto.
    + pose proof (Hbefore 0%nat ltac:(lia)) as Hfirst. simpl in Hfirst.
      rewrite Hfirst. simpl in Hn.
      destruct (IH (S i) s
                  {| mnist.rng := mnist.rng env; mnist.clock := c';
                     mnist.sink := w';
                     mnist.written := mnist.written env ++ [record_at s i now];
                     mnist.logged := mnist.logged env |}
                  n err) as (env' & Hrun & Hw & Hl & Hr); try assumption.
      * lia.
      * lia.
      * intros k Hk. apply (Hbefore (S k)). lia.
      * exists env'. split; [exact Hrun|].
        split; [|auto].
        rewrite Hw. cbn [mnist.written mnist.clock mnist.sink].
        rewrite <- app_assoc. reflexivity.
Qed.

(** Without a halting answer the loop runs to its end and every tuple is
    written. *)
Lemma emit_from_completes (todo : nat) :
  forall (i : nat) (s : mnist.mnistDataSource) (env : mnist.Env R C W),
    (i + todo <= List.length (mnist.data s))%nat ->
    (i + todo <= List.length (mnist.target s))%nat ->
    let tus := stream_tuples todo i s (mnist.clock env) in
    let ans := sink_answers (mnist.sink env) tus in
    (forall k, (k < todo)%nat -> mnist.is_halt (nth k ans None) = false) ->
    exists env',
      mnist.emit_from todo i s env = Done (inr env')
      /\ mnist.written env' = mnist.written env ++ tus
      /\ mnist.logged env' = mnist.logged env
      /\ mnist.rng env' = mnist.rng env.
Proof.
  induction todo as [|todo IH]; intros i s env Hd Ht tus ans Hall.
  - subst tus ans. exists env. simpl. rewrite app_nil_r. auto.
  - subst tus ans. cbn [mnist.emit_from stream_tuples] in *.
    rewrite (index_in_range (mnist.data s) i []) by lia.
    rewrite (index_in_range (mnist.target s) i 0) by lia.
    cbn [Go.bind].
    destruct (Now (mnist.clock env)) as [now c'] eqn:Enow.
    fold (record_at s i now).
    cbn [sink_answers] in *.
    destruct (core.Write (mnist.sink env) (record_at s i now))
      as [a w'] eqn:Ew.
    pose proof (Hall 0%nat ltac:(lia)) as Hfirst. simpl in Hfirst. rewrite Hfirst.
    destruct (IH (S i) s
                {| mnist.rng := mnist.rng env; mnist.clock := c';
                   mnist.sink := w';
                   mnist.written := mnist.written env ++ [record_at s i now];
                   mnist.logged := mnist.logged env |})
      as (env' & Hrun & Hw & Hl & Hr).
    + lia.
    + lia.
    + intros k Hk. apply (Hall (S k)). lia.
    + exists env'. split; [exact Hrun|]. split; [|auto].
      rewrite Hw. cbn [mnist.written mnist.clock mnist.sink].
      rewrite <- app_assoc. reflexivity.
Qed.

End StreamProofs.

Lemma fill_identity_spec (todo : nat) (pre post : list Z) :
  List.length post = todo ->
  mnist.fill_identity todo (List.length pre) (pre ++ post)
  = Done (pre ++ map Z.of_nat (seq (List.length pre) todo)).
Proof.
  revert pre post. induction todo as [|todo IH]; intros pre post Hlen.
  - destruct post; [|discriminate]. reflexivity.
  - destruct post as [|x post]; [discriminate|].
    cbn [mnist.fill_identity]. rewrite store_at_end_of_prefix.
    cbn [Go.bind]. rewrite (app_cons_assoc pre).
    replace (S (List.length pre))
      with (List.length (pre ++ [Z.of_nat (List.length pre)]))
      by (rewrite length_app; simpl; lia).
    rewrite IH by (simpl in Hlen; lia).
    rewrite <- app_assoc, length_app. simpl.
    replace (List.length pre + 1)%nat with (S (List.length pre)) by lia.
    reflexivity.
Qed.

Section ShuffleProofs.

Context {R : Type} `{RandSource R}.

(** The shuffle never leaves its slice and returns a permutation of it. *)
Lemma shuffle_from_permutes (todo : nat) :
  forall (i : nat) (perm : list Z) (r : R),
    (i + todo = List.length perm)%nat ->
    exists perm' r',
      mnist.shuffle_from todo i perm r = Done (perm', r')
      /\ Permutation perm perm'.
Proof.
  induction todo as [|todo IH]; intros i perm r Hlen.
  - exists perm, r. split; [reflexivity|apply Permutation_refl].
  - cbn [mnist.shuffle_from]. unfold Intn.
    destruct (Z.of_nat i + 1 <=? 0) eqn:En; [apply Z.leb_le in En; lia|].
    cbn [Go.bind].
    pose proof (draw_range r (Z.of_nat i + 1) ltac:(lia)) as Hj.
    destruct (draw r (Z.of_nat i + 1)) as [j r'] eqn:Ed. cbn [fst] in Hj.
    unfold indexZ, storeZ.
    destruct (j <? 0) eqn:Ej; [apply Z.ltb_lt in Ej; lia|].
    assert (Hjn : (Z.to_nat j < List.length perm)%nat) by lia.
    assert (Hin : (i < List.length perm)%nat) by lia.
    rewrite (index_in_range perm (Z.to_nat j) 0 Hjn).
    rewrite (index_in_range perm i 0 Hin).
    cbn [Go.bind].
    destruct (store_in_range perm i (nth (Z.to_nat j) perm 0) Hin)
      as [perm1 H1].
    rewrite H1. cbn [Go.bind].
    pose proof (store_length _ _ _ _ H1) as Hl1.
    destruct (store_in_range perm1 (Z.to_nat j) (nth i perm 0)
                ltac:(lia)) as [perm2 H2].
    rewrite H2. cbn [Go.bind].
    pose proof (store_length _ _ _ _ H2) as Hl2.
    destruct (IH (S i) perm2 r' ltac:(lia)) as (perm' & r'' & Hrun & Hp).
    exists perm', r''. split; [exact Hrun|].
    apply perm_trans with perm2; [|exact Hp].
    apply (swap_permutes perm perm1 perm2 i (Z.to_nat j)
             (nth i perm 0) (nth (Z.to_nat j) perm 0)).
    + apply nth_error_nth'. exact Hin.
    + apply nth_error_nth'. exact Hjn.
    + exact H1.
    + exact H2.
Qed.

(** The permutation computed at the start of a stream call, when [make]
    grants the [dataSize] ints: the indices below [dataSize] in some
    order, and in increasing order when [randomFlag] is off. *)
Lemma stream_perm_within `{Memory} (s : mnist.mnistDataSource) (r : R) :
  0 <= mnist.dataSize s ->
  fits size_int (mnist.dataSize s) = true ->
  exists perm r',
    mnist.stream_perm s r = Done (perm, r')
    /\ Permutation
         (map Z.of_nat (seq 0 (Z.to_nat (mnist.dataSize s)))) perm
    /\ (mnist.randomFlag s = false ->
        perm = map Z.of_nat (seq 0 (Z.to_nat (mnist.dataSize s)))
        /\ r' = r).
Proof.
  intros Hn Hfit. unfold mnist.stream_perm.
  rewrite (make_within size_int 0 (mnist.dataSize s) Hn Hfit).
  cbn [Go.bind]. rewrite repeat_length.
  pose proof (fill_identity_spec (Z.to_nat (mnist.dataSize s)) []
                (repeat 0 (Z.to_nat (mnist.dataSize s)))
                (repeat_length _ _)) as Hfill.
  cbn [List.length app] in Hfill. rewrite Hfill. cbn [Go.bind].
  destruct (mnist.randomFlag s).
  - unfold mnist.ramdomPermutaion.
    destruct (shuffle_from_permutes
                (List.length
                   (map Z.of_nat (seq 0 (Z.to_nat (mnist.dataSize s)))))
                0 (map Z.of_nat (seq 0 (Z.to_nat (mnist.dataSize s)))) r
                eq_refl) as (perm & r' & Hrun & Hp).
    exists perm, r'. split; [exact Hrun|]. split; [exact Hp|].
    discriminate.
  - eexists. eexists. split; [reflexivity|].
    split; [apply Permutation_refl|]. auto.
Qed.

(** The same on the machine that never runs short. *)
Lemma stream_perm_permutes (s : mnist.mnistDataSource) (r : R) :
  0 <= mnist.dataSize s ->
  exists perm r',
    mnist.stream_perm s r = Done (perm, r')
    /\ Permutation
         (map Z.of_nat (seq 0 (Z.to_nat (mnist.dataSize s)))) perm
    /\ (mnist.randomFlag s = false ->
        perm = map Z.of_nat (seq 0 (Z.to_nat (mnist.dataSize s)))
        /\ r' = r).
Proof.
  intros Hn. apply (stream_perm_within s r Hn). reflexivity.
Qed.

End ShuffleProofs.

Section GenerateStreamProofs.

Context {R C W : Type} `{RandSource R} `{Clock C} `{core.Writer W}.

Lemma length_stream_tuples (todo i : nat) (s : mnist.mnistDataSource)
    (c : C) :
  List.length (stream_tuples todo i s c) = todo.
Proof.
  revert i c. induction todo as [|todo IH]; intros i c; simpl.
  - reflexivity.
  - destruct (Now c) as [now c']. simpl. rewrite IH. reflexivity.
Qed.

Lemma not_a_signal (a : option error) :
  a <> Some ErrSourceRewound ->
  a <> Some ErrSourceStopped ->
  mnist.is_halt a = false.
Proof.
  intros Hr Hs. destruct (mnist.is_halt a) eqn:Eh; [|reflexivity].
  apply is_halt_iff in Eh. destruct Eh; contradiction.
Qed.

(** C5.  Let the writer's answers to the tuples of a stream call be
    [ans].  If the answer to the [n]-th tuple is the rewound or the
    stopped signal, and no earlier answer is one of the two (earlier
    answers may be any other error), [GenerateStream] returns that signal
    with exactly the first [n] tuples written and nothing logged; if no
    answer is one of the two signals, whatever other errors there are, it
    writes every tuple, logs the completion and returns no error. *)
Theorem stream_halts_on_signal_only
    (s : mnist.mnistDataSource) (env : mnist.Env R C W) :
  well_formed s ->
  let size := Z.to_nat (mnist.dataSize s) in
  let tus := stream_tuples size 0 s (mnist.clock env) in
  let ans := sink_answers (mnist.sink env) tus in
  (forall (n : nat) (e : error),
      (1 <= n <= size)%nat ->
      e = ErrSourceRewound \/ e = ErrSourceStopped ->
      nth_error ans (n - 1) = Some (Some e) ->
      (forall k, (k < n - 1)%nat ->
         nth k ans None <> Some ErrSourceRewound
         /\ nth k ans None <> Some ErrSourceStopped) ->
      exists env',
        mnist.GenerateStream s env = Done (Some e, env')
        /\ mnist.written env' = mnist.written env ++ firstn n tus
        /\ List.length (firstn n tus) = n
        /\ mnist.logged env' = mnist.logged env)
  /\ ((forall k, (k < size)%nat ->
         nth k ans None <> Some ErrSourceRewound
         /\ nth k ans None <> Some ErrSourceStopped) ->
      exists env',
        mnist.GenerateStream s env = Done (None, env')
        /\ mnist.written env' = mnist.written env ++ tus
        /\ List.length tus = size
        /\ mnist.logged env'
           = mnist.logged env ++ ["all MNIST data has been streaming"]).
Proof.
  intros (Hsize & Hdata & Htarget) size tus ans.
  destruct (stream_perm_permutes s (mnist.rng env) Hsize)
    as (perm & r' & Hperm & _).
  split.
  - intros n e Hn He Hnth Hbefore.
    assert (Hhalt : mnist.is_halt (Some e) = true).
    { apply is_halt_iff. destruct He as [-> | ->]; auto. }
    destruct (emit_from_halts size 0 s
                {| mnist.rng := r'; mnist.clock := mnist.clock env;
                   mnist.sink := mnist.sink env;
                   mnist.written := mnist.written env;
                   mnist.logged := mnist.logged env |}
                (n - 1) (Some e))
      as (env' & Hrun & Hw & Hl & _).
    + simpl. lia.
    + simpl. lia.
    + intros k Hk. destruct (Hbefore k Hk) as [Hr Hs].
      apply not_a_signal; assumption.
    + exact Hnth.
    + exact Hhalt.
    + exists env'. unfold mnist.GenerateStream.
      rewrite Hperm. cbn [Go.bind]. fold size. rewrite Hrun.
      cbn [Go.bind]. split; [reflexivity|].
      cbn [mnist.written mnist.clock mnist.sink mnist.logged] in Hw, Hl.
      replace (S (n - 1)) with n in Hw by lia.
      split; [exact Hw|]. split; [|exact Hl].
      rewrite length_firstn. unfold tus. rewrite length_stream_tuples. lia.
  - intros Hall.
    destruct (emit_from_completes size 0 s
                {| mnist.rng := r'; mnist.clock := mnist.clock env;
                   mnist.sink := mnist.sink env;
                   mnist.written := mnist.written env;
                   mnist.logged := mnist.logged env |})
      as (env' & Hrun & Hw & Hl & _).
    + simpl. lia.
    + simpl. lia.
    + intros k Hk. destruct (Hall k Hk) as [Hr Hs].
      apply not_a_signal; assumption.
    + eexists. unfold mnist.GenerateStream.
      rewrite Hperm. cbn [Go.bind]. fold size. rewrite Hrun.
      cbn [Go.bind]. split; [reflexivity|].
      cbn [mnist.written mnist.clock mnist.sink mnist.logged] in *.
      split; [exact Hw|]. split; [apply length_stream_tuples|].
      rewrite Hl. reflexivity.
Qed.

End GenerateStreamProofs.

(** C5 on ten records and a writer that accepts the first, fails the
    second with an ordinary error and signals stopped at the third. *)
Lemma stream_halts_on_signal_only_witness :
  let s := sample.source_of [0; 1; 2; 3; 4; 5; 6; 7; 8; 9] false in
  let env := sample.env_of []
               [None; Some (ErrOther "busy"); Some ErrSourceStopped] in
  well_formed s
  /\ exists env',
       mnist.GenerateStream s env = Done (Some ErrSourceStopped, env')
       /\ mnist.written env'
          = mnist.written env
            ++ firstn 3 (stream_tuples (Z.to_nat (mnist.dataSize s)) 0 s
                                       (mnist.clock env))
       /\ List.length
            (firstn 3 (stream_tuples (Z.to_nat (mnist.dataSize s)) 0 s
                                     (mnist.clock env))) = 3%nat
       /\ mnist.logged env' = mnist.logged env.
Proof.
  intros s env.
  assert (Hwf : well_formed s).
  { split; [discriminate|split; reflexivity]. }
  split; [exact Hwf|].
  destruct (stream_halts_on_signal_only s env Hwf) as [Hhalt _].
  apply (Hhalt 3%nat ErrSourceStopped).
  - split; [lia | vm_compute; lia].
  - right. reflexivity.
  - reflexivity.
  - intros k Hk.
    destruct k as [|[|k]]; [split; discriminate|split; discriminate|].
    exfalso. simpl in Hk. lia.
Defined.

Example stream_stopped_at_third_of_ten :
  exists env',
    mnist.GenerateStream
      (sample.source_of [0; 1; 2; 3; 4; 5; 6; 7; 8; 9] false)
      (sample.env_of [] [None; Some (ErrOther "busy"); Some ErrSourceStopped])
    = Done (Some ErrSourceStopped, env')
    /\ map label_of (mnist.written env') = [Some 0; Some 1; Some 2].
Proof. eexists. split; reflexivity. Qed.

Section OrderProofs.

Context {R C W : Type} `{RandSource R} `{Clock C} `{core.Writer W}.

(** Whatever the writer answers, the loop writes the tuples of indices
    [i], [i + 1], ... in that order and stops somewhere along them. *)
Lemma emit_from_index_order (todo : nat) :
  forall (i : nat) (s : mnist.mnistDataSource) (env : mnist.Env R C W),
    (i + todo <= List.length (mnist.data s))%nat ->
    (i + todo <= List.length (mnist.target s))%nat ->
    exists r env' k,
      mnist.emit_from todo i s env = Done r
      /\ (r = inr env' \/ exists err, r = inl (err, env'))
      /\ mnist.written env'
         = mnist.written env
           ++ firstn k (stream_tuples todo i s (mnist.clock env)).
Proof.
  induction todo as [|todo IH]; intros i s env Hd Ht.
  - exists (inr env), env, 0%nat. simpl. rewrite app_nil_r. auto.
  - cbn [mnist.emit_from stream_tuples].
    rewrite (index_in_range (mnist.data s) i []) by lia.
    rewrite (index_in_range (mnist.target s) i 0) by lia.
    cbn [Go.bind].
    destruct (Now (mnist.clock env)) as [now c'] eqn:Enow.
    fold (record_at s i now).
    destruct (core.Write (mnist.sink env) (record_at s i now))
      as [a w'] eqn:Ew.
    destruct (mnist.is_halt a).
    + eexists. eexists. exists 1%nat.
      split; [reflexivity|]. split; [right; eexists; reflexivity|].
      reflexivity.
    + destruct (IH (S i) s
                  {| mnist.rng := mnist.rng env; mnist.clock := c';
                     mnist.sink := w';
                     mnist.written := mnist.written env ++ [record_at s i now];
                     mnist.logged := mnist.logged env |}
                  ltac:(lia) ltac:(lia))
        as (r & env' & k & Hrun & Hshape & Hw).
      exists r, env', (S k). split; [exact Hrun|]. split; [exact Hshape|].
      rewrite Hw. cbn [mnist.written mnist.clock firstn].
      rewrite <- app_assoc. reflexivity.
Qed.

(** A stream call on a well-formed source returns, and what it wrote is a
    prefix of the tuples in index order, with [randomFlag] set or not:
    the permutation computed first plays no part in the emission. *)
Lemma GenerateStream_index_order
    (s : mnist.mnistDataSource) (env : mnist.Env R C W) :
  well_formed s ->
  exists err env' k,
    mnist.GenerateStream s env = Done (err, env')
    /\ mnist.written env'
       = mnist.written env
         ++ firstn k (stream_tuples (Z.to_nat (mnist.dataSize s)) 0 s
                                    (mnist.clock env)).
Proof.
  intros (Hsize & Hdata & Htarget).
  destruct (stream_perm_permutes s (mnist.rng env) Hsize)
    as (perm & r' & Hperm & _).
  destruct (emit_from_index_order (Z.to_nat (mnist.dataSize s)) 0 s
              {| mnist.rng := r'; mnist.clock := mnist.clock env;
                 mnist.sink := mnist.sink env;
                 mnist.written := mnist.written env;
                 mnist.logged := mnist.logged env |})
    as (r & env' & k & Hrun & Hshape & Hw).
  - simpl. lia.
  - simpl. lia.
  - unfold mnist.GenerateStream. rewrite Hperm. cbn [Go.bind].
    rewrite Hrun. cbn [Go.bind].
    destruct Hshape as [-> | [err ->]].
    + eexists. eexists. exists k. split; [reflexivity|]. exact Hw.
    + exists err, env', k. split; [reflexivity|]. exact Hw.
Qed.

End OrderProofs.

(** C3, at a source of two records labelled 7 and 3 with [randomFlag]
    set, where the random source draws 0 twice: the shuffle turns the
    identity permutation into [[1; 0]], yet the stream call writes the
    record of index 0 first and the record of index 1 second.  The
    emission loop reads [s.data[i]] and [s.target[i]], never [perm[i]]. *)
Theorem stream_emits_in_index_order_despite_shuffle :
  let s := sample.source_of [7; 3] true in
  let env := sample.env_of [0; 0] [] in
  mnist.stream_perm s (mnist.rng env) = Done ([1; 0], [])
  /\ exists env',
       mnist.GenerateStream s env = Done (None, env')
       /\ map label_of (mnist.written env') = [Some 7; Some 3]
       /\ mnist.GenerateStream (sample.source_of [7; 3] false) env
          = Done (None,
                  {| mnist.rng := [0; 0];
                     mnist.clock := mnist.clock env';
                     mnist.sink := mnist.sink env';
                     mnist.written := mnist.written env';
                     mnist.logged := mnist.logged env' |}).
Proof.
  intros s env. split; [reflexivity|].
  eexists. split; [reflexivity|]. split; reflexivity.
Qed.

(* ================================================================= *)
(** ** The model state *)

Section WriteProofs.

Context `{py.Runtime} `{data.API}.

(** A write that leaves the bucket short of [batchSize] only appends. *)
Lemma Write_below_threshold (s : mlstate.PyMLState) (t : core.Tuple)
    (w : mlstate.World) :
  Z.of_nat (List.length (mlstate.bucket s)) + 1 < mlstate.batchSize s ->
  mlstate.Write s t w
  = (None, mlstate.set_bucket s (mlstate.bucket s ++ [core.Data t]), w).
Proof.
  intros Hlt. unfold mlstate.Write.
  cbn [mlstate.bucket mlstate.batchSize mlstate.set_bucket].
  rewrite length_app. cbn [List.length].
  destruct (Z.of_nat (List.length (mlstate.bucket s) + 1)
            >=? mlstate.batchSize s) eqn:E.
  - apply Z.geb_le in E. lia.
  - reflexivity.
Qed.

(** A write that fills the bucket calls fit once with the bucket, empties
    the bucket and returns the error of that call; the debug log is all
    that depends on the value fit returned. *)
Lemma Write_at_threshold (s : mlstate.PyMLState) (t : core.Tuple)
    (w : mlstate.World) (m : data.Value) (er : option error) :
  mlstate.batchSize s <= Z.of_nat (List.length (mlstate.bucket s)) + 1 ->
  py.call_result (mlstate.pytrace w) (mlstate.ins s) "fit"
                 (data.Array (mlstate.bucket s ++ [core.Data t])) = (m, er) ->
  mlstate.Write s t w
  = (er, mlstate.set_bucket s [],
     mlstate.log_fit_result (mlstate.batchSize s) m
       (mlstate.record_event w
          (py.EvCall (mlstate.ins s) "fit"
                     (data.Array (mlstate.bucket s ++ [core.Data t]))))).
Proof.
  intros Hge Hcall. unfold mlstate.Write, mlstate.Fit, mlstate.Call.
  cbn [mlstate.bucket mlstate.batchSize mlstate.set_bucket mlstate.ins].
  rewrite length_app. cbn [List.length].
  destruct (Z.of_nat (List.length (mlstate.bucket s) + 1)
            >=? mlstate.batchSize s) eqn:E.
  - rewrite Hcall. unfold mlstate.log_fit_result.
    cbn [mlstate.bucket mlstate.batchSize mlstate.set_bucket mlstate.ins
         mlstate.mdl].
    destruct (data.AsMap m) as [ret|]; [|reflexivity].
    destruct (data.Get ret mlstate.lossPath) as [l|]; [|reflexivity].
    destruct (data.ToFloat l) as [loss|]; [|reflexivity].
    destruct (data.Get ret mlstate.accPath) as [a|]; [|reflexivity].
    destruct (data.ToFloat a) as [acc|]; reflexivity.
  - assert (Hlt : Z.of_nat (List.length (mlstate.bucket s) + 1)
                  < mlstate.batchSize s).
    { destruct (Z.geb_spec
                  (Z.of_nat (List.length (mlstate.bucket s) + 1))
                  (mlstate.batchSize s)); [discriminate|lia]. }
    lia.
Qed.

Lemma log_fit_result_pytrace (k : Z) (m : data.Value) (w : mlstate.World) :
  mlstate.pytrace (mlstate.log_fit_result k m w) = mlstate.pytrace w.
Proof.
  unfold mlstate.log_fit_result.
  destruct (data.AsMap m) as [ret|]; [|reflexivity].
  destruct (data.Get ret mlstate.lossPath) as [l|]; [|reflexivity].
  destruct (data.ToFloat l) as [loss|]; [|reflexivity].
  destruct (data.Get ret mlstate.accPath) as [a|]; [|reflexivity].
  destruct (data.ToFloat a) as [acc|]; reflexivity.
Qed.

(** Writes that together stay short of [batchSize] only append. *)
Lemma writes_below_threshold (ts : list core.Tuple) :
  forall (s : mlstate.PyMLState) (w : mlstate.World),
    Z.of_nat (List.length (mlstate.bucket s) + List.length ts)
    < mlstate.batchSize s ->
    mlstate.writes s ts w
    = (map (fun _ => None) ts,
       mlstate.set_bucket s (mlstate.bucket s ++ map core.Data ts), w).
Proof.
  induction ts as [|t ts IH]; intros s w Hlt.
  - simpl. rewrite app_nil_r. destruct s; reflexivity.
  - cbn [mlstate.writes]. cbn [List.length] in Hlt.
    rewrite Write_below_threshold by lia.
    rewrite IH.
    + cbn [mlstate.set_bucket mlstate.bucket mlstate.mdl mlstate.ins
           mlstate.batchSize map].
      rewrite <- app_assoc. reflexivity.
    + cbn [mlstate.set_bucket mlstate.bucket mlstate.batchSize].
      rewrite length_app. cbn [List.length]. lia.
Qed.

Lemma writes_app (ts1 ts2 : list core.Tuple) :
  forall (s : mlstate.PyMLState) (w : mlstate.World),
    mlstate.writes s (ts1 ++ ts2) w
    = let '(errs1, s1, w1) := mlstate.writes s ts1 w in
      let '(errs2, s2, w2) := mlstate.writes s1 ts2 w1 in
      (errs1 ++ errs2, s2, w2).
Proof.
  induction ts1 as [|t ts1 IH]; intros s w.
  - simpl. destruct (mlstate.writes s ts2 w) as [[errs2 s2] w2]. reflexivity.
  - cbn [mlstate.writes app].
    destruct (mlstate.Write s t w) as [[err s'] w'].
    rewrite IH.
    destruct (mlstate.writes s' ts1 w') as [[errs1 s1] w1].
    destruct (mlstate.writes s1 ts2 w1) as [[errs2 s2] w2].
    reflexivity.
Qed.

Lemma calls_of_app (name : string) (tr1 tr2 : list py.Event) :
  py.calls_of name (tr1 ++ tr2) = py.calls_of name tr1 ++ py.calls_of name tr2.
Proof.
  induction tr1 as [|ev tr1 IH]; simpl.
  - reflexivity.
  - destruct (py.call_arg name ev); rewrite IH; reflexivity.
Qed.

End WriteProofs.

Section BatchProofs.

Context `{py.Runtime} `{data.API}.

(** C1.  On a model state with batch size [k >= 1] and an empty bucket:
    writing fewer than [k] tuples crosses into the interpreter not at all
    (so no fit call) and leaves them in the bucket in write order;
    writing [k] tuples adds exactly one event to the interpreter trace,
    the call of fit with exactly those [k] records in write order, made
    by the [k]-th write, and leaves the bucket with length 0. *)
Theorem fit_exactly_at_kth_write
    (s : mlstate.PyMLState) (w : mlstate.World) (ts : list core.Tuple)
    (k : Z) :
  1 <= k ->
  mlstate.batchSize s = k ->
  mlstate.bucket s = [] ->
  (Z.of_nat (List.length ts) < k ->
   exists errs s' w',
     mlstate.writes s ts w = (errs, s', w')
     /\ mlstate.pytrace w' = mlstate.pytrace w
     /\ py.calls_of "fit" (mlstate.pytrace w')
        = py.calls_of "fit" (mlstate.pytrace w)
     /\ mlstate.bucket s' = map core.Data ts)
  /\ (Z.of_nat (List.length ts) = k ->
      exists errs s' w',
        mlstate.writes s ts w = (errs, s', w')
        /\ mlstate.pytrace w'
           = mlstate.pytrace w
             ++ [py.EvCall (mlstate.ins s) "fit"
                           (data.Array (map core.Data ts))]
        /\ py.calls_of "fit" (mlstate.pytrace w')
           = py.calls_of "fit" (mlstate.pytrace w)
             ++ [data.Array (map core.Data ts)]
        /\ List.length (mlstate.bucket s') = 0%nat
        /\ exists ts0 t s0,
             ts = ts0 ++ [t]
             /\ mlstate.writes s ts0 w = (map (fun _ => None) ts0, s0, w)
             /\ mlstate.bucket s0 = map core.Data ts0).
Proof.
  intros Hk Hbatch Hempty. split.
  - intros Hlt. eexists. eexists. eexists.
    split; [apply writes_below_threshold; rewrite Hempty; simpl; lia|].
    cbn [mlstate.set_bucket mlstate.bucket]. rewrite Hempty. auto.
  - intros Hlen.
    destruct (exists_last (l := ts)) as (ts0 & t & ->).
    { intros ->. simpl in Hlen. lia. }
    rewrite length_app in Hlen. cbn [List.length] in Hlen.
    rewrite writes_app.
    rewrite writes_below_threshold by (rewrite Hempty; simpl; lia).
    cbn [mlstate.writes]. rewrite Hempty. cbn [app].
    set (s0 := mlstate.set_bucket s (map core.Data ts0)).
    destruct (py.call_result (mlstate.pytrace w) (mlstate.ins s0) "fit"
                (data.Array (mlstate.bucket s0 ++ [core.Data t])))
      as [m er] eqn:Ecall.
    rewrite (Write_at_threshold s0 t w m er).
    + eexists. eexists. eexists. split; [reflexivity|].
      rewrite log_fit_result_pytrace.
      cbn [mlstate.record_event mlstate.pytrace mlstate.set_bucket
           mlstate.bucket mlstate.ins s0].
      rewrite map_app. cbn [map].
      split; [reflexivity|].
      split; [rewrite calls_of_app; reflexivity|].
      split; [reflexivity|].
      exists ts0, t, s0. split; [reflexivity|].
      split; [|reflexivity].
      rewrite writes_below_threshold by (rewrite Hempty; simpl; lia).
      rewrite Hempty. reflexivity.
    + cbn [s0 mlstate.set_bucket mlstate.bucket mlstate.batchSize].
      rewrite length_map. lia.
    + exact Ecall.
Qed.

End BatchProofs.

(** C1 at batch size 3 and the writes of 10, 20 and 30. *)
Lemma fit_exactly_at_kth_write_witness :
  let ts := [sample.tuple_of (data.Int 10); sample.tuple_of (data.Int 20);
             sample.tuple_of (data.Int 30)] in
  exists errs s' w',
    @mlstate.writes sample.learner sample.plain_api
      (sample.fresh_state 3) ts sample.empty_world = (errs, s', w')
    /\ mlstate.pytrace w'
       = mlstate.pytrace sample.empty_world
         ++ [py.EvCall (mlstate.ins (sample.fresh_state 3)) "fit"
                       (data.Array (map core.Data ts))]
    /\ py.calls_of "fit" (mlstate.pytrace w')
       = py.calls_of "fit" (mlstate.pytrace sample.empty_world)
         ++ [data.Array (map core.Data ts)]
    /\ List.length (mlstate.bucket s') = 0%nat
    /\ exists ts0 t s0,
         ts = ts0 ++ [t]
         /\ @mlstate.writes sample.learner sample.plain_api
              (sample.fresh_state 3) ts0 sample.empty_world
            = (map (fun _ => None) ts0, s0, sample.empty_world)
         /\ mlstate.bucket s0 = map core.Data ts0.
Proof.
  intros ts.
  destruct (@fit_exactly_at_kth_write sample.learner sample.plain_api
              (sample.fresh_state 3) sample.empty_world ts 3
              ltac:(lia) eq_refl eq_refl) as [_ Hfull].
  apply Hfull. reflexivity.
Defined.

Example three_writes_at_batch_size_3 :
  @mlstate.writes sample.learner sample.plain_api
    (sample.fresh_state 3)
    [sample.tuple_of (data.Int 10); sample.tuple_of (data.Int 20);
     sample.tuple_of (data.Int 30)]
    sample.empty_world
  = ([None; None; None],
     sample.fresh_state 3,
     {| mlstate.pytrace :=
          [py.EvCall 2%nat "fit"
             (data.Array [data.Int 10; data.Int 20; data.Int 30])];
        mlstate.debugged := [(f64_of_Z 2, f64_of_Z 1)] |}).
Proof. reflexivity. Qed.

Section FlushProofs.

Context `{py.Runtime} `{data.API}.

(** C2.  When the append brings the bucket to [batchSize] and the fit
    call that follows fails with [e], [Write] returns [e] and leaves the
    bucket empty: the records handed to the failed call are gone. *)
Theorem failed_fit_drops_bucket
    (s : mlstate.PyMLState) (t : core.Tuple) (w : mlstate.World)
    (m : data.Value) (e : error) :
  mlstate.batchSize s <= Z.of_nat (List.length (mlstate.bucket s)) + 1 ->
  py.call_result (mlstate.pytrace w) (mlstate.ins s) "fit"
                 (data.Array (mlstate.bucket s ++ [core.Data t]))
  = (m, Some e) ->
  exists s' w',
    mlstate.Write s t w = (Some e, s', w')
    /\ mlstate.bucket s' = []
    /\ mlstate.batchSize s' = mlstate.batchSize s
    /\ mlstate.pytrace w'
       = mlstate.pytrace w
         ++ [py.EvCall (mlstate.ins s) "fit"
                       (data.Array (mlstate.bucket s ++ [core.Data t]))].
Proof.
  intros Hge Hcall. rewrite (Write_at_threshold s t w m (Some e) Hge Hcall).
  eexists. eexists. split; [reflexivity|].
  rewrite log_fit_result_pytrace. auto.
Qed.

(** C7.  When the append brings the bucket to [batchSize] and the fit
    call succeeds, [Write] returns no error whatever value [m] the call
    returned and whatever the conversions of the [data] package make of
    it: the value only decides whether a debug line is printed. *)
Theorem fit_result_shape_never_fails_write
    (s : mlstate.PyMLState) (t : core.Tuple) (w : mlstate.World)
    (m : data.Value) :
  mlstate.batchSize s <= Z.of_nat (List.length (mlstate.bucket s)) + 1 ->
  py.call_result (mlstate.pytrace w) (mlstate.ins s) "fit"
                 (data.Array (mlstate.bucket s ++ [core.Data t]))
  = (m, None) ->
  exists s' w',
    mlstate.Write s t w = (None, s', w')
    /\ mlstate.bucket s' = []
    /\ mlstate.pytrace w'
       = mlstate.pytrace w
         ++ [py.EvCall (mlstate.ins s) "fit"
                       (data.Array (mlstate.bucket s ++ [core.Data t]))]
    /\ (mlstate.debugged w' = mlstate.debugged w
        \/ exists loss acc,
             mlstate.debugged w' = mlstate.debugged w ++ [(loss, acc)])
    /\ ((forall ret, data.AsMap m <> inl ret) ->
        mlstate.debugged w' = mlstate.debugged w)
    /\ (forall ret,
          data.AsMap m = inl ret ->
          (forall l, data.Get ret mlstate.lossPath = inl l ->
                     forall x, data.ToFloat l <> inl x) ->
          mlstate.debugged w' = mlstate.debugged w)
    /\ (forall ret,
          data.AsMap m = inl ret ->
          (forall a, data.Get ret mlstate.accPath = inl a ->
                     forall x, data.ToFloat a <> inl x) ->
          mlstate.debugged w' = mlstate.debugged w).
Proof.
  intros Hge Hcall. rewrite (Write_at_threshold s t w m None Hge Hcall).
  eexists. eexists. split; [reflexivity|].
  split; [reflexivity|].
  split; [apply log_fit_result_pytrace|].
  unfold mlstate.log_fit_result.
  destruct (data.AsMap m) as [ret|e0] eqn:Emap.
  - destruct (data.Get ret mlstate.lossPath) as [l|] eqn:El.
    + destruct (data.ToFloat l) as [loss|] eqn:Efl.
      * destruct (data.Get ret mlstate.accPath) as [a|] eqn:Ea.
        -- destruct (data.ToFloat a) as [acc|] eqn:Efa.
           ++ split; [right; eexists; eexists; reflexivity|].
              split; [intros Hno; exfalso; apply (Hno ret); reflexivity|].
              split.
              ** intros ret' Hret Hno. injection Hret as <-.
                 exfalso. apply (Hno l El loss). exact Efl.
              ** intros ret' Hret Hno. injection Hret as <-.
                 exfalso. apply (Hno a Ea acc). exact Efa.
           ++ split; [left; reflexivity|]. repeat split; reflexivity.
        -- split; [left; reflexivity|]. repeat split; reflexivity.
      * split; [left; reflexivity|]. repeat split; reflexivity.
    + split; [left; reflexivity|]. repeat split; reflexivity.
  - split; [left; reflexivity|]. repeat split; reflexivity.
Qed.

End FlushProofs.

(** C2 at batch size 1 with an interpreter whose calls fail. *)
Lemma failed_fit_drops_bucket_witness :
  exists s' w',
    @mlstate.Write sample.broken sample.plain_api
      (sample.fresh_state 1) (sample.tuple_of (data.Int 10))
      sample.empty_world
    = (Some (ErrOther "fit failed"), s', w')
    /\ mlstate.bucket s' = []
    /\ mlstate.batchSize s' = mlstate.batchSize (sample.fresh_state 1)
    /\ mlstate.pytrace w'
       = mlstate.pytrace sample.empty_world
         ++ [py.EvCall (mlstate.ins (sample.fresh_state 1)) "fit"
               (data.Array (mlstate.bucket (sample.fresh_state 1)
                            ++ [core.Data (sample.tuple_of (data.Int 10))]))].
Proof.
  apply (@failed_fit_drops_bucket sample.broken sample.plain_api
           (sample.fresh_state 1) (sample.tuple_of (data.Int 10))
           sample.empty_world data.Null (ErrOther "fit failed")).
  - simpl. lia.
  - reflexivity.
Defined.

(** C7 at batch size 1 with an interpreter whose fit returns a string. *)
Lemma fit_result_shape_never_fails_write_witness :
  exists s' w',
    @mlstate.Write sample.terse sample.plain_api
      (sample.fresh_state 1) (sample.tuple_of (data.Int 10))
      sample.empty_world
    = (None, s', w')
    /\ mlstate.bucket s' = [].
Proof.
  destruct (@fit_result_shape_never_fails_write
              sample.terse sample.plain_api
              (sample.fresh_state 1) (sample.tuple_of (data.Int 10))
              sample.empty_world (data.String "ok"))
    as (s' & w' & Hrun & Hb & _).
  - simpl. lia.
  - reflexivity.
  - exists s', w'. split; [exact Hrun|exact Hb].
Defined.

Section InvariantProofs.

Context `{py.Runtime} `{data.API} `{mem : Memory}.

Lemma Write_restores_invariant (s : mlstate.PyMLState) (t : core.Tuple)
    (w : mlstate.World) :
  0 < mlstate.batchSize s ->
  exists err s' w',
    mlstate.Write s t w = (err, s', w')
    /\ Z.of_nat (List.length (mlstate.bucket s')) < mlstate.batchSize s'
    /\ mlstate.batchSize s' = mlstate.batchSize s
    /\ mlstate.mdl s' = mlstate.mdl s
    /\ mlstate.ins s' = mlstate.ins s.
Proof.
  intros Hpos.
  destruct (Z_lt_le_dec
              (Z.of_nat (List.length (mlstate.bucket s)) + 1)
              (mlstate.batchSize s)) as [Hlt | Hge].
  - rewrite (Write_below_threshold s t w Hlt).
    eexists. eexists. eexists. split; [reflexivity|].
    cbn [mlstate.set_bucket mlstate.bucket mlstate.batchSize mlstate.mdl
         mlstate.ins].
    rewrite length_app. cbn [List.length]. repeat split; lia.
  - destruct (py.call_result (mlstate.pytrace w) (mlstate.ins s) "fit"
                (data.Array (mlstate.bucket s ++ [core.Data t])))
      as [m er] eqn:Ecall.
    rewrite (Write_at_threshold s t w m er Hge Ecall).
    eexists. eexists. eexists. split; [reflexivity|].
    cbn [mlstate.set_bucket mlstate.bucket mlstate.batchSize mlstate.mdl
         mlstate.ins List.length].
    repeat split; lia.
Qed.

(** Every operation other than a write returns the state it was given. *)
Lemma apply_op_frames_state (o : mlstate.operation) (s : mlstate.PyMLState)
    (w : mlstate.World) :
  (forall t, o <> mlstate.OpWrite t) ->
  fst (mlstate.apply_op o s w) = s.
Proof.
  intros Hnw. destruct o as [t | b | b | dt |]; cbn [mlstate.apply_op].
  - exfalso. apply (Hnw t). reflexivity.
  - unfold mlstate.Fit, mlstate.Call.
    destruct (py.call_result _ _ _ _). reflexivity.
  - unfold mlstate.FitMap, mlstate.Call.
    destruct (py.call_result _ _ _ _). reflexivity.
  - unfold mlstate.Call.
    destruct (py.call_result _ _ _ _). reflexivity.
  - reflexivity.
Qed.

Lemma apply_op_keeps_invariant (o : mlstate.operation)
    (s : mlstate.PyMLState) (w : mlstate.World) :
  0 < mlstate.batchSize s ->
  Z.of_nat (List.length (mlstate.bucket s)) < mlstate.batchSize s ->
  Z.of_nat (List.length (mlstate.bucket (fst (mlstate.apply_op o s w))))
  < mlstate.batchSize (fst (mlstate.apply_op o s w))
  /\ mlstate.batchSize (fst (mlstate.apply_op o s w)) = mlstate.batchSize s.
Proof.
  intros Hpos Hinv. destruct o as [t | b | b | dt |].
  - cbn [mlstate.apply_op].
    destruct (Write_restores_invariant s t w Hpos)
      as (err & s' & w' & -> & Hlt & Hk & _).
    cbn [fst]. split; assumption.
  - rewrite apply_op_frames_state by discriminate. split; [exact Hinv|easy].
  - rewrite apply_op_frames_state by discriminate. split; [exact Hinv|easy].
  - rewrite apply_op_frames_state by discriminate. split; [exact Hinv|easy].
  - rewrite apply_op_frames_state by discriminate. split; [exact Hinv|easy].
Qed.

Lemma apply_ops_keep_invariant (os : list mlstate.operation) :
  forall (s : mlstate.PyMLState) (w : mlstate.World),
    0 < mlstate.batchSize s ->
    Z.of_nat (List.length (mlstate.bucket s)) < mlstate.batchSize s ->
    Z.of_nat (List.length (mlstate.bucket (fst (mlstate.apply_ops os s w))))
    < mlstate.batchSize (fst (mlstate.apply_ops os s w))
    /\ mlstate.batchSize (fst (mlstate.apply_ops os s w))
       = mlstate.batchSize s.
Proof.
  induction os as [|o os IH]; intros s w Hpos Hinv.
  - simpl. split; [exact Hinv|reflexivity].
  - cbn [mlstate.apply_ops].
    destruct (apply_op_keeps_invariant o s w Hpos Hinv) as [Hinv' Hk'].
    destruct (mlstate.apply_op o s w) as [s' w'] eqn:Eop. cbn [fst] in *.
    destruct (IH s' w' ltac:(lia) Hinv') as [Hfin Hkfin].
    split; [exact Hfin|]. rewrite Hkfin. exact Hk'.
Qed.

(** C6.  A model state created with batch size [k > 0] starts with a
    bucket shorter than [k]; every write returns with the bucket shorter
    than [batchSize] again, whatever its length was before; fit, predict
    and terminate return the state as it was; and so after any sequence of
    operations on the created state the bucket is shorter than
    [batchSize], which is still [k]. *)
Theorem bucket_stays_below_batch_size
    (modulePathName moduleName className modelPath : string) (k : Z)
    (w0 w1 : mlstate.World) (s0 : mlstate.PyMLState) :
  0 < k ->
  mlstate.NewPyMLState modulePathName moduleName className k modelPath w0
  = Done (inl s0, w1) ->
  (mlstate.batchSize s0 = k
   /\ Z.of_nat (List.length (mlstate.bucket s0)) < mlstate.batchSize s0)
  /\ (forall s t w,
        0 < mlstate.batchSize s ->
        exists err s' w',
          mlstate.Write s t w = (err, s', w')
          /\ Z.of_nat (List.length (mlstate.bucket s')) < mlstate.batchSize s'
          /\ mlstate.batchSize s' = mlstate.batchSize s)
  /\ (forall o s w,
        (forall t, o <> mlstate.OpWrite t) ->
        fst (mlstate.apply_op o s w) = s)
  /\ (forall os,
        let s := fst (mlstate.apply_ops os s0 w1) in
        Z.of_nat (List.length (mlstate.bucket s)) < mlstate.batchSize s
        /\ mlstate.batchSize s = k).
Proof.
  intros Hk Hnew.
  assert (Hinit : mlstate.batchSize s0 = k /\ mlstate.bucket s0 = []).
  { unfold mlstate.NewPyMLState in Hnew.
    destruct (py.load_result _ _) as [m|]; [|discriminate].
    destruct (py.instance_result _ _ _ _) as [i|]; [|discriminate].
    destruct (make_cap size_value data.Null 0 k) as [bucket0|kind] eqn:Emake;
      [|discriminate].
    unfold make_cap in Emake.
    destruct (negb (fits size_value k) || (0 <? 0) || (k <? 0));
      [discriminate|].
    injection Emake as <-. cbn [Go.bind] in Hnew.
    injection Hnew as <- _. split; reflexivity. }
  destruct Hinit as [Hbatch Hbucket].
  split; [split; [exact Hbatch|rewrite Hbucket, Hbatch; simpl; lia]|].
  split.
  { intros s t w Hpos.
    destruct (Write_restores_invariant s t w Hpos)
      as (err & s' & w' & Hrun & Hlt & Hsame & _).
    exists err, s', w'. auto. }
  split; [intros o s w; apply apply_op_frames_state|].
  intros os s.
  destruct (apply_ops_keep_invariant os s0 w1) as [Hfin Hkfin].
  - lia.
  - rewrite Hbucket, Hbatch. simpl. lia.
  - subst s. split; [exact Hfin|]. rewrite Hkfin. exact Hbatch.
Qed.

(** C8.  [PyMLPredict] returns the context with every shared state as it
    was (bucket, batch size and both handles) and the debug log as it
    was.  When the name is that of a [PyMLState] it adds one event to the
    interpreter trace, the call of predict on the state's instance with
    the input as given, and returns what that call returned; otherwise it
    returns the lookup error and the world is untouched. *)
Theorem predict_only_forwards_input
    (ctx : mlstate.Context) (stateName : string) (dt : data.Value) :
  exists v err ctx',
    mlstate.PyMLPredict ctx stateName dt = (v, err, ctx')
    /\ mlstate.SharedStates ctx' = mlstate.SharedStates ctx
    /\ (forall n, mlstate.lookupPyMLState ctx' n
                  = mlstate.lookupPyMLState ctx n)
    /\ mlstate.debugged (mlstate.world ctx')
       = mlstate.debugged (mlstate.world ctx)
    /\ match mlstate.lookupPyMLState ctx stateName with
       | inl s =>
           mlstate.pytrace (mlstate.world ctx')
           = mlstate.pytrace (mlstate.world ctx)
             ++ [py.EvCall (mlstate.ins s) "predict" dt]
           /\ (v, err)
              = (Some (fst (py.call_result
                              (mlstate.pytrace (mlstate.world ctx))
                              (mlstate.ins s) "predict" dt)),
                 snd (py.call_result
                        (mlstate.pytrace (mlstate.world ctx))
                        (mlstate.ins s) "predict" dt))
           /\ fst (mlstate.apply_op (mlstate.OpPredict dt) s
                                    (mlstate.world ctx)) = s
       | inr e => ctx' = ctx /\ v = None /\ err = Some e
       end.
Proof.
  unfold mlstate.PyMLPredict.
  destruct (mlstate.lookupPyMLState ctx stateName) as [s|e] eqn:Elook.
  - unfold mlstate.Call.
    destruct (py.call_result (mlstate.pytrace (mlstate.world ctx))
                (mlstate.ins s) "predict" dt) as [r er] eqn:Ecall.
    eexists. eexists. eexists. split; [reflexivity|].
    split; [reflexivity|]. split; [reflexivity|]. split; [reflexivity|].
    split; [reflexivity|]. split; [reflexivity|].
    cbn [mlstate.apply_op]. unfold mlstate.Call. rewrite Ecall. reflexivity.
  - eexists. eexists. eexists. split; [reflexivity|].
    split; [reflexivity|]. split; [reflexivity|]. split; [reflexivity|].
    auto.
Qed.

(** Fit by name leaves every registered state as it was as well. *)
Lemma PyMLFit_frames_states (ctx : mlstate.Context) (stateName : string)
    (b : list data.Map_t) :
  forall n,
    mlstate.lookupPyMLState (snd (mlstate.PyMLFit ctx stateName b)) n
    = mlstate.lookupPyMLState ctx n.
Proof.
  intros n. unfold mlstate.PyMLFit.
  destruct (mlstate.lookupPyMLState ctx stateName) as [s|e] eqn:Elook.
  - unfold mlstate.FitMap, mlstate.Call.
    destruct (py.call_result _ _ _ _) as [v er]. cbn [snd].
    unfold mlstate.lookupPyMLState, mlstate.set_state.
    cbn [mlstate.SharedStates].
    destruct (String.eqb n stateName) eqn:En; [|reflexivity].
    apply String.eqb_eq in En. subst n.
    unfold mlstate.lookupPyMLState in Elook.
    destruct (mlstate.SharedStates ctx stateName) as [[s0|kind]|e];
      try discriminate.
    injection Elook as ->. reflexivity.
  - reflexivity.
Qed.

End InvariantProofs.

(** C6 at batch size 3. *)
Lemma bucket_stays_below_batch_size_witness :
  (mlstate.batchSize (sample.fresh_state 3) = 3
   /\ Z.of_nat (List.length (mlstate.bucket (sample.fresh_state 3)))
      < mlstate.batchSize (sample.fresh_state 3))
  /\ (forall s t w,
        0 < mlstate.batchSize s ->
        exists err s' w',
          @mlstate.Write sample.learner sample.plain_api s t w = (err, s', w')
          /\ Z.of_nat (List.length (mlstate.bucket s')) < mlstate.batchSize s'
          /\ mlstate.batchSize s' = mlstate.batchSize s)
  /\ (forall o s w,
        (forall t, o <> mlstate.OpWrite t) ->
        fst (@mlstate.apply_op sample.learner sample.plain_api o s w) = s)
  /\ (forall os,
        let s := fst (@mlstate.apply_ops sample.learner sample.plain_api os
                        (sample.fresh_state 3)
                        {| mlstate.pytrace :=
                             [py.EvImportSysAndAppendPath "lib";
                              py.EvLoadModule "mlp";
                              py.EvNewInstance 1%nat "MLP"
                                               (data.String "model.pkl")];
                           mlstate.debugged := [] |}) in
        Z.of_nat (List.length (mlstate.bucket s)) < mlstate.batchSize s
        /\ mlstate.batchSize s = 3).
Proof.
  apply (@bucket_stays_below_batch_size sample.learner sample.plain_api
           amd64 "lib" "mlp" "MLP" "model.pkl" 3 sample.empty_world).
  - lia.
  - reflexivity.
Defined.

(* ================================================================= *)
(** ** Two goroutines writing to one model state *)

Section ScheduleProofs.

Context `{py.Runtime} `{data.API}.

(** Five steps of one goroutine are its whole [Write]. *)
Lemma five_steps_are_Write (s : mlstate.PyMLState) (t : core.Tuple)
    (w : mlstate.World) :
  let step3 p := let '(p', s', w') := p in mlstate.step p' s' w' in
  step3 (step3 (step3 (step3 (mlstate.step (mlstate.AtAppend t) s w))))
  = let '(err, s', w') := mlstate.Write s t w in
    (mlstate.Returned err, s', w').
Proof.
  intros step3.
  destruct (Z_lt_le_dec
              (Z.of_nat (List.length (mlstate.bucket s)) + 1)
              (mlstate.batchSize s)) as [Hlt | Hge].
  - rewrite (Write_below_threshold s t w Hlt).
    subst step3. cbn [mlstate.step].
    cbn [mlstate.set_bucket mlstate.bucket mlstate.batchSize].
    rewrite length_app. cbn [List.length].
    destruct (Z.of_nat (List.length (mlstate.bucket s) + 1)
              >=? mlstate.batchSize s) eqn:E.
    + apply Z.geb_le in E. lia.
    + reflexivity.
  - destruct (py.call_result (mlstate.pytrace w) (mlstate.ins s) "fit"
                (data.Array (mlstate.bucket s ++ [core.Data t])))
      as [m er] eqn:Ecall.
    rewrite (Write_at_threshold s t w m er Hge Ecall).
    subst step3. cbn [mlstate.step].
    cbn [mlstate.set_bucket mlstate.bucket mlstate.batchSize].
    rewrite length_app. cbn [List.length].
    destruct (Z.of_nat (List.length (mlstate.bucket s) + 1)
              >=? mlstate.batchSize s) eqn:E.
    + cbn [mlstate.step]. unfold mlstate.Fit, mlstate.Call.
      cbn [mlstate.set_bucket mlstate.bucket mlstate.batchSize mlstate.ins].
      rewrite Ecall. cbn [mlstate.step]. reflexivity.
    + destruct (Z.geb_spec
                  (Z.of_nat (List.length (mlstate.bucket s) + 1))
                  (mlstate.batchSize s)); [discriminate|lia].
Qed.

Lemma run_solo_G1 (s : mlstate.PyMLState) (w : mlstate.World)
    (t : core.Tuple) (p2 : mlstate.pc) :
  mlstate.run (mlstate.solo mlstate.G1)
    {| mlstate.shared := s; mlstate.mworld := w;
       mlstate.pc1 := mlstate.AtAppend t; mlstate.pc2 := p2 |}
  = let '(err, s', w') := mlstate.Write s t w in
    {| mlstate.shared := s'; mlstate.mworld := w';
       mlstate.pc1 := mlstate.Returned err; mlstate.pc2 := p2 |}.
Proof.
  pose proof (five_steps_are_Write s t w) as Hfive. cbv zeta in Hfive.
  unfold mlstate.solo, mlstate.run.
  cbn [repeat fold_left mlstate.sched_step mlstate.pc1 mlstate.pc2
       mlstate.shared mlstate.mworld].
  destruct (mlstate.step (mlstate.AtAppend t) s w) as [[q1 s1] w1].
  cbn [mlstate.pc1 mlstate.pc2 mlstate.shared mlstate.mworld].
  destruct (mlstate.step q1 s1 w1) as [[q2 s2] w2].
  cbn [mlstate.pc1 mlstate.pc2 mlstate.shared mlstate.mworld].
  destruct (mlstate.step q2 s2 w2) as [[q3 s3] w3].
  cbn [mlstate.pc1 mlstate.pc2 mlstate.shared mlstate.mworld].
  destruct (mlstate.step q3 s3 w3) as [[q4 s4] w4].
  cbn [mlstate.pc1 mlstate.pc2 mlstate.shared mlstate.mworld].
  destruct (mlstate.step q4 s4 w4) as [[q5 s5] w5].
  cbn [mlstate.pc1 mlstate.pc2 mlstate.shared mlstate.mworld].
  destruct (mlstate.Write s t w) as [[err s'] w'].
  injection Hfive as -> -> ->. reflexivity.
Qed.

Lemma run_solo_G2 (s : mlstate.PyMLState) (w : mlstate.World)
    (t : core.Tuple) (p1 : mlstate.pc) :
  mlstate.run (mlstate.solo mlstate.G2)
    {| mlstate.shared := s; mlstate.mworld := w;
       mlstate.pc1 := p1; mlstate.pc2 := mlstate.AtAppend t |}
  = let '(err, s', w') := mlstate.Write s t w in
    {| mlstate.shared := s'; mlstate.mworld := w';
       mlstate.pc1 := p1; mlstate.pc2 := mlstate.Returned err |}.
Proof.
  pose proof (five_steps_are_Write s t w) as Hfive. cbv zeta in Hfive.
  unfold mlstate.solo, mlstate.run.
  cbn [repeat fold_left mlstate.sched_step mlstate.pc1 mlstate.pc2
       mlstate.shared mlstate.mworld].
  destruct (mlstate.step (mlstate.AtAppend t) s w) as [[q1 s1] w1].
  cbn [mlstate.pc1 mlstate.pc2 mlstate.shared mlstate.mworld].
  destruct (mlstate.step q1 s1 w1) as [[q2 s2] w2].
  cbn [mlstate.pc1 mlstate.pc2 mlstate.shared mlstate.mworld].
  destruct (mlstate.step q2 s2 w2) as [[q3 s3] w3].
  cbn [mlstate.pc1 mlstate.pc2 mlstate.shared mlstate.mworld].
  destruct (mlstate.step q3 s3 w3) as [[q4 s4] w4].
  cbn [mlstate.pc1 mlstate.pc2 mlstate.shared mlstate.mworld].
  destruct (mlstate.step q4 s4 w4) as [[q5 s5] w5].
  cbn [mlstate.pc1 mlstate.pc2 mlstate.shared mlstate.mworld].
  destruct (mlstate.Write s t w) as [[err s'] w'].
  injection Hfive as -> -> ->. reflexivity.
Qed.

Lemma run_app (l1 l2 : list mlstate.goroutine) (m : mlstate.Machine) :
  mlstate.run (l1 ++ l2) m = mlstate.run l2 (mlstate.run l1 m).
Proof. unfold mlstate.run. apply fold_left_app. Qed.

(** Steps of one goroutine leave the other where it is. *)
Lemma run_G1_keeps_pc2 (n : nat) :
  forall m, mlstate.pc2 (mlstate.run (repeat mlstate.G1 n) m) = mlstate.pc2 m.
Proof.
  induction n as [|n IH]; intros m.
  - reflexivity.
  - cbn [repeat]. change (mlstate.G1 :: repeat mlstate.G1 n)
      with ([mlstate.G1] ++ repeat mlstate.G1 n).
    rewrite run_app, IH. unfold mlstate.run.
    cbn [fold_left mlstate.sched_step].
    destruct (mlstate.step (mlstate.pc1 m) (mlstate.shared m)
                           (mlstate.mworld m)) as [[p s] w].
    reflexivity.
Qed.

Lemma run_G2_keeps_pc1 (n : nat) :
  forall m, mlstate.pc1 (mlstate.run (repeat mlstate.G2 n) m) = mlstate.pc1 m.
Proof.
  induction n as [|n IH]; intros m.
  - reflexivity.
  - cbn [repeat]. change (mlstate.G2 :: repeat mlstate.G2 n)
      with ([mlstate.G2] ++ repeat mlstate.G2 n).
    rewrite run_app, IH. unfold mlstate.run.
    cbn [fold_left mlstate.sched_step].
    destruct (mlstate.step (mlstate.pc2 m) (mlstate.shared m)
                           (mlstate.mworld m)) as [[p s] w].
    reflexivity.
Qed.

Lemma firstn_solo_then (n : nat) (g g' : mlstate.goroutine) :
  firstn n (mlstate.solo g ++ mlstate.solo g')
  = if (n <=? 5)%nat then repeat g n
    else mlstate.solo g ++ repeat g' (Nat.min (n - 5) 5).
Proof.
  unfold mlstate.solo.
  do 11 (destruct n as [|n]; [reflexivity|]).
  cbn [Nat.leb]. cbn [repeat app firstn].
  replace (Nat.min (S (S (S (S (S (S (S (S (S (S (S n)))))))))) - 5) 5)
    with 5%nat by lia.
  reflexivity.
Qed.

(** What one [Write] hands to fit and what it keeps: the records of its
    fit call, if it makes one, followed by the bucket it leaves are the
    bucket it found followed by the record written. *)
Lemma Write_conserves (s : mlstate.PyMLState) (t : core.Tuple)
    (w : mlstate.World) :
  exists err s' w' new,
    mlstate.Write s t w = (err, s', w')
    /\ mlstate.pytrace w' = mlstate.pytrace w ++ new
    /\ (List.length new <= 1)%nat
    /\ flat_map array_items (py.calls_of "fit" new) ++ mlstate.bucket s'
       = mlstate.bucket s ++ [core.Data t].
Proof.
  destruct (Z_lt_le_dec
              (Z.of_nat (List.length (mlstate.bucket s)) + 1)
              (mlstate.batchSize s)) as [Hlt | Hge].
  - rewrite (Write_below_threshold s t w Hlt).
    eexists. eexists. eexists. exists [].
    split; [reflexivity|]. rewrite app_nil_r.
    split; [reflexivity|]. split; [simpl; lia|]. reflexivity.
  - destruct (py.call_result (mlstate.pytrace w) (mlstate.ins s) "fit"
                (data.Array (mlstate.bucket s ++ [core.Data t])))
      as [m er] eqn:Ecall.
    rewrite (Write_at_threshold s t w m er Hge Ecall).
    eexists. eexists. eexists.
    exists [py.EvCall (mlstate.ins s) "fit"
              (data.Array (mlstate.bucket s ++ [core.Data t]))].
    split; [reflexivity|].
    split; [apply log_fit_result_pytrace|]. split; [simpl; lia|].
    cbn [py.calls_of py.call_arg String.eqb Ascii.eqb Bool.eqb
         flat_map array_items mlstate.set_bucket mlstate.bucket].
    rewrite !app_nil_r. reflexivity.
Qed.

(** C9, as the code has it.  [PyMLState] carries no lock, so exclusion is
    the caller's to provide.  When the caller runs two writes one after
    the other, each goroutine running its [Write] to the end before the
    other starts, the two are never in flight together, and the state,
    the world and the errors are those of [Write] called twice in that
    order.  Nothing appended is lost and nothing is fitted twice: the
    run adds at most two fit calls to the interpreter trace, and the
    records of those calls, in call order, followed by the bucket at the
    end are the bucket at the start followed by the two records written,
    each once and in the order of the writes. *)
Theorem serial_writes_are_two_Writes
    (s : mlstate.PyMLState) (w : mlstate.World) (t1 t2 : core.Tuple) :
  mlstate.run (mlstate.solo mlstate.G1 ++ mlstate.solo mlstate.G2)
              (mlstate.start s w t1 t2)
  = (let '(e1, s1, w1) := mlstate.Write s t1 w in
     let '(e2, s2, w2) := mlstate.Write s1 t2 w1 in
     {| mlstate.shared := s2; mlstate.mworld := w2;
        mlstate.pc1 := mlstate.Returned e1;
        mlstate.pc2 := mlstate.Returned e2 |})
  /\ mlstate.run (mlstate.solo mlstate.G2 ++ mlstate.solo mlstate.G1)
                 (mlstate.start s w t1 t2)
     = (let '(e2, s2, w2) := mlstate.Write s t2 w in
        let '(e1, s1, w1) := mlstate.Write s2 t1 w2 in
        {| mlstate.shared := s1; mlstate.mworld := w1;
           mlstate.pc1 := mlstate.Returned e1;
           mlstate.pc2 := mlstate.Returned e2 |})
  /\ (forall n,
        let m := mlstate.run
                   (firstn n (mlstate.solo mlstate.G1
                              ++ mlstate.solo mlstate.G2))
                   (mlstate.start s w t1 t2) in
        mlstate.in_flight (mlstate.pc1 m) && mlstate.in_flight (mlstate.pc2 m)
        = false)
  /\ (let m := mlstate.run
                 (mlstate.solo mlstate.G1 ++ mlstate.solo mlstate.G2)
                 (mlstate.start s w t1 t2) in
      exists new,
        mlstate.pytrace (mlstate.mworld m) = mlstate.pytrace w ++ new
        /\ (List.length new <= 2)%nat
        /\ flat_map array_items (py.calls_of "fit" new)
           ++ mlstate.bucket (mlstate.shared m)
           = mlstate.bucket s ++ [core.Data t1; core.Data t2])
  /\ (let m := mlstate.run
                 (mlstate.solo mlstate.G2 ++ mlstate.solo mlstate.G1)
                 (mlstate.start s w t1 t2) in
      exists new,
        mlstate.pytrace (mlstate.mworld m) = mlstate.pytrace w ++ new
        /\ (List.length new <= 2)%nat
        /\ flat_map array_items (py.calls_of "fit" new)
           ++ mlstate.bucket (mlstate.shared m)
           = mlstate.bucket s ++ [core.Data t2; core.Data t1]).
Proof.
  assert (Htwo : forall ta tb,
            exists ea eb sb wb new,
              (let '(e1, s1, w1) := mlstate.Write s ta w in
               let '(e2, s2, w2) := mlstate.Write s1 tb w1 in
               (e1, e2, s2, w2)) = (ea, eb, sb, wb)
              /\ mlstate.pytrace wb = mlstate.pytrace w ++ new
              /\ (List.length new <= 2)%nat
              /\ flat_map array_items (py.calls_of "fit" new)
                 ++ mlstate.bucket sb
                 = mlstate.bucket s ++ [core.Data ta; core.Data tb]).
  { intros ta tb.
    destruct (Write_conserves s ta w)
      as (e1 & s1 & w1 & new1 & -> & Htr1 & Hlen1 & Hc1).
    destruct (Write_conserves s1 tb w1)
      as (e2 & s2 & w2 & new2 & -> & Htr2 & Hlen2 & Hc2).
    exists e1, e2, s2, w2, (new1 ++ new2).
    split; [reflexivity|].
    split; [rewrite Htr2, Htr1, app_assoc; reflexivity|].
    split; [rewrite length_app; lia|].
    rewrite calls_of_app, flat_map_app, <- app_assoc, Hc2, app_assoc, Hc1.
    rewrite <- app_assoc. reflexivity. }
  split; [|split; [|split; [|split]]].
  - rewrite run_app. unfold mlstate.start. rewrite run_solo_G1.
    destruct (mlstate.Write s t1 w) as [[e1 s1] w1].
    rewrite run_solo_G2.
    destruct (mlstate.Write s1 t2 w1) as [[e2 s2] w2]. reflexivity.
  - rewrite run_app. unfold mlstate.start. rewrite run_solo_G2.
    destruct (mlstate.Write s t2 w) as [[e2 s2] w2].
    rewrite run_solo_G1.
    destruct (mlstate.Write s2 t1 w2) as [[e1 s1] w1]. reflexivity.
  - intros n m. subst m. rewrite firstn_solo_then.
    destruct (n <=? 5)%nat.
    + rewrite run_G1_keeps_pc2. cbn [mlstate.start mlstate.pc2
                                     mlstate.in_flight].
      apply andb_false_r.
    + rewrite run_app, run_G2_keeps_pc1.
      unfold mlstate.start. rewrite run_solo_G1.
      destruct (mlstate.Write s t1 w) as [[e1 s1] w1].
      reflexivity.
  - destruct (Htwo t1 t2) as (ea & eb & sb & wb & new & Heq & Hrest).
    cbv zeta. rewrite run_app. unfold mlstate.start. rewrite run_solo_G1.
    destruct (mlstate.Write s t1 w) as [[e1 s1] w1].
    rewrite run_solo_G2.
    destruct (mlstate.Write s1 t2 w1) as [[e2 s2] w2].
    injection Heq as _ _ <- <-. exists new. exact Hrest.
  - destruct (Htwo t2 t1) as (ea & eb & sb & wb & new & Heq & Hrest).
    cbv zeta. rewrite run_app. unfold mlstate.start. rewrite run_solo_G2.
    destruct (mlstate.Write s t2 w) as [[e2 s2] w2].
    rewrite run_solo_G1.
    destruct (mlstate.Write s2 t1 w2) as [[e1 s1] w1].
    injection Heq as _ _ <- <-. exists new. exact Hrest.
Qed.

End ScheduleProofs.

(** C9 fails as stated.  With batch size 2, the schedule that alternates
    the two goroutines has both writes in flight after two steps, and at
    its end fit has been called twice with the same two records.  With
    batch size 1, a second goroutine appending between the first one's
    fit and clear loses its record: its write returns no error, the
    bucket is empty and the only fit call was without it. *)
Lemma writes_interleave_without_lock :
  let a := sample.tuple_of (data.Int 10) in
  let b := sample.tuple_of (data.Int 20) in
  let G1 := mlstate.G1 in
  let G2 := mlstate.G2 in
  ~ @mlstate.mutually_exclusive sample.learner sample.plain_api
  /\ (let m := @mlstate.run sample.learner sample.plain_api
                 [G1; G2; G1; G2; G1; G2; G1; G2; G1; G2]
                 (mlstate.start (sample.fresh_state 2) sample.empty_world
                                a b) in
      py.calls_of "fit" (mlstate.pytrace (mlstate.mworld m))
      = [data.Array [data.Int 10; data.Int 20];
         data.Array [data.Int 10; data.Int 20]]
      /\ mlstate.pc1 m = mlstate.Returned None
      /\ mlstate.pc2 m = mlstate.Returned None)
  /\ (let m := @mlstate.run sample.learner sample.plain_api
                 [G1; G1; G1; G2; G1; G1; G2]
                 (mlstate.start (sample.fresh_state 1) sample.empty_world
                                a b) in
      py.calls_of "fit" (mlstate.pytrace (mlstate.mworld m))
      = [data.Array [data.Int 10]]
      /\ mlstate.bucket (mlstate.shared m) = []
      /\ mlstate.pc1 m = mlstate.Returned None
      /\ mlstate.pc2 m = mlstate.Returned None).
Proof.
  intros a b G1 G2. split; [|split].
  - intros Hme.
    specialize (Hme (sample.fresh_state 2) sample.empty_world a b [G1; G2]).
    vm_compute in Hme. discriminate.
  - vm_compute. repeat split.
  - vm_compute. repeat split.
Qed.

(* ================================================================= *)
(** ** More on the stream source *)

Section ShuffleMore.

Context {R : Type} `{RandSource R}.

(** X1.  [ramdomPermutaion] returns for every slice and every random
    source, never indexing outside the slice, and what it returns is a
    permutation of the slice it was given. *)
Theorem ramdomPermutaion_returns_permutation (perm : list Z) (r : R) :
  exists perm' r',
    mnist.ramdomPermutaion perm r = Done (perm', r')
    /\ Permutation perm perm'
    /\ List.length perm' = List.length perm.
Proof.
  destruct (shuffle_from_permutes (List.length perm) 0 perm r eq_refl)
    as (perm' & r' & Hrun & Hp).
  exists perm', r'. split; [exact Hrun|]. split; [exact Hp|].
  symmetry. apply Permutation_length. exact Hp.
Qed.

End ShuffleMore.

Section StreamMore.

Context {R C W : Type} `{RandSource R} `{Clock C} `{core.Writer W}.

(** The emission loop neither reads nor changes the random source. *)
Lemma emit_from_set_rng (todo : nat) :
  forall (i : nat) (s : mnist.mnistDataSource) (env : mnist.Env R C W)
         (r2 : R),
    mnist.emit_from todo i s (set_rng env r2)
    = match mnist.emit_from todo i s env with
      | Done (inl (e, env')) => Done (inl (e, set_rng env' r2))
      | Done (inr env') => Done (inr (set_rng env' r2))
      | Panic k => Panic k
      end.
Proof.
  induction todo as [|todo IH]; intros i s env r2.
  - reflexivity.
  - cbn [mnist.emit_from].
    destruct (index (mnist.data s) i) as [row|k]; [|reflexivity].
    cbn [Go.bind].
    destruct (index (mnist.target s) i) as [label|k]; [|reflexivity].
    cbn [Go.bind]. cbn [set_rng mnist.clock mnist.sink mnist.written
                        mnist.logged mnist.rng].
    destruct (Now (mnist.clock env)) as [now c'].
    destruct (core.Write (mnist.sink env) _) as [a w'].
    destruct (mnist.is_halt a).
    + reflexivity.
    + apply (IH (S i) s
               {| mnist.rng := mnist.rng env; mnist.clock := c';
                  mnist.sink := w';
                  mnist.written := mnist.written env ++ _;
                  mnist.logged := mnist.logged env |} r2).
Qed.

(** The emission loop does not look at [randomFlag]. *)
Lemma emit_from_set_randomFlag (todo : nat) :
  forall (i : nat) (s : mnist.mnistDataSource) (env : mnist.Env R C W)
         (b : bool),
    mnist.emit_from todo i (set_randomFlag s b) env
    = mnist.emit_from todo i s env.
Proof.
  induction todo as [|todo IH]; intros i s env b.
  - reflexivity.
  - cbn [mnist.emit_from set_randomFlag mnist.data mnist.target].
    destruct (index (mnist.data s) i) as [row|k]; [|reflexivity].
    cbn [Go.bind].
    destruct (index (mnist.target s) i) as [label|k]; [|reflexivity].
    cbn [Go.bind].
    destruct (Now (mnist.clock env)) as [now c'].
    destruct (core.Write (mnist.sink env) _) as [a w'].
    destruct (mnist.is_halt a); [reflexivity|].
    apply IH.
Qed.

Lemma set_rng_same (env : mnist.Env R C W) : set_rng env (mnist.rng env) = env.
Proof. destruct env. reflexivity. Qed.

(** X2.  On a well-formed source a stream call with [randomFlag] set and
    one with [randomFlag] cleared return the same result and leave the
    same tuples written, the same writer, clock and log; they differ in
    the random source alone, which the call without the flag leaves
    untouched. *)
Theorem GenerateStream_same_with_or_without_randomFlag
    (s : mnist.mnistDataSource) (env : mnist.Env R C W) :
  well_formed s ->
  exists err env1 env0,
    mnist.GenerateStream (set_randomFlag s true) env = Done (err, env1)
    /\ mnist.GenerateStream (set_randomFlag s false) env = Done (err, env0)
    /\ mnist.written env1 = mnist.written env0
    /\ mnist.sink env1 = mnist.sink env0
    /\ mnist.clock env1 = mnist.clock env0
    /\ mnist.logged env1 = mnist.logged env0
    /\ mnist.rng env0 = mnist.rng env.
Proof.
  intros Hwf.
  assert (Hwf0 : well_formed (set_randomFlag s false)) by exact Hwf.
  destruct (GenerateStream_index_order (set_randomFlag s false) env Hwf0)
    as (err & env0 & k & Hrun0 & _).
  destruct Hwf as (Hsize & _ & _).
  destruct (stream_perm_permutes (set_randomFlag s true) (mnist.rng env)
              Hsize) as (perm1 & r1 & Hperm1 & _).
  destruct (stream_perm_permutes (set_randomFlag s false) (mnist.rng env)
              Hsize) as (perm0 & r0 & Hperm0 & _ & Hid).
  destruct (Hid eq_refl) as [_ ->].
  unfold mnist.GenerateStream in Hrun0 |- *.
  rewrite Hperm0 in Hrun0. rewrite Hperm1, Hperm0.
  cbn [Go.bind] in Hrun0 |- *.
  cbn [set_randomFlag mnist.dataSize] in Hrun0 |- *.
  rewrite emit_from_set_randomFlag in Hrun0.
  rewrite !emit_from_set_randomFlag.
  change {| mnist.rng := r1; mnist.clock := mnist.clock env;
            mnist.sink := mnist.sink env;
            mnist.written := mnist.written env;
            mnist.logged := mnist.logged env |} with (set_rng env r1).
  change {| mnist.rng := mnist.rng env; mnist.clock := mnist.clock env;
            mnist.sink := mnist.sink env;
            mnist.written := mnist.written env;
            mnist.logged := mnist.logged env |}
    with (set_rng env (mnist.rng env)) in Hrun0 |- *.
  rewrite set_rng_same in Hrun0 |- *.
  rewrite emit_from_set_rng.
  destruct (mnist.emit_from (Z.to_nat (mnist.dataSize s)) 0 s env)
    as [[[e env']|env']|kp] eqn:Eemit.
  - cbn [Go.bind] in Hrun0 |- *. injection Hrun0 as <- <-.
    exists e, (set_rng env' r1), env'.
    split; [reflexivity|]. split; [reflexivity|].
    repeat split.
    pose proof (emit_from_set_rng (Z.to_nat (mnist.dataSize s)) 0 s env
                  (mnist.rng env)) as Hsame.
    rewrite set_rng_same, Eemit in Hsame. injection Hsame as Hsame.
    rewrite Hsame at 1. reflexivity.
  - cbn [Go.bind] in Hrun0 |- *. injection Hrun0 as <- <-.
    eexists. eexists. eexists.
    split; [reflexivity|]. split; [reflexivity|].
    cbn [set_rng mnist.written mnist.sink mnist.clock mnist.logged
         mnist.rng].
    repeat split.
    pose proof (emit_from_set_rng (Z.to_nat (mnist.dataSize s)) 0 s env
                  (mnist.rng env)) as Hsame.
    rewrite set_rng_same, Eemit in Hsame. injection Hsame as Hsame.
    rewrite Hsame at 1. reflexivity.
  - discriminate.
Qed.

End StreamMore.

(** X2 at two records and a random source that would swap them. *)
Lemma GenerateStream_same_with_or_without_randomFlag_witness :
  let s := sample.source_of [7; 3] true in
  let env := sample.env_of [0; 0] [] in
  exists err env1 env0,
    mnist.GenerateStream (set_randomFlag s true) env = Done (err, env1)
    /\ mnist.GenerateStream (set_randomFlag s false) env = Done (err, env0)
    /\ mnist.written env1 = mnist.written env0
    /\ mnist.sink env1 = mnist.sink env0
    /\ mnist.clock env1 = mnist.clock env0
    /\ mnist.logged env1 = mnist.logged env0
    /\ mnist.rng env0 = mnist.rng env.
Proof.
  intros s env.
  apply (GenerateStream_same_with_or_without_randomFlag s env).
  split; [discriminate|split; reflexivity].
Defined.

Section StreamShape.

Context {R C W : Type} `{RandSource R} `{Clock C} `{core.Writer W}.

Lemma nth_stream_tuples (todo : nat) :
  forall (i : nat) (s : mnist.mnistDataSource) (c : C) (k : nat)
         (tu : core.Tuple),
    nth_error (stream_tuples todo i s c) k = Some tu ->
    core.Data tu = record_data s (i + k)
    /\ core.Timestamp tu = core.ProcTimestamp tu
    /\ core.Trace tu = [].
Proof.
  induction todo as [|todo IH]; intros i s c k tu Hk.
  - destruct k; discriminate.
  - cbn [stream_tuples] in Hk. destruct (Now c) as [now c'].
    destruct k as [|k].
    + injection Hk as <-. rewrite Nat.add_0_r. repeat split.
    + cbn [nth_error] in Hk. apply IH in Hk.
      replace (i + S k)%nat with (S i + k)%nat by lia. exact Hk.
Qed.

Lemma nth_error_firstn_some {A : Type} (k j : nat) (l : list A) (x : A) :
  nth_error (firstn k l) j = Some x -> nth_error l j = Some x.
Proof.
  revert j l. induction k as [|k IH]; intros j l Hj.
  - destruct j; discriminate.
  - destruct l as [|a l]; [destruct j; discriminate|].
    destruct j as [|j]; [exact Hj|].
    cbn [firstn nth_error] in Hj |- *. apply IH. exact Hj.
Qed.

(** The loop ends in one of two ways: at its end with every tuple
    written, or inside with a halting answer to the last tuple written. *)
Lemma emit_from_outcome (todo : nat) :
  forall (i : nat) (s : mnist.mnistDataSource) (env : mnist.Env R C W),
    (i + todo <= List.length (mnist.data s))%nat ->
    (i + todo <= List.length (mnist.target s))%nat ->
    exists r env' k,
      mnist.emit_from todo i s env = Done r
      /\ mnist.written env'
         = mnist.written env
           ++ firstn k (stream_tuples todo i s (mnist.clock env))
      /\ mnist.logged env' = mnist.logged env
      /\ ((r = inr env' /\ k = todo)
          \/ exists err, r = inl (err, env')
                         /\ mnist.is_halt err = true
                         /\ (1 <= k <= todo)%nat).
Proof.
  induction todo as [|todo IH]; intros i s env Hd Ht.
  - exists (inr env), env, 0%nat. simpl. rewrite app_nil_r.
    repeat split. left. split; reflexivity.
  - cbn [mnist.emit_from stream_tuples].
    rewrite (index_in_range (mnist.data s) i []) by lia.
    rewrite (index_in_range (mnist.target s) i 0) by lia.
    cbn [Go.bind].
    destruct (Now (mnist.clock env)) as [now c'] eqn:Enow.
    fold (record_at s i now).
    destruct (core.Write (mnist.sink env) (record_at s i now))
      as [a w'] eqn:Ew.
    destruct (mnist.is_halt a) eqn:Eh.
    + eexists.
      exists {| mnist.rng := mnist.rng env; mnist.clock := c';
                mnist.sink := w';
                mnist.written := mnist.written env ++ [record_at s i now];
                mnist.logged := mnist.logged env |}.
      exists 1%nat.
      split; [reflexivity|]. split; [reflexivity|]. split; [reflexivity|].
      right. exists a. split; [reflexivity|]. split; [exact Eh|lia].
    + destruct (IH (S i) s
                  {| mnist.rng := mnist.rng env; mnist.clock := c';
                     mnist.sink := w';
                     mnist.written := mnist.written env ++ [record_at s i now];
                     mnist.logged := mnist.logged env |}
                  ltac:(lia) ltac:(lia))
        as (r & env' & k & Hrun & Hw & Hl & Hend).
      exists r, env', (S k). split; [exact Hrun|].
      split.
      { rewrite Hw. cbn [mnist.written mnist.clock firstn].
        rewrite <- app_assoc. reflexivity. }
      split; [exact Hl|].
      destruct Hend as [[-> ->] | (err & -> & Hh & Hk)].
      * left. auto.
      * right. exists err. split; [reflexivity|]. split; [exact Hh|lia].
Qed.

(** X3.  A stream call on a well-formed source returns nil, the rewound
    signal or the stopped signal and nothing else, whatever errors the
    writer answers with.  The [k]-th tuple it writes carries the label
    and the image of index [k], with equal timestamps and an empty
    trace.  It returns nil exactly after writing [dataSize] tuples and
    logging the completion; it returns a signal after writing at least
    one tuple and logs nothing then. *)
Theorem GenerateStream_results_and_records
    (s : mnist.mnistDataSource) (env : mnist.Env R C W) :
  well_formed s ->
  exists err env' new,
    mnist.GenerateStream s env = Done (err, env')
    /\ mnist.written env' = mnist.written env ++ new
    /\ (forall k tu,
          nth_error new k = Some tu ->
          core.Data tu = record_data s k
          /\ core.Timestamp tu = core.ProcTimestamp tu
          /\ core.Trace tu = [])
    /\ ((err = None
         /\ List.length new = Z.to_nat (mnist.dataSize s)
         /\ mnist.logged env'
            = mnist.logged env ++ ["all MNIST data has been streaming"])
        \/ ((err = Some ErrSourceRewound \/ err = Some ErrSourceStopped)
            /\ (1 <= List.length new <= Z.to_nat (mnist.dataSize s))%nat
            /\ mnist.logged env' = mnist.logged env)).
Proof.
  intros (Hsize & Hdata & Htarget).
  destruct (stream_perm_permutes s (mnist.rng env) Hsize)
    as (perm & r' & Hperm & _).
  destruct (emit_from_outcome (Z.to_nat (mnist.dataSize s)) 0 s
              {| mnist.rng := r'; mnist.clock := mnist.clock env;
                 mnist.sink := mnist.sink env;
                 mnist.written := mnist.written env;
                 mnist.logged := mnist.logged env |})
    as (r & env' & k & Hrun & Hw & Hl & Hend).
  { simpl. lia. }
  { simpl. lia. }
  cbn [mnist.written mnist.clock mnist.logged] in Hw, Hl.
  unfold mnist.GenerateStream. rewrite Hperm. cbn [Go.bind].
  rewrite Hrun. cbn [Go.bind].
  assert (Hshape : forall j tu,
            nth_error
              (firstn k (stream_tuples (Z.to_nat (mnist.dataSize s)) 0 s
                                       (mnist.clock env))) j = Some tu ->
            core.Data tu = record_data s j
            /\ core.Timestamp tu = core.ProcTimestamp tu
            /\ core.Trace tu = []).
  { intros j tu Hj. apply nth_error_firstn_some in Hj.
    apply nth_stream_tuples in Hj. exact Hj. }
  destruct Hend as [[-> ->] | (err & -> & Hh & Hk)].
  - eexists. eexists. eexists. split; [reflexivity|].
    cbn [mnist.written mnist.logged].
    split; [exact Hw|]. split; [exact Hshape|].
    left. split; [reflexivity|].
    split; [|rewrite Hl; reflexivity].
    rewrite length_firstn, length_stream_tuples. lia.
  - exists err, env'. eexists. split; [reflexivity|].
    split; [exact Hw|]. split; [exact Hshape|].
    right. split; [apply is_halt_iff; exact Hh|].
    split; [|exact Hl].
    rewrite length_firstn, length_stream_tuples. lia.
Qed.

End StreamShape.

(** X3 at three records and a writer that fails the first with an
    ordinary error and signals rewound at the second. *)
Lemma GenerateStream_results_and_records_witness :
  let s := sample.source_of [7; 3; 5] false in
  let env := sample.env_of []
               [Some (ErrOther "busy"); Some ErrSourceRewound] in
  exists err env' new,
    mnist.GenerateStream s env = Done (err, env')
    /\ mnist.written env' = mnist.written env ++ new
    /\ (forall k tu,
          nth_error new k = Some tu ->
          core.Data tu = record_data s k
          /\ core.Timestamp tu = core.ProcTimestamp tu
          /\ core.Trace tu = [])
    /\ ((err = None
         /\ List.length new = Z.to_nat (mnist.dataSize s)
         /\ mnist.logged env'
            = mnist.logged env ++ ["all MNIST data has been streaming"])
        \/ ((err = Some ErrSourceRewound \/ err = Some ErrSourceStopped)
            /\ (1 <= List.length new <= Z.to_nat (mnist.dataSize s))%nat
            /\ mnist.logged env' = mnist.logged env)).
Proof.
  intros s env. apply (GenerateStream_results_and_records s env).
  split; [discriminate|split; reflexivity].
Defined.

(* ================================================================= *)
(** ** More on the dataset reader *)

Lemma getMNISTRawData_images_unopened `{Memory} (fs : FileSystem)
    (ip lp : string) (n e : Z) (err : error) :
  fs ip = inr err ->
  mnist.getMNISTRawData fs ip lp n e = Done ([], [], Some err).
Proof.
  intros Hi. unfold mnist.getMNISTRawData, mnist.reader. rewrite Hi.
  reflexivity.
Qed.

Lemma getMNISTRawData_labels_unopened `{Memory} (fs : FileSystem)
    (ip lp : string) (n e : Z) (ifile : list Byte.byte) (err : error) :
  fs ip = inl ifile ->
  fs lp = inr err ->
  mnist.getMNISTRawData fs ip lp n e = Done ([], [], Some err).
Proof.
  intros Hi Hl. unfold mnist.getMNISTRawData, mnist.reader. rewrite Hi, Hl.
  reflexivity.
Qed.

Lemma getMNISTRawData_sizes_fine `{Memory} (fs : FileSystem)
    (ip lp : string) (n e : Z) (ifile lfile : list Byte.byte) :
  fs ip = inl ifile ->
  fs lp = inl lfile ->
  0 <= n ->
  fits size_slice n = true ->
  0 <= e ->
  fits size_float32 e = true ->
  mnist.getMNISTRawData fs ip lp n e
  = Done (map byte_to_Z (take_padded (Z.to_nat n) (skipn 8 lfile)),
          images (Z.to_nat n) (Z.to_nat e) (skipn 16 ifile),
          None).
Proof.
  intros Hi Hl Hn Hfn He Hfe.
  rewrite <- (Z2Nat.id n Hn) in Hfn |- * at 1.
  rewrite <- (Z2Nat.id e He) in Hfe |- * at 1.
  apply getMNISTRawData_within; auto.
Qed.

(** The four ways a call with both files open can go. *)
Lemma getMNISTRawData_open_cases `{Memory} (fs : FileSystem)
    (ip lp : string) (n e : Z) (ifile lfile : list Byte.byte) :
  fs ip = inl ifile ->
  fs lp = inl lfile ->
  ((n < 0 \/ fits size_slice n = false
    \/ (0 < n /\ (e < 0 \/ fits size_float32 e = false)))
   /\ mnist.getMNISTRawData fs ip lp n e = Panic MakeSliceOutOfRange)
  \/ (~ (n < 0 \/ fits size_slice n = false
         \/ (0 < n /\ (e < 0 \/ fits size_float32 e = false)))
      /\ exists target rows,
           mnist.getMNISTRawData fs ip lp n e = Done (target, rows, None)).
Proof.
  intros Hi Hl.
  destruct (Z_lt_le_dec n 0) as [Hneg | Hpos].
  { left. split; [auto|].
    apply (getMNISTRawData_refused_dataSize fs ip lp n e ifile lfile Hi Hl).
    auto. }
  destruct (fits size_slice n) eqn:Hfn.
  2:{ left. split; [auto|].
      apply (getMNISTRawData_refused_dataSize fs ip lp n e ifile lfile
               Hi Hl). auto. }
  destruct (Z.eq_dec n 0) as [-> | Hnz].
  { right. split.
    - intros [Hc | [Hc | [Hc _]]]; (lia || discriminate).
    - eexists. eexists.
      apply (getMNISTRawData_nothing_to_read fs ip lp e ifile lfile Hi Hl
               Hfn). }
  destruct (Z_lt_le_dec e 0) as [Heneg | Hepos].
  { left. split; [right; right; split; [lia|auto]|].
    apply (getMNISTRawData_refused_imageElemSize fs ip lp n e ifile lfile
             Hi Hl); auto. lia. }
  destruct (fits size_float32 e) eqn:Hfe.
  2:{ left. split; [right; right; split; [lia|auto]|].
      apply (getMNISTRawData_refused_imageElemSize fs ip lp n e ifile lfile
               Hi Hl); auto. lia. }
  right. split.
  - intros [Hc | [Hc | [_ [Hc | Hc]]]]; (lia || discriminate).
  - eexists. eexists.
    apply (getMNISTRawData_sizes_fine fs ip lp n e ifile lfile); auto.
Qed.

(** X4.  [getMNISTRawData] panics exactly when both files open and a
    [make] fails: [dataSize] is negative or that many rows are beyond
    what the runtime allocates, or [dataSize] is positive and
    [imageElemSize] is negative or that many floats are beyond it.  An
    [imageElemSize] that [make] would refuse goes unnoticed when
    [dataSize] is 0, and a file that does not open is reported before
    any size is looked at. *)
Theorem getMNISTRawData_panics_exactly_on_bad_sizes `{Memory}
    (fs : FileSystem) (ip lp : string) (n e : Z) :
  (exists k, mnist.getMNISTRawData fs ip lp n e = Panic k)
  <-> (exists ifile lfile,
         fs ip = inl ifile /\ fs lp = inl lfile
         /\ (n < 0 \/ fits size_slice n = false
             \/ (0 < n /\ (e < 0 \/ fits size_float32 e = false)))).
Proof.
  split.
  - intros [k Hk].
    destruct (fs ip) as [ifile|err] eqn:Hi.
    2:{ rewrite (getMNISTRawData_images_unopened fs ip lp n e err Hi) in Hk.
        discriminate. }
    destruct (fs lp) as [lfile|err] eqn:Hl.
    2:{ rewrite (getMNISTRawData_labels_unopened fs ip lp n e ifile err Hi Hl)
          in Hk. discriminate. }
    exists ifile, lfile. split; [reflexivity|]. split; [reflexivity|].
    destruct (getMNISTRawData_open_cases fs ip lp n e ifile lfile Hi Hl)
      as [[Hbad _] | [_ (target & rows & Hrun)]]; [exact Hbad|].
    rewrite Hrun in Hk. discriminate.
  - intros (ifile & lfile & Hi & Hl & Hbad).
    exists MakeSliceOutOfRange.
    destruct (getMNISTRawData_open_cases fs ip lp n e ifile lfile Hi Hl)
      as [[_ Hrun] | [Hgood _]]; [exact Hrun|].
    contradiction.
Qed.

(** X5.  The only error [getMNISTRawData] returns is that of a file that
    did not open: the image file's if that one failed, else the label
    file's; both results are then empty.  Nothing read from an open
    file, however short, is reported. *)
Theorem getMNISTRawData_errors_are_open_failures `{Memory}
    (fs : FileSystem) (ip lp : string) (n e : Z)
    (target : list Z) (rows : list (list float32)) (err : error) :
  mnist.getMNISTRawData fs ip lp n e = Done (target, rows, Some err)
  <-> (target = [] /\ rows = []
       /\ (fs ip = inr err
           \/ exists ifile, fs ip = inl ifile /\ fs lp = inr err)).
Proof.
  split.
  - intros Hrun.
    destruct (fs ip) as [ifile|e1] eqn:Hi.
    2:{ rewrite (getMNISTRawData_images_unopened fs ip lp n e e1 Hi) in Hrun.
        injection Hrun as <- <- <-. auto. }
    destruct (fs lp) as [lfile|e2] eqn:Hl.
    2:{ rewrite (getMNISTRawData_labels_unopened fs ip lp n e ifile e2 Hi Hl)
          in Hrun.
        injection Hrun as <- <- <-. split; [reflexivity|].
        split; [reflexivity|]. right. exists ifile. auto. }
    exfalso.
    destruct (getMNISTRawData_open_cases fs ip lp n e ifile lfile Hi Hl)
      as [[_ Hp] | [_ (t0 & r0 & Hd)]]; rewrite Hrun in *; discriminate.
  - intros (-> & -> & [Hi | (ifile & Hi & Hl)]).
    + apply getMNISTRawData_images_unopened. exact Hi.
    + apply (getMNISTRawData_labels_unopened fs ip lp n e ifile).
      * exact Hi.
      * exact Hl.
Qed.

Lemma take_padded_app (n : nat) (r extra : Reader) :
  (n <= List.length r)%nat ->
  take_padded n (r ++ extra) = take_padded n r.
Proof.
  revert r. induction n as [|n IH]; intros r Hn.
  - reflexivity.
  - destruct r as [|b r]; [simpl in Hn; lia|].
    simpl. rewrite IH by (simpl in Hn; lia). reflexivity.
Qed.

Lemma images_app (n e : nat) (r extra : Reader) :
  (n * e <= List.length r)%nat ->
  images n e (r ++ extra) = images n e r.
Proof.
  revert r. induction n as [|n IH]; intros r Hn.
  - reflexivity.
  - cbn [images]. rewrite take_padded_app by lia.
    rewrite skipn_app.
    replace (e - List.length r)%nat with 0%nat by lia.
    cbn [skipn]. rewrite IH; [reflexivity|].
    rewrite length_skipn. simpl in Hn. lia.
Qed.

(** X6.  Only the 8 + [n] first bytes of the label file and the
    16 + [n] * [e] first bytes of the image file count: bytes that follow
    them change nothing in what [getMNISTRawData] returns. *)
Theorem getMNISTRawData_ignores_trailing_bytes
    (fs fs' : FileSystem) (ip lp : string)
    (ifile lfile iextra lextra : list Byte.byte) (n e : nat) :
  fs ip = inl ifile ->
  fs lp = inl lfile ->
  fs' ip = inl (ifile ++ iextra) ->
  fs' lp = inl (lfile ++ lextra) ->
  (8 + n <= List.length lfile)%nat ->
  (16 + n * e <= List.length ifile)%nat ->
  mnist.getMNISTRawData fs' ip lp (Z.of_nat n) (Z.of_nat e)
  = mnist.getMNISTRawData fs ip lp (Z.of_nat n) (Z.of_nat e).
Proof.
  intros Hi Hl Hi' Hl' Hln Hin.
  rewrite (getMNISTRawData_returns fs' ip lp _ _ n e Hi' Hl').
  rewrite (getMNISTRawData_returns fs ip lp _ _ n e Hi Hl).
  rewrite !skipn_app.
  replace (8 - List.length lfile)%nat with 0%nat by lia.
  replace (16 - List.length ifile)%nat with 0%nat by lia.
  change (skipn 0 lextra) with lextra. change (skipn 0 iextra) with iextra.
  rewrite (take_padded_app n (skipn 8 lfile) lextra)
    by (rewrite length_skipn; lia).
  rewrite (images_app n e (skipn 16 ifile) iextra)
    by (rewrite length_skipn; lia).
  reflexivity.
Qed.

(** X6 at one 2-byte image followed by three more bytes and one label
    followed by one more byte. *)
Lemma getMNISTRawData_ignores_trailing_bytes_witness :
  mnist.getMNISTRawData
    (sample.two_files
       ((sample.header 16 ++ [Byte.x10; Byte.x20])
        ++ [Byte.x30; Byte.x40; Byte.x50])
       ((sample.header 8 ++ [Byte.x05]) ++ [Byte.x06]))
    "images" "labels" (Z.of_nat 1) (Z.of_nat 2)
  = mnist.getMNISTRawData
      (sample.two_files (sample.header 16 ++ [Byte.x10; Byte.x20])
                        (sample.header 8 ++ [Byte.x05]))
      "images" "labels" (Z.of_nat 1) (Z.of_nat 2).
Proof.
  apply (getMNISTRawData_ignores_trailing_bytes
           (sample.two_files (sample.header 16 ++ [Byte.x10; Byte.x20])
                             (sample.header 8 ++ [Byte.x05]))
           (sample.two_files
              ((sample.header 16 ++ [Byte.x10; Byte.x20])
               ++ [Byte.x30; Byte.x40; Byte.x50])
              ((sample.header 8 ++ [Byte.x05]) ++ [Byte.x06]))
           "images" "labels"
           (sample.header 16 ++ [Byte.x10; Byte.x20])
           (sample.header 8 ++ [Byte.x05])
           [Byte.x30; Byte.x40; Byte.x50] [Byte.x06] 1%nat 2%nat);
    try reflexivity; simpl; lia.
Defined.

(** X7.  The conversion [data.Float(f)] that [GenerateStream] applies to
    a pixel changes nothing in its value: for every byte the float64 in
    the tuple denotes the same number as the float32 the reader stored,
    a number between 0 and 1. *)
Theorem pixel_keeps_value_as_float64 (b : Byte.byte) :
  (SF2Q (f64_of_f32 (mnist.normalize b)) == SF2Q (mnist.normalize b))%Q
  /\ (0 <= SF2Q (f64_of_f32 (mnist.normalize b)) <= 1)%Q
  /\ valid_binary 53 1024 (f64_of_f32 (mnist.normalize b)) = true.
Proof.
  split; [apply Qeq_bool_iff; destruct b; vm_compute; reflexivity|].
  split; [split; apply Qle_bool_iff; destruct b; vm_compute; reflexivity|].
  destruct b; vm_compute; reflexivity.
Qed.

(* ================================================================= *)
(** ** Creating the source from its WITH parameters *)

Lemma images_rows_length (n e : nat) (r : Reader) :
  Forall (fun row => List.length row = e) (images n e r).
Proof.
  revert r. induction n as [|n IH]; intros r; cbn [images].
  - constructor.
  - constructor; [|apply IH].
    rewrite length_map. apply length_take_padded.
Qed.

Section CreateProofs.

Context `{data.API} `{data.Casts} `{mem : Memory}.

(** X8.  The defaults.  When [image_element_size] and [random] cannot be
    got from the parameters, the four required parameters are present
    and well typed, both files open and [data_size] is not negative and
    within what [make] grants (that many rows and, when there are rows,
    the 784 floats of a row), [createMNISTDataSource] builds a
    well-formed source with [imageElemSize] 784, every image of 784
    components, [randomFlag] set, and [dataSize] and [batchSize] as
    given. *)
Theorem createMNISTDataSource_defaults
    (fs : FileSystem) (params : data.Map_t)
    (idn ldn ds bs : data.Value) (ip lp : string) (n k : Z)
    (e1 e2 : error) (ifile lfile : list Byte.byte) :
  data.Get params mnist.imagesFileNamePath = inl idn ->
  data.AsString idn = inl ip ->
  data.Get params mnist.labelsFileNamePath = inl ldn ->
  data.AsString ldn = inl lp ->
  data.Get params mnist.dataSizePath = inl ds ->
  data.AsInt ds = inl n ->
  data.Get params mnist.imageElemSizePath = inr e1 ->
  data.Get params mnist.batchSizePath = inl bs ->
  data.AsInt bs = inl k ->
  data.Get params mnist.randomFlagPath = inr e2 ->
  fs ip = inl ifile ->
  fs lp = inl lfile ->
  0 <= n ->
  fits size_slice n = true ->
  (n = 0 \/ fits size_float32 784 = true) ->
  exists s,
    mnist.createMNISTDataSource fs params = Done (inl s)
    /\ mnist.imageElemSize s = 784
    /\ mnist.randomFlag s = true
    /\ mnist.dataSize s = n
    /\ mnist.batchSize s = k
    /\ well_formed s
    /\ Forall (fun row => List.length row = 784%nat) (mnist.data s).
Proof.
  intros Hg1 Hc1 Hg2 Hc2 Hg3 Hc3 Hg4 Hg5 Hc5 Hg6 Hi Hl Hn Hfn Hfe.
  unfold mnist.createMNISTDataSource.
  rewrite Hg1, Hc1, Hg2, Hc2, Hg3, Hc3, Hg4, Hg5, Hc5, Hg6.
  unfold mnist.newDataSource.
  destruct Hfe as [-> | Hfe].
  { rewrite (getMNISTRawData_nothing_to_read fs ip lp (28 * 28) ifile lfile
               Hi Hl Hfn).
    cbn [Go.bind]. eexists. split; [reflexivity|].
    cbn [mnist.imageElemSize mnist.randomFlag mnist.dataSize mnist.batchSize
         mnist.data].
    split; [reflexivity|]. split; [reflexivity|]. split; [reflexivity|].
    split; [reflexivity|]. split; [|constructor].
    split; [cbn; lia|split; reflexivity]. }
  rewrite (getMNISTRawData_sizes_fine fs ip lp n (28 * 28) ifile lfile
             Hi Hl Hn Hfn ltac:(lia) Hfe).
  cbn [Go.bind]. eexists. split; [reflexivity|].
  cbn [mnist.imageElemSize mnist.randomFlag mnist.dataSize mnist.batchSize
       mnist.data].
  split; [reflexivity|]. split; [reflexivity|]. split; [reflexivity|].
  split; [reflexivity|]. split.
  - split; [exact Hn|]. cbn [mnist.data mnist.target mnist.dataSize].
    split; [apply length_images|].
    rewrite length_map. apply length_take_padded.
  - change (Z.to_nat (28 * 28)) with 784%nat. apply images_rows_length.
Qed.

(** X9.  An optional parameter that is present but of the wrong type is
    an error, not a fall back to the default, and the error is returned
    whatever the file system holds: [image_element_size] that is not an
    integer, and [random] that is not a boolean. *)
Theorem createMNISTDataSource_rejects_illtyped_optionals
    (fs : FileSystem) (params : data.Map_t)
    (idn ldn ds : data.Value) (ip lp : string) (n : Z) :
  data.Get params mnist.imagesFileNamePath = inl idn ->
  data.AsString idn = inl ip ->
  data.Get params mnist.labelsFileNamePath = inl ldn ->
  data.AsString ldn = inl lp ->
  data.Get params mnist.dataSizePath = inl ds ->
  data.AsInt ds = inl n ->
  (forall ies err,
      data.Get params mnist.imageElemSizePath = inl ies ->
      data.AsInt ies = inr err ->
      mnist.createMNISTDataSource fs params = Done (inr err))
  /\ (forall bs k flag err,
        (forall ies, data.Get params mnist.imageElemSizePath = inl ies ->
                     exists e, data.AsInt ies = inl e) ->
        data.Get params mnist.batchSizePath = inl bs ->
        data.AsInt bs = inl k ->
        data.Get params mnist.randomFlagPath = inl flag ->
        data.AsBool flag = inr err ->
        mnist.createMNISTDataSource fs params = Done (inr err)).
Proof.
  intros Hg1 Hc1 Hg2 Hc2 Hg3 Hc3. split.
  - intros ies err Hg4 Hc4. unfold mnist.createMNISTDataSource.
    rewrite Hg1, Hc1, Hg2, Hc2, Hg3, Hc3, Hg4, Hc4. reflexivity.
  - intros bs k flag err Hies Hg5 Hc5 Hg6 Hc6.
    unfold mnist.createMNISTDataSource.
    rewrite Hg1, Hc1, Hg2, Hc2, Hg3, Hc3.
    destruct (data.Get params mnist.imageElemSizePath) as [ies|e4].
    + destruct (Hies ies eq_refl) as [e He]. rewrite He.
      rewrite Hg5, Hc5, Hg6, Hc6. reflexivity.
    + rewrite Hg5, Hc5, Hg6, Hc6. reflexivity.
Qed.

End CreateProofs.

(** X8 on the required parameters alone, for one record, under the
    limit of linux/amd64. *)
Lemma createMNISTDataSource_defaults_witness :
  exists s,
    @mnist.createMNISTDataSource sample.plain_api sample.strict_casts amd64
      (sample.two_files (sample.header 16 ++ [Byte.xff]) (sample.header 8))
      (sample.required_params 1 10)
    = Done (inl s)
    /\ mnist.imageElemSize s = 784
    /\ mnist.randomFlag s = true
    /\ mnist.dataSize s = 1
    /\ mnist.batchSize s = 10
    /\ well_formed s
    /\ Forall (fun row => List.length row = 784%nat) (mnist.data s).
Proof.
  apply (@createMNISTDataSource_defaults sample.plain_api sample.strict_casts
           amd64
           (sample.two_files (sample.header 16 ++ [Byte.xff])
                             (sample.header 8))
           (sample.required_params 1 10)
           (data.String "images") (data.String "labels")
           (data.Int 1) (data.Int 10) "images" "labels" 1 10
           (ErrOther "not found") (ErrOther "not found")
           (sample.header 16 ++ [Byte.xff]) (sample.header 8));
    try reflexivity.
  - lia.
  - right. reflexivity.
Defined.

(** X9 with [image_element_size] given as a string. *)
Lemma createMNISTDataSource_rejects_illtyped_optionals_witness :
  @mnist.createMNISTDataSource sample.plain_api sample.strict_casts unlimited
    (sample.two_files [] [])
    (sample.required_params 1 10
     ++ [("image_element_size", data.String "28x28")])
  = Done (inr (ErrOther "unsupported cast")).
Proof.
  destruct (@createMNISTDataSource_rejects_illtyped_optionals
              sample.plain_api sample.strict_casts unlimited
              (sample.two_files [] [])
              (sample.required_params 1 10
               ++ [("image_element_size", data.String "28x28")])
              (data.String "images") (data.String "labels") (data.Int 1)
              "images" "labels" 1
              eq_refl eq_refl eq_refl eq_refl eq_refl eq_refl)
    as [Hies _].
  apply (Hies (data.String "28x28")); reflexivity.
Defined.

(* ================================================================= *)
(** ** More on the model state *)

Section LifecycleProofs.

Context `{py.Runtime} `{data.API} `{mem : Memory}.


(** What one [Write] does: it appends and returns nil, or it calls fit
    with the bucket and the new record and leaves the bucket empty. *)
Lemma Write_effect (s : mlstate.PyMLState) (t : core.Tuple)
    (w : mlstate.World) :
  exists err w',
    (mlstate.Write s t w
     = (err, mlstate.set_bucket s (mlstate.bucket s ++ [core.Data t]), w')
     /\ err = None
     /\ mlstate.pytrace w' = mlstate.pytrace w
     /\ Z.of_nat (List.length (mlstate.bucket s)) + 1 < mlstate.batchSize s)
    \/ (mlstate.Write s t w = (err, mlstate.set_bucket s [], w')
        /\ err = snd (py.call_result (mlstate.pytrace w) (mlstate.ins s) "fit"
                        (data.Array (mlstate.bucket s ++ [core.Data t])))
        /\ mlstate.pytrace w'
           = mlstate.pytrace w
             ++ [py.EvCall (mlstate.ins s) "fit"
                           (data.Array (mlstate.bucket s ++ [core.Data t]))]
        /\ mlstate.batchSize s
           <= Z.of_nat (List.length (mlstate.bucket s)) + 1).
Proof.
  destruct (Z_lt_le_dec
              (Z.of_nat (List.length (mlstate.bucket s)) + 1)
              (mlstate.batchSize s)) as [Hlt | Hge].
  - exists None, w. left.
    rewrite (Write_below_threshold s t w Hlt). auto.
  - destruct (py.call_result (mlstate.pytrace w) (mlstate.ins s) "fit"
                (data.Array (mlstate.bucket s ++ [core.Data t])))
      as [m er] eqn:Ecall.
    eexists. eexists. right.
    rewrite (Write_at_threshold s t w m er Hge Ecall).
    split; [reflexivity|]. split; [reflexivity|].
    split; [apply log_fit_result_pytrace|exact Hge].
Qed.

Lemma apply_op_keeps_handles (o : mlstate.operation)
    (s : mlstate.PyMLState) (w : mlstate.World) :
  mlstate.mdl (fst (mlstate.apply_op o s w)) = mlstate.mdl s
  /\ mlstate.ins (fst (mlstate.apply_op o s w)) = mlstate.ins s
  /\ mlstate.batchSize (fst (mlstate.apply_op o s w)) = mlstate.batchSize s
  /\ exists new,
       mlstate.pytrace (snd (mlstate.apply_op o s w))
       = mlstate.pytrace w ++ new.
Proof.
  destruct o as [t | b | b | dt |]; cbn [mlstate.apply_op].
  - destruct (Write_effect s t w)
      as (err & w' & [(-> & _ & Htr & _) | (-> & _ & Htr & _)]);
      cbn [fst snd mlstate.set_bucket mlstate.mdl mlstate.ins
           mlstate.batchSize]; repeat split.
    + exists []. rewrite app_nil_r. exact Htr.
    + eexists. exact Htr.
  - unfold mlstate.Fit, mlstate.Call.
    destruct (py.call_result _ _ _ _). cbn [fst snd].
    repeat split. eexists. reflexivity.
  - unfold mlstate.FitMap, mlstate.Call.
    destruct (py.call_result _ _ _ _). cbn [fst snd].
    repeat split. eexists. reflexivity.
  - unfold mlstate.Call.
    destruct (py.call_result _ _ _ _). cbn [fst snd].
    repeat split. eexists. reflexivity.
  - unfold mlstate.Terminate. cbn [fst snd mlstate.record_event
                                   mlstate.pytrace].
    repeat split. eexists. rewrite <- app_assoc. reflexivity.
Qed.

(** X11.  No sequence of writes, fits, predictions and terminations
    changes the two handles or the batch size of a state, and none
    removes anything from the interpreter trace; so a [Terminate] after
    any such sequence returns nil and releases exactly the instance and
    the module the state started with, the instance first. *)
Theorem Terminate_releases_the_handles_held (os : list mlstate.operation) :
  forall (s : mlstate.PyMLState) (w : mlstate.World),
    let s' := fst (mlstate.apply_ops os s w) in
    let w' := snd (mlstate.apply_ops os s w) in
    mlstate.mdl s' = mlstate.mdl s
    /\ mlstate.ins s' = mlstate.ins s
    /\ mlstate.batchSize s' = mlstate.batchSize s
    /\ (exists new, mlstate.pytrace w' = mlstate.pytrace w ++ new)
    /\ exists w'',
         mlstate.Terminate s' w' = (None, s', w'')
         /\ mlstate.pytrace w''
            = mlstate.pytrace w'
              ++ [py.EvDecRefInstance (mlstate.ins s);
                  py.EvDecRefModule (mlstate.mdl s)]
         /\ mlstate.debugged w'' = mlstate.debugged w'.
Proof.
  induction os as [|o os IH]; intros s w s' w'.
  - subst s' w'. cbn [mlstate.apply_ops fst snd].
    split; [reflexivity|]. split; [reflexivity|]. split; [reflexivity|].
    split; [exists []; rewrite app_nil_r; reflexivity|].
    eexists. split; [reflexivity|].
    cbn [mlstate.record_event mlstate.pytrace mlstate.debugged].
    rewrite <- app_assoc. split; reflexivity.
  - subst s' w'. cbn [mlstate.apply_ops].
    destruct (apply_op_keeps_handles o s w)
      as (Hm & Hi & Hk & new1 & Htr1).
    destruct (mlstate.apply_op o s w) as [s1 w1]. cbn [fst snd] in *.
    destruct (IH s1 w1) as (Hm2 & Hi2 & Hk2 & (new2 & Htr2) & Hterm).
    split; [congruence|]. split; [congruence|]. split; [congruence|].
    split.
    { exists (new1 ++ new2). rewrite Htr2, Htr1, app_assoc. reflexivity. }
    rewrite <- Hm, <- Hi. exact Hterm.
Qed.

End LifecycleProofs.

Section BatchingProofs.

Context `{py.Runtime} `{data.API}.

(** X12.  Writes lose and duplicate nothing on their way to fit, for any
    batch size and whether the fit calls fail or not: the interpreter is
    crossed by fit calls on the state's instance only, and the records of
    those calls, in call order, followed by what is left in the bucket
    are the records that were in the bucket followed by the records
    written, in write order.  Every write returns. *)
Theorem writes_hand_over_every_record_once (ts : list core.Tuple) :
  forall (s : mlstate.PyMLState) (w : mlstate.World),
  exists errs s' w' new,
    mlstate.writes s ts w = (errs, s', w')
    /\ List.length errs = List.length ts
    /\ mlstate.pytrace w' = mlstate.pytrace w ++ new
    /\ Forall (fun ev => exists a,
                 ev = py.EvCall (mlstate.ins s) "fit" (data.Array a)) new
    /\ flat_map array_items (py.calls_of "fit" new) ++ mlstate.bucket s'
       = mlstate.bucket s ++ map core.Data ts
    /\ mlstate.ins s' = mlstate.ins s
    /\ mlstate.batchSize s' = mlstate.batchSize s.
Proof.
  induction ts as [|t ts IH]; intros s w.
  - exists [], s, w, []. cbn [mlstate.writes map List.length].
    rewrite !app_nil_r. repeat split. constructor.
  - cbn [mlstate.writes].
    destruct (Write_effect s t w)
      as (err & w1 & [(-> & _ & Htr & _) | (-> & _ & Htr & _)]).
    + destruct (IH (mlstate.set_bucket s (mlstate.bucket s ++ [core.Data t]))
                  w1) as (errs & s' & w' & new & -> & Hlen & Htr' & Hev
                          & Hcons & Hins & Hk).
      exists (err :: errs), s', w', new.
      split; [reflexivity|]. split; [simpl; lia|].
      split; [rewrite Htr', Htr; reflexivity|].
      split; [exact Hev|].
      split; [|split; assumption].
      rewrite Hcons. cbn [mlstate.set_bucket mlstate.bucket map].
      rewrite <- app_assoc. reflexivity.
    + destruct (IH (mlstate.set_bucket s []) w1)
        as (errs & s' & w' & new & -> & Hlen & Htr' & Hev
            & Hcons & Hins & Hk).
      exists (err :: errs), s', w'.
      exists (py.EvCall (mlstate.ins s) "fit"
                (data.Array (mlstate.bucket s ++ [core.Data t])) :: new).
      split; [reflexivity|]. split; [simpl; lia|].
      split; [rewrite Htr', Htr, <- app_assoc; reflexivity|].
      split; [constructor; [eexists; reflexivity|exact Hev]|].
      split; [|split; assumption].
      cbn [py.calls_of py.call_arg String.eqb Ascii.eqb Bool.eqb
           flat_map array_items].
      rewrite <- !app_assoc. rewrite Hcons.
      cbn [mlstate.set_bucket mlstate.bucket map app]. reflexivity.
Qed.

(** X13.  With batch size [k >= 1] and a bucket shorter than [k], every
    fit call made by a run of writes carries exactly [k] records; after
    [n] writes onto a bucket of [b] records there have been
    [(b + n) / k] fit calls and [(b + n) mod k] records are left in the
    bucket. *)
Theorem writes_fit_in_batches_of_k (ts : list core.Tuple) :
  forall (s : mlstate.PyMLState) (w : mlstate.World) (k : Z),
    1 <= k ->
    mlstate.batchSize s = k ->
    Z.of_nat (List.length (mlstate.bucket s)) < k ->
    exists errs s' w' new,
      mlstate.writes s ts w = (errs, s', w')
      /\ mlstate.pytrace w' = mlstate.pytrace w ++ new
      /\ Forall (fun v => exists a,
                   v = data.Array a /\ Z.of_nat (List.length a) = k)
                (py.calls_of "fit" new)
      /\ Z.of_nat (List.length (py.calls_of "fit" new))
         = (Z.of_nat (List.length (mlstate.bucket s))
            + Z.of_nat (List.length ts)) / k
      /\ Z.of_nat (List.length (mlstate.bucket s'))
         = (Z.of_nat (List.length (mlstate.bucket s))
            + Z.of_nat (List.length ts)) mod k.
Proof.
  induction ts as [|t ts IH]; intros s w k Hk Hbatch Hshort.
  - exists [], s, w, []. cbn [mlstate.writes List.length py.calls_of].
    rewrite app_nil_r, Z.add_0_r.
    split; [reflexivity|]. split; [reflexivity|]. split; [constructor|].
    split.
    + rewrite Z.div_small by lia. reflexivity.
    + rewrite Z.mod_small by lia. reflexivity.
  - cbn [mlstate.writes].
    destruct (Write_effect s t w)
      as (err & w1 & [(-> & _ & Htr & Hlt) | (-> & _ & Htr & Hge)]).
    + destruct (IH (mlstate.set_bucket s (mlstate.bucket s ++ [core.Data t]))
                  w1 k Hk)
        as (errs & s' & w' & new & -> & Htr' & Hall & Hcount & Hrest).
      { exact Hbatch. }
      { cbn [mlstate.set_bucket mlstate.bucket]. rewrite length_app.
        cbn [List.length]. lia. }
      cbn [mlstate.set_bucket mlstate.bucket] in Hcount, Hrest.
      rewrite length_app in Hcount, Hrest. cbn [List.length] in *.
      exists (err :: errs), s', w', new.
      split; [reflexivity|].
      split; [rewrite Htr', Htr; reflexivity|].
      split; [exact Hall|].
      replace (Z.of_nat (List.length (mlstate.bucket s))
               + Z.of_nat (S (List.length ts)))
        with (Z.of_nat (List.length (mlstate.bucket s) + 1)
              + Z.of_nat (List.length ts)) by lia.
      split; assumption.
    + destruct (IH (mlstate.set_bucket s []) w1 k Hk)
        as (errs & s' & w' & new & -> & Htr' & Hall & Hcount & Hrest).
      { exact Hbatch. }
      { cbn [mlstate.set_bucket mlstate.bucket List.length]. lia. }
      cbn [mlstate.set_bucket mlstate.bucket List.length] in Hcount, Hrest.
      assert (Hfull : Z.of_nat (List.length (mlstate.bucket s)) + 1 = k)
        by lia.
      exists (err :: errs), s', w'.
      exists (py.EvCall (mlstate.ins s) "fit"
                (data.Array (mlstate.bucket s ++ [core.Data t])) :: new).
      split; [reflexivity|].
      split; [rewrite Htr', Htr, <- app_assoc; reflexivity|].
      cbn [py.calls_of py.call_arg String.eqb Ascii.eqb Bool.eqb
           List.length].
      replace (Z.of_nat (List.length (mlstate.bucket s))
               + Z.of_nat (S (List.length ts)))
        with (Z.of_nat (List.length ts) + 1 * k) by lia.
      split.
      { constructor; [|exact Hall].
        eexists. split; [reflexivity|].
        rewrite length_app. cbn [List.length]. lia. }
      split.
      * rewrite Z.div_add by lia. rewrite Nat2Z.inj_succ, Hcount.
        simpl. lia.
      * rewrite Z.mod_add by lia. rewrite Hrest. reflexivity.
Qed.

(** X14.  With a batch size of 1, 0 or below and an empty bucket nothing
    is ever buffered: every write calls fit with its own record alone
    and leaves the bucket empty. *)
Theorem writes_fit_each_record_when_batchSize_at_most_1
    (ts : list core.Tuple) :
  forall (s : mlstate.PyMLState) (w : mlstate.World),
    mlstate.batchSize s <= 1 ->
    mlstate.bucket s = [] ->
    exists errs s' w',
      mlstate.writes s ts w = (errs, s', w')
      /\ mlstate.pytrace w'
         = mlstate.pytrace w
           ++ map (fun t => py.EvCall (mlstate.ins s) "fit"
                                      (data.Array [core.Data t])) ts
      /\ mlstate.bucket s' = [].
Proof.
  induction ts as [|t ts IH]; intros s w Hk Hempty.
  - exists [], s, w. cbn [mlstate.writes map]. rewrite app_nil_r. auto.
  - cbn [mlstate.writes].
    destruct (Write_effect s t w)
      as (err & w1 & [(-> & _ & Htr & Hlt) | (-> & _ & Htr & Hge)]).
    + rewrite Hempty in Hlt. simpl in Hlt. lia.
    + destruct (IH (mlstate.set_bucket s []) w1 Hk eq_refl)
        as (errs & s' & w' & -> & Htr' & Hb).
      exists (err :: errs), s', w'.
      split; [reflexivity|]. split; [|exact Hb].
      rewrite Htr', Htr, Hempty. cbn [mlstate.set_bucket mlstate.ins map app].
      rewrite <- app_assoc. reflexivity.
Qed.

(** X15.  Fit by name hands the maps it was given to fit as one array,
    in order, and returns what that call returned.  The bucket of the
    state plays no part: it is neither sent nor cleared, every
    registered state stays as it was and the debug log is not written.
    When the name does not resolve to a [PyMLState] the lookup error is
    returned and the interpreter is not called. *)
Theorem PyMLFit_fits_its_argument_only
    (ctx : mlstate.Context) (stateName : string)
    (maps : list data.Map_t) :
  exists v err ctx',
    mlstate.PyMLFit ctx stateName maps = (v, err, ctx')
    /\ (forall n, mlstate.lookupPyMLState ctx' n
                  = mlstate.lookupPyMLState ctx n)
    /\ mlstate.debugged (mlstate.world ctx')
       = mlstate.debugged (mlstate.world ctx)
    /\ match mlstate.lookupPyMLState ctx stateName with
       | inl s =>
           mlstate.pytrace (mlstate.world ctx')
           = mlstate.pytrace (mlstate.world ctx)
             ++ [py.EvCall (mlstate.ins s) "fit"
                           (data.Array (map data.Map maps))]
           /\ (v, err)
              = (Some (fst (py.call_result
                              (mlstate.pytrace (mlstate.world ctx))
                              (mlstate.ins s) "fit"
                              (data.Array (map data.Map maps)))),
                 snd (py.call_result
                        (mlstate.pytrace (mlstate.world ctx))
                        (mlstate.ins s) "fit"
                        (data.Array (map data.Map maps))))
       | inr e => ctx' = ctx /\ v = None /\ err = Some e
       end.
Proof.
  pose proof (PyMLFit_frames_states ctx stateName maps) as Hframe.
  unfold mlstate.PyMLFit in *.
  destruct (mlstate.lookupPyMLState ctx stateName) as [s|e] eqn:Elook.
  - unfold mlstate.FitMap, mlstate.Call in *.
    destruct (py.call_result (mlstate.pytrace (mlstate.world ctx))
                (mlstate.ins s) "fit" (data.Array (map data.Map maps)))
      as [r er] eqn:Ecall.
    cbn [snd] in Hframe.
    eexists. eexists. eexists. split; [reflexivity|].
    split; [exact Hframe|]. split; [reflexivity|].
    split; reflexivity.
  - eexists. eexists. eexists. split; [reflexivity|].
    split; [reflexivity|]. split; [reflexivity|]. auto.
Qed.

(** X16.  The debug line of a flushing [Write] does not depend on
    whether fit failed: when the value fit returned is a map whose loss
    and accuracy convert to numbers, the line is printed with both
    divided by [batchSize], and the write still returns the error of
    the fit call, if any. *)
Theorem Write_logs_even_when_fit_failed
    (s : mlstate.PyMLState) (t : core.Tuple) (w : mlstate.World)
    (m : data.Value) (er : option error) (ret : data.Map_t)
    (l a : data.Value) (loss acc : float64) :
  mlstate.batchSize s <= Z.of_nat (List.length (mlstate.bucket s)) + 1 ->
  py.call_result (mlstate.pytrace w) (mlstate.ins s) "fit"
                 (data.Array (mlstate.bucket s ++ [core.Data t])) = (m, er) ->
  data.AsMap m = inl ret ->
  data.Get ret mlstate.lossPath = inl l ->
  data.ToFloat l = inl loss ->
  data.Get ret mlstate.accPath = inl a ->
  data.ToFloat a = inl acc ->
  exists w',
    mlstate.Write s t w = (er, mlstate.set_bucket s [], w')
    /\ mlstate.debugged w'
       = mlstate.debugged w
         ++ [(f64_div loss (f64_of_Z (mlstate.batchSize s)),
              f64_div acc (f64_of_Z (mlstate.batchSize s)))].
Proof.
  intros Hge Hcall Hmap Hgl Hfl Hga Hfa.
  rewrite (Write_at_threshold s t w m er Hge Hcall).
  eexists. split; [reflexivity|].
  unfold mlstate.log_fit_result. rewrite Hmap, Hgl, Hfl, Hga, Hfa.
  reflexivity.
Qed.

End BatchingProofs.

(** X13 at batch size 2 and five writes: two fit calls, one record left. *)
Lemma writes_fit_in_batches_of_k_witness :
  let ts := map (fun i => sample.tuple_of (data.Int i)) [1; 2; 3; 4; 5] in
  let s := sample.fresh_state 2 in
  exists errs s' w' new,
    @mlstate.writes sample.learner sample.plain_api s ts sample.empty_world
    = (errs, s', w')
    /\ mlstate.pytrace w' = mlstate.pytrace sample.empty_world ++ new
    /\ Forall (fun v => exists a,
                 v = data.Array a /\ Z.of_nat (List.length a) = 2)
              (py.calls_of "fit" new)
    /\ Z.of_nat (List.length (py.calls_of "fit" new))
       = (Z.of_nat (List.length (mlstate.bucket s))
          + Z.of_nat (List.length ts)) / 2
    /\ Z.of_nat (List.length (mlstate.bucket s'))
       = (Z.of_nat (List.length (mlstate.bucket s))
          + Z.of_nat (List.length ts)) mod 2.
Proof.
  intros ts s.
  apply (@writes_fit_in_batches_of_k sample.learner sample.plain_api
           ts s sample.empty_world 2).
  - lia.
  - reflexivity.
  - simpl. lia.
Defined.

Example five_writes_at_batch_size_2 :
  @mlstate.writes sample.learner sample.plain_api (sample.fresh_state 2)
    (map (fun i => sample.tuple_of (data.Int i)) [1; 2; 3; 4; 5])
    sample.empty_world
  = ([None; None; None; None; None],
     mlstate.set_bucket (sample.fresh_state 2) [data.Int 5],
     {| mlstate.pytrace :=
          [py.EvCall 2%nat "fit" (data.Array [data.Int 1; data.Int 2]);
           py.EvCall 2%nat "fit" (data.Array [data.Int 3; data.Int 4])];
        mlstate.debugged := [(f64_of_Z 3, f64_div (f64_of_Z 3) (f64_of_Z 2));
                             (f64_of_Z 3, f64_div (f64_of_Z 3) (f64_of_Z 2))]
     |}).
Proof. reflexivity. Qed.

(** X14 at batch size 0. *)
Lemma writes_fit_each_record_when_batchSize_at_most_1_witness :
  let ts := [sample.tuple_of (data.Int 10); sample.tuple_of (data.Int 20)] in
  exists errs s' w',
    @mlstate.writes sample.learner sample.plain_api (sample.fresh_state 0)
      ts sample.empty_world
    = (errs, s', w')
    /\ mlstate.pytrace w'
       = mlstate.pytrace sample.empty_world
         ++ map (fun t => py.EvCall (mlstate.ins (sample.fresh_state 0)) "fit"
                                    (data.Array [core.Data t])) ts
    /\ mlstate.bucket s' = [].
Proof.
  intros ts.
  apply (@writes_fit_each_record_when_batchSize_at_most_1
           sample.learner sample.plain_api ts (sample.fresh_state 0)
           sample.empty_world).
  - simpl. lia.
  - reflexivity.
Defined.

(** X16 at batch size 1 with a fit that fails and reports 6 and 3. *)
Lemma Write_logs_even_when_fit_failed_witness :
  exists w',
    @mlstate.Write sample.failing_with_report sample.plain_api
      (sample.fresh_state 1) (sample.tuple_of (data.Int 10))
      sample.empty_world
    = (Some (ErrOther "fit failed"),
       mlstate.set_bucket (sample.fresh_state 1) [], w')
    /\ mlstate.debugged w'
       = mlstate.debugged sample.empty_world
         ++ [(f64_div (f64_of_Z 6)
                      (f64_of_Z (mlstate.batchSize (sample.fresh_state 1))),
              f64_div (f64_of_Z 3)
                      (f64_of_Z (mlstate.batchSize (sample.fresh_state 1))))].
Proof.
  apply (@Write_logs_even_when_fit_failed
           sample.failing_with_report sample.plain_api
           (sample.fresh_state 1) (sample.tuple_of (data.Int 10))
           sample.empty_world
           (data.Map [("loss", data.Int 6); ("accuracy", data.Int 3)])
           (Some (ErrOther "fit failed"))
           [("loss", data.Int 6); ("accuracy", data.Int 3)]
           (data.Int 6) (data.Int 3) (f64_of_Z 6) (f64_of_Z 3));
    reflexivity.
Defined.

(* ================================================================= *)
(** ** From the files to the tuples *)

Lemma take_padded_as_nth (n : nat) (r : Reader) :
  take_padded n r = map (fun j => nth j r Byte.x00) (seq 0 n).
Proof.
  revert r. induction n as [|n IH]; intros r.
  - reflexivity.
  - cbn [take_padded seq map]. rewrite <- seq_shift, map_map.
    destruct r as [|b r]; cbn [nth]; rewrite IH.
    + f_equal. apply map_ext. intros j. destruct j; reflexivity.
    + reflexivity.
Qed.

Section EndToEnd.

Context {R C W : Type} `{RandSource R} `{Clock C} `{core.Writer W}
        `{mem : Memory}.

(** X17.  From the files to the stream: once both files are open, and on
    any machine whose [make] grants the [n] rows and, when there are
    rows, the [e] values of a tuple's image (and so the [e] floats of a
    row), the source built from the files exists, and the [k]-th tuple
    any stream call on it writes carries as
    label the byte at offset [8 + k] of the label file and as data the
    [e] bytes from offset [16 + k * e] of the image file, each divided
    by 255 in float32 and widened to float64, with zero bytes past the
    end of a file. *)
Theorem stream_of_created_source_carries_file_bytes
    (fs : FileSystem) (ip lp : string) (ifile lfile : list Byte.byte)
    (n e : nat) (batchSize : Z) (randomFlag : bool) :
  fs ip = inl ifile ->
  fs lp = inl lfile ->
  fits size_slice (Z.of_nat n) = true ->
  (n = 0%nat \/ fits size_value (Z.of_nat e) = true) ->
  exists s,
    mnist.newDataSource fs ip lp (Z.of_nat n) (Z.of_nat e) batchSize
                        randomFlag = Done (inl s)
    /\ forall env : mnist.Env R C W,
       exists err env' new,
         mnist.GenerateStream s env = Done (err, env')
         /\ mnist.written env' = mnist.written env ++ new
         /\ (List.length new <= n)%nat
         /\ forall k tu,
              nth_error new k = Some tu ->
              core.Data tu
              = data.Map
                  [("label",
                    data.Int (byte_to_Z (nth (8 + k) lfile Byte.x00)));
                   ("data",
                    data.Array
                      (map (fun j =>
                              data.Float
                                (f64_of_f32
                                   (mnist.normalize
                                      (nth (16 + (k * e + j)) ifile
                                           Byte.x00))))
                           (seq 0 e)))].
Proof.
  intros Hi Hl Hfn Hfv. unfold mnist.newDataSource.
  assert (Hfe : n = 0%nat \/ fits size_float32 (Z.of_nat e) = true).
  { destruct Hfv as [-> | Hfv]; [left; reflexivity|right].
    apply (fits_smaller size_value); [lia|cbv; split; discriminate|].
    exact Hfv. }
  rewrite (getMNISTRawData_within fs ip lp ifile lfile n e Hi Hl Hfn Hfe).
  cbn [Go.bind]. eexists. split; [reflexivity|].
  intros env.
  set (s := {| mnist.data := images n e (skipn 16 ifile);
               mnist.target := map byte_to_Z (take_padded n (skipn 8 lfile));
               mnist.dataSize := Z.of_nat n;
               mnist.imageElemSize := Z.of_nat e;
               mnist.batchSize := batchSize;
               mnist.randomFlag := randomFlag |}).
  assert (Hsize : 0 <= mnist.dataSize s) by (cbn; lia).
  assert (Hfp : fits size_int (mnist.dataSize s) = true).
  { apply (fits_smaller size_slice); [exact Hsize|cbv; split; discriminate|].
    exact Hfn. }
  destruct (stream_perm_within s (mnist.rng env) Hsize Hfp)
    as (perm & r' & Hperm & _).
  destruct (emit_from_outcome (Z.to_nat (mnist.dataSize s)) 0 s
              {| mnist.rng := r'; mnist.clock := mnist.clock env;
                 mnist.sink := mnist.sink env;
                 mnist.written := mnist.written env;
                 mnist.logged := mnist.logged env |})
    as (r & env' & k & Hrun & Hw & _ & Hend).
  { cbn [s mnist.data mnist.dataSize]. rewrite length_images. lia. }
  { cbn [s mnist.target mnist.dataSize].
    rewrite length_map, length_take_padded. lia. }
  cbn [mnist.written mnist.clock] in Hw.
  assert (Hrec : forall j tu,
            nth_error
              (firstn k (stream_tuples (Z.to_nat (mnist.dataSize s)) 0 s
                                       (mnist.clock env))) j = Some tu ->
            core.Data tu
            = data.Map
                [("label",
                  data.Int (byte_to_Z (nth (8 + j) lfile Byte.x00)));
                 ("data",
                  data.Array
                    (map (fun i =>
                            data.Float
                              (f64_of_f32
                                 (mnist.normalize
                                    (nth (16 + (j * e + i)) ifile
                                         Byte.x00))))
                         (seq 0 e)))]).
  { intros j tu Hj.
    assert (Hjn : (j < n)%nat).
    { apply nth_error_firstn_some in Hj.
      assert (Hsome : nth_error
                (stream_tuples (Z.to_nat (mnist.dataSize s)) 0 s
                               (mnist.clock env)) j <> None)
        by (rewrite Hj; discriminate).
      apply nth_error_Some in Hsome.
      rewrite length_stream_tuples in Hsome.
      cbn [s mnist.dataSize] in Hsome. lia. }
    apply nth_error_firstn_some in Hj.
    apply nth_stream_tuples in Hj. destruct Hj as [Hdata _].
    rewrite Hdata, Nat.add_0_l. unfold record_data.
    cbn [s mnist.target mnist.data].
    pose proof (nth_take_padded n j (skipn 8 lfile) Hjn) as Hlab.
    pose proof (nth_images n e j (skipn 16 ifile) Hjn) as Himg.
    rewrite (nth_error_nth _ _ 0
               (eq_trans (nth_error_map _ _ _)
                         (f_equal (option_map byte_to_Z) Hlab))).
    rewrite (nth_error_nth _ _ [] Himg).
    cbn [option_map]. rewrite nth_skipn_shift.
    rewrite take_padded_as_nth, !map_map.
    do 5 f_equal.
    apply map_ext. intros i. rewrite !nth_skipn_shift. reflexivity. }
  unfold mnist.GenerateStream. rewrite Hperm. cbn [Go.bind].
  rewrite Hrun. cbn [Go.bind].
  assert (Hlen : (List.length
                    (firstn k (stream_tuples (Z.to_nat (mnist.dataSize s)) 0
                                             s (mnist.clock env))) <= n)%nat).
  { rewrite length_firstn, length_stream_tuples.
    cbn [s mnist.dataSize]. lia. }
  destruct Hend as [[-> ->] | (err & -> & _ & _)].
  - eexists. eexists. eexists. split; [reflexivity|].
    cbn [mnist.written]. split; [exact Hw|]. split; [exact Hlen|exact Hrec].
  - exists err, env'. eexists. split; [reflexivity|].
    split; [exact Hw|]. split; [exact Hlen|exact Hrec].
Qed.

End EndToEnd.

(** X17 at one 2-byte image with label 5, under the limit of
    linux/amd64. *)
Lemma stream_of_created_source_carries_file_bytes_witness :
  exists s,
    mnist.newDataSource (mem := amd64)
      (sample.two_files (sample.header 16 ++ [Byte.x00; Byte.xff])
                        (sample.header 8 ++ [Byte.x05]))
      "images" "labels" (Z.of_nat 1) (Z.of_nat 2) 1 true
    = Done (inl s)
    /\ forall env : mnist.Env (list Z) nat (list (option error)),
       exists err env' new,
         mnist.GenerateStream (mem := amd64) s env = Done (err, env')
         /\ mnist.written env' = mnist.written env ++ new
         /\ (List.length new <= 1)%nat
         /\ forall k tu,
              nth_error new k = Some tu ->
              core.Data tu
              = data.Map
                  [("label",
                    data.Int (byte_to_Z
                                (nth (8 + k) (sample.header 8 ++ [Byte.x05])
                                     Byte.x00)));
                   ("data",
                    data.Array
                      (map (fun j =>
                              data.Float
                                (f64_of_f32
                                   (mnist.normalize
                                      (nth (16 + (k * 2 + j))
                                           (sample.header 16
                                            ++ [Byte.x00; Byte.xff])
                                           Byte.x00))))
                           (seq 0 2)))].
Proof.
  apply (stream_of_created_source_carries_file_bytes (mem := amd64)
           (sample.two_files (sample.header 16 ++ [Byte.x00; Byte.xff])
                             (sample.header 8 ++ [Byte.x05]))
           "images" "labels"
           (sample.header 16 ++ [Byte.x00; Byte.xff])
           (sample.header 8 ++ [Byte.x05]) 1%nat 2%nat 1 true);
    [reflexivity|reflexivity|reflexivity|right; reflexivity].
Defined.

Example created_source_streams_file_bytes :
  exists s env',
    mnist.newDataSource
      (sample.two_files (sample.header 16 ++ [Byte.x00; Byte.xff])
                        (sample.header 8 ++ [Byte.x05]))
      "images" "labels" 1 2 1 true
    = Done (inl s)
    /\ mnist.GenerateStream s (sample.env_of [0] []) = Done (None, env')
    /\ map core.Data (mnist.written env')
       = [data.Map
            [("label", data.Int 5);
             ("data", data.Array [data.Float (S754_zero false);
                                  data.Float (f64_of_Z 1)])]].
Proof. eexists. eexists. split; [reflexivity|]. split; reflexivity. Qed.

Section UnusedFields.

Context {R C W : Type} `{RandSource R} `{Clock C} `{core.Writer W}
        `{mem : Memory}.

Lemma emit_from_reads_data_and_target (todo : nat) :
  forall (i : nat) (s1 s2 : mnist.mnistDataSource) (env : mnist.Env R C W),
    mnist.data s1 = mnist.data s2 ->
    mnist.target s1 = mnist.target s2 ->
    mnist.emit_from todo i s1 env = mnist.emit_from todo i s2 env.
Proof.
  induction todo as [|todo IH]; intros i s1 s2 env Hd Ht.
  - reflexivity.
  - cbn [mnist.emit_from]. rewrite Hd, Ht.
    destruct (index (mnist.data s2) i) as [row|k]; [|reflexivity].
    cbn [Go.bind].
    destruct (index (mnist.target s2) i) as [label|k]; [|reflexivity].
    cbn [Go.bind].
    destruct (Now (mnist.clock env)) as [now c'].
    destruct (core.Write (mnist.sink env) _) as [a w'].
    destruct (mnist.is_halt a); [reflexivity|].
    apply IH; assumption.
Qed.

(** X18.  [batchSize] and [imageElemSize] of the source play no part in
    a stream call: two sources with the same images, labels, [dataSize]
    and [randomFlag] stream alike, one tuple per record, whatever their
    batch sizes. *)
Theorem GenerateStream_ignores_batchSize
    (s1 s2 : mnist.mnistDataSource) (env : mnist.Env R C W) :
  mnist.data s1 = mnist.data s2 ->
  mnist.target s1 = mnist.target s2 ->
  mnist.dataSize s1 = mnist.dataSize s2 ->
  mnist.randomFlag s1 = mnist.randomFlag s2 ->
  mnist.GenerateStream s1 env = mnist.GenerateStream s2 env.
Proof.
  intros Hd Ht Hn Hf. unfold mnist.GenerateStream, mnist.stream_perm.
  rewrite Hn, Hf.
  destruct (make size_int 0 (mnist.dataSize s2)) as [perm0|k];
    [|reflexivity].
  cbn [Go.bind].
  destruct (mnist.fill_identity (List.length perm0) 0 perm0)
    as [perm1|k]; [|reflexivity].
  cbn [Go.bind].
  destruct (if mnist.randomFlag s2
            then mnist.ramdomPermutaion perm1 (mnist.rng env)
            else Done (perm1, mnist.rng env)) as [[perm r']|k];
    [|reflexivity].
  cbn [Go.bind].
  rewrite (emit_from_reads_data_and_target _ 0 s1 s2 _ Hd Ht).
  reflexivity.
Qed.

End UnusedFields.

(** X18 at batch sizes 1 and 100. *)
Lemma GenerateStream_ignores_batchSize_witness :
  mnist.GenerateStream (sample.source_of [7; 3] false) (sample.env_of [] [])
  = mnist.GenerateStream
      {| mnist.data := [[S754_zero false]; [S754_zero false]];
         mnist.target := [7; 3];
         mnist.dataSize := 2;
         mnist.imageElemSize := 784;
         mnist.batchSize := 100;
         mnist.randomFlag := false |}
      (sample.env_of [] []).
Proof.
  apply (GenerateStream_ignores_batchSize
           (sample.source_of [7; 3] false)
           {| mnist.data := [[S754_zero false]; [S754_zero false]];
              mnist.target := [7; 3];
              mnist.dataSize := 2;
              mnist.imageElemSize := 784;
              mnist.batchSize := 100;
              mnist.randomFlag := false |}
           (sample.env_of [] []));
    reflexivity.
Defined.
